(** * Inventory movement and ledger consistency of the Nexa Flow ERP server

    A shallow embedding of the inventory ledger ([InventoryRepository],
    [InventoryService]), the document number generators of the stock
    repositories and the four movement services ([StockInService],
    [StockOutService], [StockTransferService], [StockCheckService]),
    followed by the properties of the specification that concern them.

    Modelling conventions.
    - The persisted tables are finite maps.  The balance table is keyed by
      the composite unique key [(warehouseId, productId)]; each document
      table is keyed by the document id.  The line items of a document are
      kept with their parent, in creation order.
    - Quantities are JavaScript numbers that the specification reads as
      integers; they are modelled by [Z].
    - An interactive transaction [prisma.$transaction(async tx => ...)] is a
      state-and-error computation over the database: when the callback
      throws, the database the caller observes is the one it started from.
    - The values supplied by the environment (the id the storage layer gives
      a new row, the reading of the clock) are explicit arguments. *)

From Stdlib Require Import ZArith String Ascii List Lia DecimalString DecimalNat.
From stdpp Require Import gmap strings list fin_maps sorting.

Local Open Scope string_scope.
Local Open Scope Z_scope.

(** ** Errors

    The services throw [Error] objects that differ by their message only.
    Each constructor stands for one message (the message depends on the
    document kind where a kind is given). *)

Inductive DocKind := KStockIn | KStockOut | KStockTransfer | KStockCheck.

Inductive Error :=
| WarehouseNotFound              (* '仓库不存在' *)
| SourceWarehouseNotFound        (* '源仓库不存在' *)
| TargetWarehouseNotFound        (* '目标仓库不存在' *)
| SameWarehouse                  (* '源仓库和目标仓库不能相同' *)
| ProductNotFound (productId : string)   (* `产品不存在: ${productId}` *)
| ProductMissing                 (* '产品不存在' *)
| DocumentNotFound (k : DocKind)         (* '入库单不存在', ... *)
| AlreadyCompleted (k : DocKind)         (* '入库单已完成', ... *)
| AlreadyCancelled (k : DocKind)         (* '入库单已取消，无法完成', ... *)
| CompletedNotEditable (k : DocKind)     (* '已完成的入库单不能修改', ... *)
| CancelledNotEditable (k : DocKind)     (* '已取消的入库单不能修改', ... *)
| InventoryMissing               (* '库存不存在' *)
| InventoryInsufficient          (* '库存不足' *)
| UniqueViolation                (* storage: unique constraint failed *)
| RecordNotFound                 (* storage: record to update not found *)
| NullDereference.               (* TypeError: property of null *)

Inductive result (A : Type) :=
| Ok (a : A)
| Err (e : Error).
Arguments Ok {A} a.
Arguments Err {A} e.

(** The error classes of the specification, read on the messages. *)


Definition isDocumentNotEditable (e : Error) : bool :=
  match e with
  | CompletedNotEditable _ | CancelledNotEditable _ => true
  | _ => false
  end.

(** ** Entities *)

Module Inventory.
Record t := mk {
  quantity : Z;
  availableQuantity : Z;
  reservedQuantity : Z;
}.

(** The balance invariant of the specification. *)
Definition consistent (r : t) : Prop :=
  quantity r = availableQuantity r + reservedQuantity r.
End Inventory.

Module StockInItem.
Record t := mk {
  productId : string;
  quantity : Z;
  location : option string;
  batchNo : option string;
  remark : option string;
}.
End StockInItem.

Module StockIn.
Record t := mk {
  inNo : string;
  warehouseId : string;
  type : string;
  relatedOrderId : option string;
  relatedOrderNo : option string;
  inDate : Z;
  operator : string;
  status : string;
  remark : option string;
  createdAt : Z;
  items : list StockInItem.t;
}.
End StockIn.

Module StockOutItem.
Record t := mk {
  productId : string;
  quantity : Z;
  location : option string;
  batchNo : option string;
  remark : option string;
}.
End StockOutItem.

Module StockOut.
Record t := mk {
  outNo : string;
  warehouseId : string;
  type : string;
  relatedOrderId : option string;
  relatedOrderNo : option string;
  outDate : Z;
  operator : string;
  status : string;
  remark : option string;
  createdAt : Z;
  items : list StockOutItem.t;
}.
End StockOut.

Module StockTransferItem.
Record t := mk {
  productId : string;
  quantity : Z;
  fromLocation : option string;
  toLocation : option string;
  batchNo : option string;
  remark : option string;
}.
End StockTransferItem.

Module StockTransfer.
Record t := mk {
  transferNo : string;
  fromWarehouseId : string;
  toWarehouseId : string;
  transferDate : Z;
  operator : string;
  status : string;
  remark : option string;
  createdAt : Z;
  items : list StockTransferItem.t;
}.
End StockTransfer.

Module StockCheckItem.
Record t := mk {
  productId : string;
  bookQuantity : Z;
  actualQuantity : Z;
  difference : Z;
  location : option string;
  reason : option string;
}.
End StockCheckItem.

Module StockCheck.
Record t := mk {
  checkNo : string;
  warehouseId : string;
  checkDate : Z;
  checker : string;
  status : string;
  remark : option string;
  createdAt : Z;
  items : list StockCheckItem.t;
}.
End StockCheck.

Module Warehouse.
Record t := mk { name : string }.
End Warehouse.

(** ** The database *)

Record DB := mkDB {
  warehouses : gmap string Warehouse.t;
  products : gset string;
  inventory : gmap (string * string) Inventory.t;
  stockIns : gmap string StockIn.t;
  stockOuts : gmap string StockOut.t;
  stockTransfers : gmap string StockTransfer.t;
  stockChecks : gmap string StockCheck.t;
}.

Definition with_inventory (f : gmap (string * string) Inventory.t) (db : DB) : DB :=
  mkDB (warehouses db) (products db) f
       (stockIns db) (stockOuts db) (stockTransfers db) (stockChecks db).

Definition with_stockIns (f : gmap string StockIn.t) (db : DB) : DB :=
  mkDB (warehouses db) (products db) (inventory db)
       f (stockOuts db) (stockTransfers db) (stockChecks db).

Definition with_stockOuts (f : gmap string StockOut.t) (db : DB) : DB :=
  mkDB (warehouses db) (products db) (inventory db)
       (stockIns db) f (stockTransfers db) (stockChecks db).

Definition with_stockTransfers (f : gmap string StockTransfer.t) (db : DB) : DB :=
  mkDB (warehouses db) (products db) (inventory db)
       (stockIns db) (stockOuts db) f (stockChecks db).

Definition with_stockChecks (f : gmap string StockCheck.t) (db : DB) : DB :=
  mkDB (warehouses db) (products db) (inventory db)
       (stockIns db) (stockOuts db) (stockTransfers db) f.

(** ** Transactions

    [Tx A] is the body of a transaction callback: it reads and writes the
    database through [tx] and either returns or throws. *)

Definition Tx (A : Type) : Type := DB -> result (A * DB).

Definition ret {A} (a : A) : Tx A := fun db => Ok (a, db).
Definition throw {A} (e : Error) : Tx A := fun _ => Err e.
Definition bind {A B} (m : Tx A) (k : A -> Tx B) : Tx B :=
  fun db => match m db with
            | Ok (a, db') => k a db'
            | Err e => Err e
            end.

Notation "x <- m ;; k" := (bind m (fun x => k))
  (at level 100, m at next level, right associativity).
Notation "m ;;; k" := (bind m (fun _ => k))
  (at level 100, right associativity).

(** [for (const item of items) { await body(item) }] *)
Fixpoint forEach {A} (body : A -> Tx unit) (items : list A) : Tx unit :=
  match items with
  | [] => ret tt
  | item :: rest => body item ;;; forEach body rest
  end.

(** [prisma.$transaction(callback)]: commit on return, roll back on throw. *)
Definition transaction {A} (body : Tx A) (db : DB) : result A * DB :=
  match body db with
  | Ok (a, db') => (Ok a, db')
  | Err e => (Err e, db)
  end.

(** ** InventoryRepository and InventoryService *)

(** [InventoryRepository.updateQuantity] *)
Definition updateQuantity (warehouseId productId : string) (quantity : Z)
    (availableQuantity reservedQuantity : option Z) (db : DB)
    : result Inventory.t * DB :=
  transaction (fun tx =>
    match inventory tx !! (warehouseId, productId) with
    | None =>
        let row := Inventory.mk quantity
                     (default quantity availableQuantity)
                     (default 0 reservedQuantity) in
        Ok (row, with_inventory (<[(warehouseId, productId) := row]> (inventory tx)) tx)
    | Some existing =>
        let row := Inventory.mk
                     (Inventory.quantity existing + quantity)
                     (default (Inventory.availableQuantity existing
                               + (quantity - default 0 reservedQuantity))
                              availableQuantity)
                     (default (Inventory.reservedQuantity existing) reservedQuantity) in
        Ok (row, with_inventory (<[(warehouseId, productId) := row]> (inventory tx)) tx)
    end) db.

(** [InventoryService.increaseInventoryInTransaction] *)
Definition increaseInventoryInTransaction (warehouseId productId : string)
    (quantity : Z) : Tx unit :=
  fun tx =>
    match inventory tx !! (warehouseId, productId) with
    | None =>
        Ok (tt, with_inventory
                  (<[(warehouseId, productId) := Inventory.mk quantity quantity 0]>
                     (inventory tx)) tx)
    | Some existing =>
        Ok (tt, with_inventory
                  (<[(warehouseId, productId) :=
                       Inventory.mk (Inventory.quantity existing + quantity)
                                    (Inventory.availableQuantity existing + quantity)
                                    (Inventory.reservedQuantity existing)]>
                     (inventory tx)) tx)
    end.

(** [InventoryService.decreaseInventoryInTransaction] *)
Definition decreaseInventoryInTransaction (warehouseId productId : string)
    (quantity : Z) : Tx unit :=
  fun tx =>
    match inventory tx !! (warehouseId, productId) with
    | None => Err InventoryMissing
    | Some existing =>
        if Inventory.availableQuantity existing <? quantity
        then Err InventoryInsufficient
        else
          Ok (tt, with_inventory
                    (<[(warehouseId, productId) :=
                         Inventory.mk (Inventory.quantity existing - quantity)
                                      (Inventory.availableQuantity existing - quantity)
                                      (Inventory.reservedQuantity existing)]>
                       (inventory tx)) tx)
    end.

(** [InventoryService.increaseInventory] and [decreaseInventory]: the
    variants that validate the references and open their own transaction
    through the repository. *)
Definition increaseInventory (warehouseId productId : string) (quantity : Z)
    (db : DB) : result unit * DB :=
  match warehouses db !! warehouseId with
  | None => (Err WarehouseNotFound, db)
  | Some _ =>
      if decide (productId ∈ products db) then
        match updateQuantity warehouseId productId quantity None None db with
        | (Ok _, db') => (Ok tt, db')
        | (Err e, db') => (Err e, db')
        end
      else (Err ProductMissing, db)
  end.

Definition decreaseInventory (warehouseId productId : string) (quantity : Z)
    (db : DB) : result unit * DB :=
  match warehouses db !! warehouseId with
  | None => (Err WarehouseNotFound, db)
  | Some _ =>
      if decide (productId ∈ products db) then
        match inventory db !! (warehouseId, productId) with
        | None => (Err InventoryInsufficient, db)
        | Some inv =>
            if Inventory.availableQuantity inv <? quantity
            then (Err InventoryInsufficient, db)
            else
              match updateQuantity warehouseId productId (- quantity) None None db with
              | (Ok _, db') => (Ok tt, db')
              | (Err e, db') => (Err e, db')
              end
        end
      else (Err ProductMissing, db)
  end.

(** ** Document numbers *)

(** [String(n)] for a natural number: its decimal numeral. *)
Definition String_of_nat (n : nat) : string :=
  NilEmpty.string_of_uint (Nat.to_uint n).

Fixpoint repeatChar (c : ascii) (n : nat) : string :=
  match n with
  | O => EmptyString
  | S n' => String c (repeatChar c n')
  end.

(** [s.padStart(targetLength, c)] for a one-character pad string. *)
Definition padStart (targetLength : nat) (c : ascii) (s : string) : string :=
  repeatChar c (targetLength - String.length s) +:+ s.

(** [s.startsWith(p)] *)
Definition startsWith (p s : string) : bool := String.prefix p s.

(** [count({ no: { startsWith: p } })] over a document table whose number
    column is read by [no]. *)
Definition countStartsWith {D} (no : D -> string) (p : string)
    (table : gmap string D) : nat :=
  size (filter (fun kv => Is_true (startsWith p (no kv.2))) table).

(** The body shared by [generateInNo], [generateOutNo], [generateCheckNo]
    and [generateTransferNo]; [dateStr] is
    [new Date().toISOString().slice(0, 10).replace(/-/g, '')]. *)
Definition generateNo {D} (no : D -> string) (table : gmap string D)
    (prefix dateStr : string) : string :=
  let count := countStartsWith no (prefix +:+ dateStr) table in
  let seq := padStart 3 "0"%char (String_of_nat (count + 1)%nat) in
  prefix +:+ dateStr +:+ seq.

(** [StockInRepository.generateInNo] *)
Definition generateInNo (prefix dateStr : string) (db : DB) : string :=
  generateNo StockIn.inNo (stockIns db) prefix dateStr.

(** [StockOutRepository.generateOutNo] *)
Definition generateOutNo (prefix dateStr : string) (db : DB) : string :=
  generateNo StockOut.outNo (stockOuts db) prefix dateStr.

(** [StockCheckRepository.generateCheckNo] *)
Definition generateCheckNo (prefix dateStr : string) (db : DB) : string :=
  generateNo StockCheck.checkNo (stockChecks db) prefix dateStr.

(** [StockTransferRepository.generateTransferNo] *)
Definition generateTransferNo (prefix dateStr : string) (db : DB) : string :=
  generateNo StockTransfer.transferNo (stockTransfers db) prefix dateStr.

(** The sequence number read back from a padded numeral. *)
Definition seqOfString (s : string) : option nat :=
  Nat.of_uint <$> NilEmpty.uint_of_string s.

(** ** Storage primitives used inside transactions *)

(** What the environment supplies when a document is created. *)
Record Env := mkEnv {
  newId : string;     (* the id the storage layer gives the new row *)
  now : Z;            (* the clock, for the createdAt column *)
  dateStr : string;   (* the clock's UTC date as YYYYMMDD *)
}.

(** Modelled from the spec: the Prisma schema is not among the sources; the
    document tables have a primary key [id] and "a unique document-number
    column", so an insert fails when either is already present. *)
Definition insertRow {D} (no : D -> string) (id : string) (d : D)
    (table : gmap string D) : option (gmap string D) :=
  match table !! id with
  | Some _ => None
  | None =>
      if decide (map_Forall (fun _ d' => no d' <> no d) table)
      then Some (<[id := d]> table)
      else None
  end.

(** JavaScript truthiness of an optional string. *)
Definition truthy (s : option string) : option string :=
  match s with
  | Some EmptyString => None
  | other => other
  end.

(** The product existence loop shared by the create and update paths:
    [for (const item of items) { if (!product) throw ... }]. *)
Fixpoint validateProducts {I} (productId : I -> string) (items : list I)
    (db : DB) : option Error :=
  match items with
  | [] => None
  | item :: rest =>
      if decide (productId item ∈ products db)
      then validateProducts productId rest db
      else Some (ProductNotFound (productId item))
  end.

(** [if (data.warehouseId) { if (!warehouse) throw ... }] *)
Definition validateOptWarehouse (warehouseId : option string) (db : DB)
    : option Error :=
  match truthy warehouseId with
  | Some w =>
      match warehouses db !! w with
      | None => Some WarehouseNotFound
      | Some _ => None
      end
  | None => None
  end.

(** [if (data.items) { for (const item of data.items) ... }] *)
Definition validateOptProducts {I} (productId : I -> string)
    (items : option (list I)) (db : DB) : option Error :=
  match items with
  | Some l => validateProducts productId l db
  | None => None
  end.

(** ** StockInService *)

Module CreateStockInInput.
Record t := mk {
  warehouseId : string;
  type : string;
  relatedOrderId : option string;
  relatedOrderNo : option string;
  inDate : Z;
  items : list StockInItem.t;
  remark : option string;
}.
End CreateStockInInput.

Module PartialStockInInput.
Record t := mk {
  warehouseId : option string;
  type : option string;
  relatedOrderId : option string;
  relatedOrderNo : option string;
  inDate : option Z;
  items : option (list StockInItem.t);
  remark : option string;
}.
End PartialStockInInput.

Definition stockIn_create (id : string) (d : StockIn.t) : Tx (string * StockIn.t) :=
  fun tx =>
    match insertRow StockIn.inNo id d (stockIns tx) with
    | Some table => Ok ((id, d), with_stockIns table tx)
    | None => Err UniqueViolation
    end.

Definition stockIn_update (id : string) (f : StockIn.t -> StockIn.t) : Tx StockIn.t :=
  fun tx =>
    match stockIns tx !! id with
    | Some d => Ok (f d, with_stockIns (<[id := f d]> (stockIns tx)) tx)
    | None => Err RecordNotFound
    end.

Definition stockIn_setStatus (s : string) (d : StockIn.t) : StockIn.t :=
  StockIn.mk (StockIn.inNo d) (StockIn.warehouseId d) (StockIn.type d)
    (StockIn.relatedOrderId d) (StockIn.relatedOrderNo d) (StockIn.inDate d)
    (StockIn.operator d) s (StockIn.remark d) (StockIn.createdAt d)
    (StockIn.items d).

Definition stockIn_setItems (l : list StockInItem.t) (d : StockIn.t) : StockIn.t :=
  StockIn.mk (StockIn.inNo d) (StockIn.warehouseId d) (StockIn.type d)
    (StockIn.relatedOrderId d) (StockIn.relatedOrderNo d) (StockIn.inDate d)
    (StockIn.operator d) (StockIn.status d) (StockIn.remark d)
    (StockIn.createdAt d) l.

(** [tx.stockInItem.deleteMany({ where: { stockInId: id } })] *)
Definition stockInItem_deleteMany (id : string) : Tx unit :=
  fun tx =>
    match stockIns tx !! id with
    | Some d => Ok (tt, with_stockIns (<[id := stockIn_setItems [] d]> (stockIns tx)) tx)
    | None => Ok (tt, tx)
    end.

(** The [data] object of [updateStockIn]: spread of the supplied fields. *)
Definition stockIn_patch (data : PartialStockInInput.t) (d : StockIn.t) : StockIn.t :=
  StockIn.mk
    (StockIn.inNo d)
    (default (StockIn.warehouseId d) (truthy (PartialStockInInput.warehouseId data)))
    (default (StockIn.type d) (truthy (PartialStockInInput.type data)))
    (match PartialStockInInput.relatedOrderId data with
     | Some v => Some v | None => StockIn.relatedOrderId d end)
    (match PartialStockInInput.relatedOrderNo data with
     | Some v => Some v | None => StockIn.relatedOrderNo d end)
    (default (StockIn.inDate d) (PartialStockInInput.inDate data))
    (StockIn.operator d)
    (StockIn.status d)
    (match PartialStockInInput.remark data with
     | Some v => Some v | None => StockIn.remark d end)
    (StockIn.createdAt d)
    (match PartialStockInInput.items data with
     | Some l => StockIn.items d ++ l
     | None => StockIn.items d
     end).

(** [StockInService.createStockIn] *)
Definition createStockIn (data : CreateStockInInput.t) (operator : string)
    (env : Env) (db : DB) : result (string * StockIn.t) * DB :=
  match warehouses db !! CreateStockInInput.warehouseId data with
  | None => (Err WarehouseNotFound, db)
  | Some _ =>
      match validateProducts StockInItem.productId (CreateStockInInput.items data) db with
      | Some e => (Err e, db)
      | None =>
          transaction (fun tx =>
            let inNo := generateInNo "IN" (dateStr env) db in
            stockIn_create (newId env)
              (StockIn.mk inNo
                 (CreateStockInInput.warehouseId data)
                 (CreateStockInInput.type data)
                 (CreateStockInInput.relatedOrderId data)
                 (CreateStockInInput.relatedOrderNo data)
                 (CreateStockInInput.inDate data)
                 operator
                 "draft"
                 (CreateStockInInput.remark data)
                 (now env)
                 (CreateStockInInput.items data)) tx) db
      end
  end.

(** [StockInService.updateStockIn] *)
Definition updateStockIn (id : string) (data : PartialStockInInput.t)
    (db : DB) : result StockIn.t * DB :=
  match stockIns db !! id with
  | None => (Err (DocumentNotFound KStockIn), db)
  | Some stockIn =>
      if String.eqb (StockIn.status stockIn) "completed"
      then (Err (CompletedNotEditable KStockIn), db)
      else if String.eqb (StockIn.status stockIn) "cancelled"
      then (Err (CancelledNotEditable KStockIn), db)
      else
        match validateOptWarehouse (PartialStockInInput.warehouseId data) db with
        | Some e => (Err e, db)
        | None =>
            match validateOptProducts StockInItem.productId
                    (PartialStockInInput.items data) db with
            | Some e => (Err e, db)
            | None =>
                transaction
                  ((match PartialStockInInput.items data with
                    | Some _ => stockInItem_deleteMany id
                    | None => ret tt
                    end) ;;;
                   stockIn_update id (stockIn_patch data)) db
            end
        end
  end.

(** [StockInService.completeStockIn] *)
Definition completeStockIn (id : string) (db : DB) : result unit * DB :=
  match stockIns db !! id with
  | None => (Err (DocumentNotFound KStockIn), db)
  | Some stockIn =>
      if String.eqb (StockIn.status stockIn) "completed"
      then (Err (AlreadyCompleted KStockIn), db)
      else if String.eqb (StockIn.status stockIn) "cancelled"
      then (Err (AlreadyCancelled KStockIn), db)
      else
        transaction
          (stockIn_update id (stockIn_setStatus "completed") ;;;
           forEach (fun item =>
                      increaseInventoryInTransaction
                        (StockIn.warehouseId stockIn)
                        (StockInItem.productId item)
                        (StockInItem.quantity item))
                   (StockIn.items stockIn)) db
  end.

(** ** StockOutService *)

Module CreateStockOutInput.
Record t := mk {
  warehouseId : string;
  type : string;
  relatedOrderId : option string;
  relatedOrderNo : option string;
  outDate : Z;
  items : list StockOutItem.t;
  remark : option string;
}.
End CreateStockOutInput.

Module PartialStockOutInput.
Record t := mk {
  warehouseId : option string;
  type : option string;
  relatedOrderId : option string;
  relatedOrderNo : option string;
  outDate : option Z;
  items : option (list StockOutItem.t);
  remark : option string;
}.
End PartialStockOutInput.

Definition stockOut_create (id : string) (d : StockOut.t) : Tx (string * StockOut.t) :=
  fun tx =>
    match insertRow StockOut.outNo id d (stockOuts tx) with
    | Some table => Ok ((id, d), with_stockOuts table tx)
    | None => Err UniqueViolation
    end.

Definition stockOut_update (id : string) (f : StockOut.t -> StockOut.t) : Tx StockOut.t :=
  fun tx =>
    match stockOuts tx !! id with
    | Some d => Ok (f d, with_stockOuts (<[id := f d]> (stockOuts tx)) tx)
    | None => Err RecordNotFound
    end.

Definition stockOut_setStatus (s : string) (d : StockOut.t) : StockOut.t :=
  StockOut.mk (StockOut.outNo d) (StockOut.warehouseId d) (StockOut.type d)
    (StockOut.relatedOrderId d) (StockOut.relatedOrderNo d) (StockOut.outDate d)
    (StockOut.operator d) s (StockOut.remark d) (StockOut.createdAt d)
    (StockOut.items d).

Definition stockOut_setItems (l : list StockOutItem.t) (d : StockOut.t) : StockOut.t :=
  StockOut.mk (StockOut.outNo d) (StockOut.warehouseId d) (StockOut.type d)
    (StockOut.relatedOrderId d) (StockOut.relatedOrderNo d) (StockOut.outDate d)
    (StockOut.operator d) (StockOut.status d) (StockOut.remark d)
    (StockOut.createdAt d) l.

(** [tx.stockOutItem.deleteMany({ where: { stockOutId: id } })] *)
Definition stockOutItem_deleteMany (id : string) : Tx unit :=
  fun tx =>
    match stockOuts tx !! id with
    | Some d => Ok (tt, with_stockOuts (<[id := stockOut_setItems [] d]> (stockOuts tx)) tx)
    | None => Ok (tt, tx)
    end.

Definition stockOut_patch (data : PartialStockOutInput.t) (d : StockOut.t) : StockOut.t :=
  StockOut.mk
    (StockOut.outNo d)
    (default (StockOut.warehouseId d) (truthy (PartialStockOutInput.warehouseId data)))
    (default (StockOut.type d) (truthy (PartialStockOutInput.type data)))
    (match PartialStockOutInput.relatedOrderId data with
     | Some v => Some v | None => StockOut.relatedOrderId d end)
    (match PartialStockOutInput.relatedOrderNo data with
     | Some v => Some v | None => StockOut.relatedOrderNo d end)
    (default (StockOut.outDate d) (PartialStockOutInput.outDate data))
    (StockOut.operator d)
    (StockOut.status d)
    (match PartialStockOutInput.remark data with
     | Some v => Some v | None => StockOut.remark d end)
    (StockOut.createdAt d)
    (match PartialStockOutInput.items data with
     | Some l => StockOut.items d ++ l
     | None => StockOut.items d
     end).

(** [StockOutService.createStockOut] *)
Definition createStockOut (data : CreateStockOutInput.t) (operator : string)
    (env : Env) (db : DB) : result (string * StockOut.t) * DB :=
  match warehouses db !! CreateStockOutInput.warehouseId data with
  | None => (Err WarehouseNotFound, db)
  | Some _ =>
      match validateProducts StockOutItem.productId (CreateStockOutInput.items data) db with
      | Some e => (Err e, db)
      | None =>
          transaction (fun tx =>
            let outNo := generateOutNo "OUT" (dateStr env) db in
            stockOut_create (newId env)
              (StockOut.mk outNo
                 (CreateStockOutInput.warehouseId data)
                 (CreateStockOutInput.type data)
                 (CreateStockOutInput.relatedOrderId data)
                 (CreateStockOutInput.relatedOrderNo data)
                 (CreateStockOutInput.outDate data)
                 operator
                 "draft"
                 (CreateStockOutInput.remark data)
                 (now env)
                 (CreateStockOutInput.items data)) tx) db
      end
  end.

(** [StockOutService.updateStockOut] *)
Definition updateStockOut (id : string) (data : PartialStockOutInput.t)
    (db : DB) : result StockOut.t * DB :=
  match stockOuts db !! id with
  | None => (Err (DocumentNotFound KStockOut), db)
  | Some stockOut =>
      if String.eqb (StockOut.status stockOut) "completed"
      then (Err (CompletedNotEditable KStockOut), db)
      else if String.eqb (StockOut.status stockOut) "cancelled"
      then (Err (CancelledNotEditable KStockOut), db)
      else
        match validateOptWarehouse (PartialStockOutInput.warehouseId data) db with
        | Some e => (Err e, db)
        | None =>
            match validateOptProducts StockOutItem.productId
                    (PartialStockOutInput.items data) db with
            | Some e => (Err e, db)
            | None =>
                transaction
                  ((match PartialStockOutInput.items data with
                    | Some _ => stockOutItem_deleteMany id
                    | None => ret tt
                    end) ;;;
                   stockOut_update id (stockOut_patch data)) db
            end
        end
  end.

(** [StockOutService.completeStockOut] *)
Definition completeStockOut (id : string) (db : DB) : result unit * DB :=
  match stockOuts db !! id with
  | None => (Err (DocumentNotFound KStockOut), db)
  | Some stockOut =>
      if String.eqb (StockOut.status stockOut) "completed"
      then (Err (AlreadyCompleted KStockOut), db)
      else if String.eqb (StockOut.status stockOut) "cancelled"
      then (Err (AlreadyCancelled KStockOut), db)
      else
        transaction
          (stockOut_update id (stockOut_setStatus "completed") ;;;
           forEach (fun item =>
                      decreaseInventoryInTransaction
                        (StockOut.warehouseId stockOut)
                        (StockOutItem.productId item)
                        (StockOutItem.quantity item))
                   (StockOut.items stockOut)) db
  end.

(** ** StockTransferService *)

Module CreateStockTransferInput.
Record t := mk {
  fromWarehouseId : string;
  toWarehouseId : string;
  transferDate : Z;
  items : list StockTransferItem.t;
  remark : option string;
}.
End CreateStockTransferInput.

Module PartialStockTransferInput.
Record t := mk {
  fromWarehouseId : option string;
  toWarehouseId : option string;
  transferDate : option Z;
  items : option (list StockTransferItem.t);
  remark : option string;
}.
End PartialStockTransferInput.

Definition stockTransfer_create (id : string) (d : StockTransfer.t)
    : Tx (string * StockTransfer.t) :=
  fun tx =>
    match insertRow StockTransfer.transferNo id d (stockTransfers tx) with
    | Some table => Ok ((id, d), with_stockTransfers table tx)
    | None => Err UniqueViolation
    end.

Definition stockTransfer_update (id : string)
    (f : StockTransfer.t -> StockTransfer.t) : Tx StockTransfer.t :=
  fun tx =>
    match stockTransfers tx !! id with
    | Some d => Ok (f d, with_stockTransfers (<[id := f d]> (stockTransfers tx)) tx)
    | None => Err RecordNotFound
    end.

Definition stockTransfer_setStatus (s : string) (d : StockTransfer.t) : StockTransfer.t :=
  StockTransfer.mk (StockTransfer.transferNo d) (StockTransfer.fromWarehouseId d)
    (StockTransfer.toWarehouseId d) (StockTransfer.transferDate d)
    (StockTransfer.operator d) s (StockTransfer.remark d)
    (StockTransfer.createdAt d) (StockTransfer.items d).

Definition stockTransfer_setItems (l : list StockTransferItem.t) (d : StockTransfer.t)
    : StockTransfer.t :=
  StockTransfer.mk (StockTransfer.transferNo d) (StockTransfer.fromWarehouseId d)
    (StockTransfer.toWarehouseId d) (StockTransfer.transferDate d)
    (StockTransfer.operator d) (StockTransfer.status d) (StockTransfer.remark d)
    (StockTransfer.createdAt d) l.

(** [tx.stockTransferItem.deleteMany({ where: { transferId: id } })] *)
Definition stockTransferItem_deleteMany (id : string) : Tx unit :=
  fun tx =>
    match stockTransfers tx !! id with
    | Some d =>
        Ok (tt, with_stockTransfers
                  (<[id := stockTransfer_setItems [] d]> (stockTransfers tx)) tx)
    | None => Ok (tt, tx)
    end.

Definition stockTransfer_patch (data : PartialStockTransferInput.t)
    (d : StockTransfer.t) : StockTransfer.t :=
  StockTransfer.mk
    (StockTransfer.transferNo d)
    (default (StockTransfer.fromWarehouseId d)
             (truthy (PartialStockTransferInput.fromWarehouseId data)))
    (default (StockTransfer.toWarehouseId d)
             (truthy (PartialStockTransferInput.toWarehouseId data)))
    (default (StockTransfer.transferDate d) (PartialStockTransferInput.transferDate data))
    (StockTransfer.operator d)
    (StockTransfer.status d)
    (match PartialStockTransferInput.remark data with
     | Some v => Some v | None => StockTransfer.remark d end)
    (StockTransfer.createdAt d)
    (match PartialStockTransferInput.items data with
     | Some l => StockTransfer.items d ++ l
     | None => StockTransfer.items d
     end).

(** [StockTransferService.createStockTransfer] *)
Definition createStockTransfer (data : CreateStockTransferInput.t) (operator : string)
    (env : Env) (db : DB) : result (string * StockTransfer.t) * DB :=
  match warehouses db !! CreateStockTransferInput.fromWarehouseId data with
  | None => (Err SourceWarehouseNotFound, db)
  | Some _ =>
      match warehouses db !! CreateStockTransferInput.toWarehouseId data with
      | None => (Err TargetWarehouseNotFound, db)
      | Some _ =>
          if String.eqb (CreateStockTransferInput.fromWarehouseId data)
                        (CreateStockTransferInput.toWarehouseId data)
          then (Err SameWarehouse, db)
          else
            match validateProducts StockTransferItem.productId
                    (CreateStockTransferInput.items data) db with
            | Some e => (Err e, db)
            | None =>
                transaction (fun tx =>
                  let transferNo := generateTransferNo "TR" (dateStr env) db in
                  stockTransfer_create (newId env)
                    (StockTransfer.mk transferNo
                       (CreateStockTransferInput.fromWarehouseId data)
                       (CreateStockTransferInput.toWarehouseId data)
                       (CreateStockTransferInput.transferDate data)
                       operator
                       "draft"
                       (CreateStockTransferInput.remark data)
                       (now env)
                       (CreateStockTransferInput.items data)) tx) db
            end
      end
  end.

(** The warehouse checks of [updateStockTransfer]. *)
Definition validateTransferWarehouses (data : PartialStockTransferInput.t)
    (stockTransfer : StockTransfer.t) (db : DB) : option Error :=
  match truthy (PartialStockTransferInput.fromWarehouseId data),
        truthy (PartialStockTransferInput.toWarehouseId data) with
  | None, None => None
  | from, to =>
      let fromWarehouse := from ≫= fun w => warehouses db !! w in
      let toWarehouse := to ≫= fun w => warehouses db !! w in
      match from, fromWarehouse with
      | Some _, None => Some SourceWarehouseNotFound
      | _, _ =>
          match to, toWarehouse with
          | Some _, None => Some TargetWarehouseNotFound
          | _, _ =>
              let finalFromWarehouseId :=
                default (StockTransfer.fromWarehouseId stockTransfer) from in
              let finalToWarehouseId :=
                default (StockTransfer.toWarehouseId stockTransfer) to in
              if String.eqb finalFromWarehouseId finalToWarehouseId
              then Some SameWarehouse
              else None
          end
      end
  end.

(** [StockTransferService.updateStockTransfer] *)
Definition updateStockTransfer (id : string) (data : PartialStockTransferInput.t)
    (db : DB) : result StockTransfer.t * DB :=
  match stockTransfers db !! id with
  | None => (Err (DocumentNotFound KStockTransfer), db)
  | Some stockTransfer =>
      if String.eqb (StockTransfer.status stockTransfer) "completed"
      then (Err (CompletedNotEditable KStockTransfer), db)
      else if String.eqb (StockTransfer.status stockTransfer) "cancelled"
      then (Err (CancelledNotEditable KStockTransfer), db)
      else
        match validateTransferWarehouses data stockTransfer db with
        | Some e => (Err e, db)
        | None =>
            match validateOptProducts StockTransferItem.productId
                    (PartialStockTransferInput.items data) db with
            | Some e => (Err e, db)
            | None =>
                transaction
                  ((match PartialStockTransferInput.items data with
                    | Some _ => stockTransferItem_deleteMany id
                    | None => ret tt
                    end) ;;;
                   stockTransfer_update id (stockTransfer_patch data)) db
            end
        end
  end.

(** [StockTransferService.completeStockTransfer] *)
Definition completeStockTransfer (id : string) (db : DB) : result unit * DB :=
  match stockTransfers db !! id with
  | None => (Err (DocumentNotFound KStockTransfer), db)
  | Some stockTransfer =>
      if String.eqb (StockTransfer.status stockTransfer) "completed"
      then (Err (AlreadyCompleted KStockTransfer), db)
      else if String.eqb (StockTransfer.status stockTransfer) "cancelled"
      then (Err (AlreadyCancelled KStockTransfer), db)
      else
        transaction
          (stockTransfer_update id (stockTransfer_setStatus "completed") ;;;
           forEach (fun item =>
                      decreaseInventoryInTransaction
                        (StockTransfer.fromWarehouseId stockTransfer)
                        (StockTransferItem.productId item)
                        (StockTransferItem.quantity item) ;;;
                      increaseInventoryInTransaction
                        (StockTransfer.toWarehouseId stockTransfer)
                        (StockTransferItem.productId item)
                        (StockTransferItem.quantity item))
                   (StockTransfer.items stockTransfer)) db
  end.

(** ** StockCheckService *)

Module StockCheckItemInput.
Record t := mk {
  productId : string;
  bookQuantity : Z;
  actualQuantity : Z;
  location : option string;
  reason : option string;
}.
End StockCheckItemInput.

Module CreateStockCheckInput.
Record t := mk {
  warehouseId : string;
  checkDate : Z;
  checker : string;
  items : list StockCheckItemInput.t;
  remark : option string;
}.
End CreateStockCheckInput.

Module PartialStockCheckInput.
Record t := mk {
  warehouseId : option string;
  checkDate : option Z;
  checker : option string;
  items : option (list StockCheckItemInput.t);
  remark : option string;
}.
End PartialStockCheckInput.

(** [{ ...item, difference: item.actualQuantity - item.bookQuantity }],
    then the field-by-field copy into the created line. *)
Definition itemWithDifference (item : StockCheckItemInput.t) : StockCheckItem.t :=
  StockCheckItem.mk
    (StockCheckItemInput.productId item)
    (StockCheckItemInput.bookQuantity item)
    (StockCheckItemInput.actualQuantity item)
    (StockCheckItemInput.actualQuantity item - StockCheckItemInput.bookQuantity item)
    (StockCheckItemInput.location item)
    (StockCheckItemInput.reason item).

Definition itemsWithDifference (items : list StockCheckItemInput.t)
    : list StockCheckItem.t :=
  map itemWithDifference items.

Definition stockCheck_create (id : string) (d : StockCheck.t)
    : Tx (string * StockCheck.t) :=
  fun tx =>
    match insertRow StockCheck.checkNo id d (stockChecks tx) with
    | Some table => Ok ((id, d), with_stockChecks table tx)
    | None => Err UniqueViolation
    end.

Definition stockCheck_update (id : string) (f : StockCheck.t -> StockCheck.t)
    : Tx StockCheck.t :=
  fun tx =>
    match stockChecks tx !! id with
    | Some d => Ok (f d, with_stockChecks (<[id := f d]> (stockChecks tx)) tx)
    | None => Err RecordNotFound
    end.

Definition stockCheck_setStatus (s : string) (d : StockCheck.t) : StockCheck.t :=
  StockCheck.mk (StockCheck.checkNo d) (StockCheck.warehouseId d)
    (StockCheck.checkDate d) (StockCheck.checker d) s (StockCheck.remark d)
    (StockCheck.createdAt d) (StockCheck.items d).

Definition stockCheck_setItems (l : list StockCheckItem.t) (d : StockCheck.t)
    : StockCheck.t :=
  StockCheck.mk (StockCheck.checkNo d) (StockCheck.warehouseId d)
    (StockCheck.checkDate d) (StockCheck.checker d) (StockCheck.status d)
    (StockCheck.remark d) (StockCheck.createdAt d) l.

(** [tx.stockCheckItem.deleteMany({ where: { checkId: id } })] *)
Definition stockCheckItem_deleteMany (id : string) : Tx unit :=
  fun tx =>
    match stockChecks tx !! id with
    | Some d =>
        Ok (tt, with_stockChecks (<[id := stockCheck_setItems [] d]> (stockChecks tx)) tx)
    | None => Ok (tt, tx)
    end.

Definition stockCheck_patch (data : PartialStockCheckInput.t) (d : StockCheck.t)
    : StockCheck.t :=
  StockCheck.mk
    (StockCheck.checkNo d)
    (default (StockCheck.warehouseId d) (truthy (PartialStockCheckInput.warehouseId data)))
    (default (StockCheck.checkDate d) (PartialStockCheckInput.checkDate data))
    (default (StockCheck.checker d) (truthy (PartialStockCheckInput.checker data)))
    (StockCheck.status d)
    (match PartialStockCheckInput.remark data with
     | Some v => Some v | None => StockCheck.remark d end)
    (StockCheck.createdAt d)
    (match PartialStockCheckInput.items data with
     | Some l => StockCheck.items d ++ itemsWithDifference l
     | None => StockCheck.items d
     end).

(** [StockCheckService.createStockCheck] *)
Definition createStockCheck (data : CreateStockCheckInput.t)
    (env : Env) (db : DB) : result (string * StockCheck.t) * DB :=
  match warehouses db !! CreateStockCheckInput.warehouseId data with
  | None => (Err WarehouseNotFound, db)
  | Some _ =>
      match validateProducts StockCheckItemInput.productId
              (CreateStockCheckInput.items data) db with
      | Some e => (Err e, db)
      | None =>
          transaction (fun tx =>
            let checkNo := generateCheckNo "CK" (dateStr env) db in
            stockCheck_create (newId env)
              (StockCheck.mk checkNo
                 (CreateStockCheckInput.warehouseId data)
                 (CreateStockCheckInput.checkDate data)
                 (CreateStockCheckInput.checker data)
                 "draft"
                 (CreateStockCheckInput.remark data)
                 (now env)
                 (itemsWithDifference (CreateStockCheckInput.items data))) tx) db
      end
  end.

(** [StockCheckService.updateStockCheck] *)
Definition updateStockCheck (id : string) (data : PartialStockCheckInput.t)
    (db : DB) : result StockCheck.t * DB :=
  match stockChecks db !! id with
  | None => (Err (DocumentNotFound KStockCheck), db)
  | Some stockCheck =>
      if String.eqb (StockCheck.status stockCheck) "completed"
      then (Err (CompletedNotEditable KStockCheck), db)
      else if String.eqb (StockCheck.status stockCheck) "cancelled"
      then (Err (CancelledNotEditable KStockCheck), db)
      else
        match validateOptWarehouse (PartialStockCheckInput.warehouseId data) db with
        | Some e => (Err e, db)
        | None =>
            match validateOptProducts StockCheckItemInput.productId
                    (PartialStockCheckInput.items data) db with
            | Some e => (Err e, db)
            | None =>
                transaction
                  ((match PartialStockCheckInput.items data with
                    | Some _ => stockCheckItem_deleteMany id
                    | None => ret tt
                    end) ;;;
                   stockCheck_update id (stockCheck_patch data)) db
            end
        end
  end.

(** The body of the completion loop for one stock-check line. *)
Definition applyDifference (warehouseId : string) (item : StockCheckItem.t) : Tx unit :=
  if 0 <? StockCheckItem.difference item then
    increaseInventoryInTransaction warehouseId
      (StockCheckItem.productId item) (StockCheckItem.difference item)
  else if StockCheckItem.difference item <? 0 then
    decreaseInventoryInTransaction warehouseId
      (StockCheckItem.productId item) (Z.abs (StockCheckItem.difference item))
  else ret tt.

(** [StockCheckService.completeStockCheck] *)
Definition completeStockCheck (id : string) (db : DB) : result unit * DB :=
  match stockChecks db !! id with
  | None => (Err (DocumentNotFound KStockCheck), db)
  | Some stockCheck =>
      if String.eqb (StockCheck.status stockCheck) "completed"
      then (Err (AlreadyCompleted KStockCheck), db)
      else if String.eqb (StockCheck.status stockCheck) "cancelled"
      then (Err (AlreadyCancelled KStockCheck), db)
      else
        transaction
          (stockCheck_update id (stockCheck_setStatus "completed") ;;;
           forEach (applyDifference (StockCheck.warehouseId stockCheck))
                   (StockCheck.items stockCheck)) db
  end.

(** *** The list and detail projections *)

(** A row as a query returns it: the scalar columns, and each relation only
    when the query's [include] names it. *)
Module StockCheckRow.
Record t := mk {
  id : string;
  scalars : StockCheck.t;
  warehouse : option (option Warehouse.t);
  items : option (list StockCheckItem.t);
}.
End StockCheckRow.

Record Include := mkInclude {
  includeWarehouse : bool;
  includeItems : bool;
}.

Definition loadRow (inc : Include) (db : DB) (kv : string * StockCheck.t)
    : StockCheckRow.t :=
  StockCheckRow.mk kv.1 kv.2
    (if includeWarehouse inc
     then Some (warehouses db !! StockCheck.warehouseId kv.2) else None)
    (if includeItems inc then Some (StockCheck.items kv.2) else None).

(** [orderBy: { createdAt: 'desc' }] *)
Definition createdAtDesc (a b : string * StockCheck.t) : Prop :=
  StockCheck.createdAt b.2 <= StockCheck.createdAt a.2.

Global Instance createdAtDesc_dec a b : Decision (createdAtDesc a b).
Proof. unfold createdAtDesc. apply _. Defined.

(** [stockCheckRepository.findMany({}, { skip, take, orderBy, include })] *)
Definition stockCheck_findMany (skip take : nat) (inc : Include) (db : DB)
    : list StockCheckRow.t :=
  map (loadRow inc db)
      (firstn take (skipn skip (merge_sort createdAtDesc (map_to_list (stockChecks db))))).

(** [stockCheckRepository.findById(id, include)] *)
Definition stockCheck_findById (id : string) (inc : Include) (db : DB)
    : option StockCheckRow.t :=
  (fun d => loadRow inc db (id, d)) <$> stockChecks db !! id.

(** [getStockCheckStatusName]: [map[status] || status]. *)
Definition getStockCheckStatusName (status : string) : string :=
  if String.eqb status "draft" then "草稿"
  else if String.eqb status "completed" then "已完成"
  else if String.eqb status "cancelled" then "已取消"
  else status.

Module StockCheckSummary.
Record t := mk {
  id : string;
  checkNo : string;
  warehouseId : string;
  warehouseName : string;
  checkDate : Z;
  checker : string;
  status : string;
  statusName : string;
  totalItems : nat;
  differenceItems : nat;
  remark : option string;
  createTime : Z;
}.
End StockCheckSummary.

(** The callback of [records.map(...)] in [getStockChecks].  Reading
    [.name] of a relation that was not loaded, or is null, is a TypeError;
    [items?.length || 0] is [0] when [items] is undefined. *)
Definition summarize (stockCheck : StockCheckRow.t) : result StockCheckSummary.t :=
  match StockCheckRow.warehouse stockCheck with
  | Some (Some warehouse) =>
      let d := StockCheckRow.scalars stockCheck in
      Ok (StockCheckSummary.mk
            (StockCheckRow.id stockCheck)
            (StockCheck.checkNo d)
            (StockCheck.warehouseId d)
            (Warehouse.name warehouse)
            (StockCheck.checkDate d)
            (StockCheck.checker d)
            (StockCheck.status d)
            (getStockCheckStatusName (StockCheck.status d))
            (match StockCheckRow.items stockCheck with
             | Some l => length l
             | None => 0%nat
             end)
            (match StockCheckRow.items stockCheck with
             | Some l =>
                 length (filter (fun item => StockCheckItem.difference item <> 0) l)
             | None => 0%nat
             end)
            (StockCheck.remark d)
            (StockCheck.createdAt d))
  | _ => Err NullDereference
  end.

Fixpoint mapResult {A B} (f : A -> result B) (l : list A) : result (list B) :=
  match l with
  | [] => Ok []
  | x :: rest =>
      match f x with
      | Err e => Err e
      | Ok y =>
          match mapResult f rest with
          | Err e => Err e
          | Ok ys => Ok (y :: ys)
          end
      end
  end.

Module StockCheckPage.
Record t := mk {
  records : list StockCheckSummary.t;
  total : nat;
  page : nat;
  pageSize : nat;
}.
End StockCheckPage.

(** [StockCheckService.getStockChecks]; [page] and [pageSize] are the
    positive integers the pagination schema lets through ([totalPages], a
    quotient of [total] and [pageSize], is left out). *)
Definition getStockChecks (page pageSize : option nat) (db : DB)
    : result StockCheckPage.t :=
  let page := default 1%nat page in
  let pageSize := default 10%nat pageSize in
  let records :=
    stockCheck_findMany ((page - 1) * pageSize) pageSize
      (mkInclude true false) db in
  let total := size (stockChecks db) in
  match mapResult summarize records with
  | Err e => Err e
  | Ok stockChecks => Ok (StockCheckPage.mk stockChecks total page pageSize)
  end.

(** [StockCheckService.getStockCheckItems], up to the product columns that
    the line projection copies from the product table. *)
Definition getStockCheckItems (id : string) (db : DB)
    : result (list StockCheckItem.t) :=
  match stockCheck_findById id (mkInclude false true) db with
  | None => Err (DocumentNotFound KStockCheck)
  | Some stockCheck =>
      match StockCheckRow.items stockCheck with
      | Some l => Ok l
      | None => Err NullDereference
      end
  end.

(** ** ProductRepository and ProductService

    The product table on its own, keyed by id: the code is the column the
    service guards.  ([WarehouseRepository] and [WarehouseService] have the
    same shape.) *)

Module Product.
Record t := mk {
  code : string;
  name : string;
  specification : option string;
  unit : string;
  price : Z;
  minStock : Z;
  maxStock : Z;
  safetyStock : Z;
  status : string;
  remark : option string;
}.
End Product.

(** A column of an update input: absent, a plain value, or the
    [{ set: value }] form of the storage client. *)
Inductive FieldUpdate (A : Type) :=
| Keep
| Value (a : A)
| SetTo (a : A).
Arguments Keep {A}.
Arguments Value {A} a.
Arguments SetTo {A} a.

Definition applyField {A} (u : FieldUpdate A) (old : A) : A :=
  match u with
  | Keep => old
  | Value a | SetTo a => a
  end.

Module ProductUpdateInput.
Record t := mk {
  code : FieldUpdate string;
  name : FieldUpdate string;
  specification : FieldUpdate (option string);
  unit : FieldUpdate string;
  price : FieldUpdate Z;
  minStock : FieldUpdate Z;
  maxStock : FieldUpdate Z;
  safetyStock : FieldUpdate Z;
  status : FieldUpdate string;
  remark : FieldUpdate (option string);
}.
End ProductUpdateInput.

Inductive ProductError :=
| ProductCodeExists      (* '产品编码已存在' *)
| ProductDoesNotExist    (* '产品不存在' *)
| ProductIdTaken.        (* storage: primary key already present *)

(** [ProductRepository.codeExists]: [where = { code }], narrowed by
    [id: { not: excludeId }] when [excludeId] is truthy; then [count > 0]. *)
Definition codeExists (code : string) (excludeId : option string)
    (table : gmap string Product.t) : bool :=
  let matches (kv : string * Product.t) : bool :=
    String.eqb (Product.code kv.2) code &&
    match truthy excludeId with
    | Some x => negb (String.eqb kv.1 x)
    | None => true
    end in
  bool_decide (0 < size (filter (fun kv => Is_true (matches kv)) table))%nat.

(** [ProductService.createProduct]; [newId] is the id the storage layer
    gives the row. *)
Definition createProduct (data : Product.t) (newId : string)
    (table : gmap string Product.t)
    : (ProductError + Product.t) * gmap string Product.t :=
  if codeExists (Product.code data) None table
  then (inl ProductCodeExists, table)
  else
    match table !! newId with
    | Some _ => (inl ProductIdTaken, table)
    | None => (inr data, <[newId := data]> table)
    end.

Definition product_patch (data : ProductUpdateInput.t) (row : Product.t) : Product.t :=
  Product.mk
    (applyField (ProductUpdateInput.code data) (Product.code row))
    (applyField (ProductUpdateInput.name data) (Product.name row))
    (applyField (ProductUpdateInput.specification data) (Product.specification row))
    (applyField (ProductUpdateInput.unit data) (Product.unit row))
    (applyField (ProductUpdateInput.price data) (Product.price row))
    (applyField (ProductUpdateInput.minStock data) (Product.minStock row))
    (applyField (ProductUpdateInput.maxStock data) (Product.maxStock row))
    (applyField (ProductUpdateInput.safetyStock data) (Product.safetyStock row))
    (applyField (ProductUpdateInput.status data) (Product.status row))
    (applyField (ProductUpdateInput.remark data) (Product.remark row)).

(** [ProductService.updateProduct]: the code is checked only when it is a
    non-empty plain string ([data.code && typeof data.code === 'string']). *)
Definition updateProduct (id : string) (data : ProductUpdateInput.t)
    (table : gmap string Product.t)
    : (ProductError + Product.t) * gmap string Product.t :=
  match table !! id with
  | None => (inl ProductDoesNotExist, table)
  | Some product =>
      let taken :=
        match ProductUpdateInput.code data with
        | Value c =>
            match c with
            | EmptyString => false
            | _ => codeExists c (Some id) table
            end
        | _ => false
        end in
      if taken then (inl ProductCodeExists, table)
      else (inr (product_patch data product), <[id := product_patch data product]> table)
  end.

(** No two products share a code. *)
Definition uniqueCodes (table : gmap string Product.t) : Prop :=
  forall id1 id2 row1 row2,
    table !! id1 = Some row1 -> table !! id2 = Some row2 ->
    Product.code row1 = Product.code row2 -> id1 = id2.

(** An update that supplies no code, or a non-empty plain one. *)
Definition guardedCode (u : FieldUpdate string) : Prop :=
  match u with
  | Keep => True
  | Value c => c <> ""
  | SetTo _ => False
  end.

(** ** Vocabulary of the properties *)

(** Every balance row satisfies the invariant. *)
Definition ledgerConsistent (db : DB) : Prop :=
  map_Forall (fun _ r => Inventory.consistent r) (inventory db).


Definition availableOf (db : DB) (w p : string) : Z :=
  from_option Inventory.availableQuantity 0 (inventory db !! (w, p)).


(** The row that adding [q] to a balance leaves. *)
Definition increased (q : Z) (row : option Inventory.t) : Inventory.t :=
  match row with
  | None => Inventory.mk q q 0
  | Some existing =>
      Inventory.mk (Inventory.quantity existing + q)
                   (Inventory.availableQuantity existing + q)
                   (Inventory.reservedQuantity existing)
  end.

(** The quantity a list of lines carries for product [p]. *)
Fixpoint lineTotal {I} (productId : I -> string) (quantity : I -> Z)
    (p : string) (items : list I) : Z :=
  match items with
  | [] => 0
  | item :: rest =>
      (if String.eqb (productId item) p then quantity item else 0)
      + lineTotal productId quantity p rest
  end.

(** The terminal statuses of the document state machine. *)
Definition terminal (status : string) : Prop :=
  status = "completed" \/ status = "cancelled".

(** The mutating operations the services expose for the four documents. *)
Inductive Op :=
| CreateStockIn (data : CreateStockInInput.t) (operator : string) (env : Env)
| UpdateStockIn (id : string) (data : PartialStockInInput.t)
| CompleteStockIn (id : string)
| CreateStockOut (data : CreateStockOutInput.t) (operator : string) (env : Env)
| UpdateStockOut (id : string) (data : PartialStockOutInput.t)
| CompleteStockOut (id : string)
| CreateStockTransfer (data : CreateStockTransferInput.t) (operator : string) (env : Env)
| UpdateStockTransfer (id : string) (data : PartialStockTransferInput.t)
| CompleteStockTransfer (id : string)
| CreateStockCheck (data : CreateStockCheckInput.t) (env : Env)
| UpdateStockCheck (id : string) (data : PartialStockCheckInput.t)
| CompleteStockCheck (id : string).

Definition outcome {A} (r : result A * DB) : option Error * DB :=
  match r with
  | (Ok _, db) => (None, db)
  | (Err e, db) => (Some e, db)
  end.

(** One call: the error it raised, if any, and the database it left. *)
Definition run (op : Op) (db : DB) : option Error * DB :=
  match op with
  | CreateStockIn data operator env => outcome (createStockIn data operator env db)
  | UpdateStockIn id data => outcome (updateStockIn id data db)
  | CompleteStockIn id => outcome (completeStockIn id db)
  | CreateStockOut data operator env => outcome (createStockOut data operator env db)
  | UpdateStockOut id data => outcome (updateStockOut id data db)
  | CompleteStockOut id => outcome (completeStockOut id db)
  | CreateStockTransfer data operator env =>
      outcome (createStockTransfer data operator env db)
  | UpdateStockTransfer id data => outcome (updateStockTransfer id data db)
  | CompleteStockTransfer id => outcome (completeStockTransfer id db)
  | CreateStockCheck data env => outcome (createStockCheck data env db)
  | UpdateStockCheck id data => outcome (updateStockCheck id data db)
  | CompleteStockCheck id => outcome (completeStockCheck id db)
  end.

(** A sequence of calls, each one starting from the database the previous
    one left. *)
Fixpoint runAll (ops : list Op) (db : DB) : DB :=
  match ops with
  | [] => db
  | op :: rest => runAll rest (run op db).2
  end.

(** Every document that is completed or cancelled in [db] is in [db'] with
    the same columns and the same lines. *)
Definition frozen (db db' : DB) : Prop :=
  (forall id d, stockIns db !! id = Some d -> terminal (StockIn.status d) ->
                stockIns db' !! id = Some d) /\
  (forall id d, stockOuts db !! id = Some d -> terminal (StockOut.status d) ->
                stockOuts db' !! id = Some d) /\
  (forall id d, stockTransfers db !! id = Some d -> terminal (StockTransfer.status d) ->
                stockTransfers db' !! id = Some d) /\
  (forall id d, stockChecks db !! id = Some d -> terminal (StockCheck.status d) ->
                stockChecks db' !! id = Some d).

(** A transaction body that writes the balance table only. *)
Definition inventoryOnly (body : Tx unit) : Prop :=
  forall tx u tx', body tx = Ok (u, tx') -> tx' = with_inventory (inventory tx') tx.

(** The ledger loop of each completion, as a transaction body. *)
Definition stockInEffect (d : StockIn.t) : Tx unit :=
  forEach (fun item =>
             increaseInventoryInTransaction (StockIn.warehouseId d)
               (StockInItem.productId item) (StockInItem.quantity item))
          (StockIn.items d).

Definition stockOutEffect (d : StockOut.t) : Tx unit :=
  forEach (fun item =>
             decreaseInventoryInTransaction (StockOut.warehouseId d)
               (StockOutItem.productId item) (StockOutItem.quantity item))
          (StockOut.items d).

Definition stockTransferEffect (d : StockTransfer.t) : Tx unit :=
  forEach (fun item =>
             decreaseInventoryInTransaction (StockTransfer.fromWarehouseId d)
               (StockTransferItem.productId item) (StockTransferItem.quantity item) ;;;
             increaseInventoryInTransaction (StockTransfer.toWarehouseId d)
               (StockTransferItem.productId item) (StockTransferItem.quantity item))
          (StockTransfer.items d).

Definition stockCheckEffect (d : StockCheck.t) : Tx unit :=
  forEach (applyDifference (StockCheck.warehouseId d)) (StockCheck.items d).

(** The database once the status column of document [id] reads completed. *)
Definition stockInMarked (id : string) (d : StockIn.t) (db : DB) : DB :=
  with_stockIns (<[id := stockIn_setStatus "completed" d]> (stockIns db)) db.

Definition stockOutMarked (id : string) (d : StockOut.t) (db : DB) : DB :=
  with_stockOuts (<[id := stockOut_setStatus "completed" d]> (stockOuts db)) db.

Definition stockTransferMarked (id : string) (d : StockTransfer.t) (db : DB) : DB :=
  with_stockTransfers
    (<[id := stockTransfer_setStatus "completed" d]> (stockTransfers db)) db.

Definition stockCheckMarked (id : string) (d : StockCheck.t) (db : DB) : DB :=
  with_stockChecks (<[id := stockCheck_setStatus "completed" d]> (stockChecks db)) db.

(** Commit or roll back, given the state the transaction started from. *)
Definition settle (r : result (unit * DB)) (db : DB) : result unit * DB :=
  match r with
  | Ok (_, tx') => (Ok tt, tx')
  | Err e => (Err e, db)
  end.

(** Whether some line of a list is for product [p]. *)
Definition mentions {I} (productId : I -> string) (p : string) (items : list I) : bool :=
  existsb (fun item => String.eqb (productId item) p) items.

(** [db'] differs from [db] at most in the row [id] of one document table
    and in the balance table. *)
Definition touchesStockIn (id : string) (db db' : DB) : Prop :=
  (forall id', id' <> id -> stockIns db' !! id' = stockIns db !! id') /\
  stockOuts db' = stockOuts db /\ stockTransfers db' = stockTransfers db /\
  stockChecks db' = stockChecks db.

Definition touchesStockOut (id : string) (db db' : DB) : Prop :=
  (forall id', id' <> id -> stockOuts db' !! id' = stockOuts db !! id') /\
  stockIns db' = stockIns db /\ stockTransfers db' = stockTransfers db /\
  stockChecks db' = stockChecks db.

Definition touchesStockTransfer (id : string) (db db' : DB) : Prop :=
  (forall id', id' <> id -> stockTransfers db' !! id' = stockTransfers db !! id') /\
  stockIns db' = stockIns db /\ stockOuts db' = stockOuts db /\
  stockChecks db' = stockChecks db.

Definition touchesStockCheck (id : string) (db db' : DB) : Prop :=
  (forall id', id' <> id -> stockChecks db' !! id' = stockChecks db !! id') /\
  stockIns db' = stockIns db /\ stockOuts db' = stockOuts db /\
  stockTransfers db' = stockTransfers db.

(** The row [id] is absent, or holds a document that is not terminal. *)
Definition openSlot {D} (status : D -> string) (row : option D) : Prop :=
  match row with
  | None => True
  | Some d => ~ terminal (status d)
  end.

(** The draft each create operation hands to the storage layer. *)
Definition draftStockIn (data : CreateStockInInput.t) (operator : string)
    (env : Env) (db : DB) : StockIn.t :=
  StockIn.mk (generateInNo "IN" (dateStr env) db)
    (CreateStockInInput.warehouseId data) (CreateStockInInput.type data)
    (CreateStockInInput.relatedOrderId data) (CreateStockInInput.relatedOrderNo data)
    (CreateStockInInput.inDate data) operator "draft"
    (CreateStockInInput.remark data) (now env) (CreateStockInInput.items data).

Definition draftStockOut (data : CreateStockOutInput.t) (operator : string)
    (env : Env) (db : DB) : StockOut.t :=
  StockOut.mk (generateOutNo "OUT" (dateStr env) db)
    (CreateStockOutInput.warehouseId data) (CreateStockOutInput.type data)
    (CreateStockOutInput.relatedOrderId data) (CreateStockOutInput.relatedOrderNo data)
    (CreateStockOutInput.outDate data) operator "draft"
    (CreateStockOutInput.remark data) (now env) (CreateStockOutInput.items data).

Definition draftStockTransfer (data : CreateStockTransferInput.t) (operator : string)
    (env : Env) (db : DB) : StockTransfer.t :=
  StockTransfer.mk (generateTransferNo "TR" (dateStr env) db)
    (CreateStockTransferInput.fromWarehouseId data)
    (CreateStockTransferInput.toWarehouseId data)
    (CreateStockTransferInput.transferDate data) operator "draft"
    (CreateStockTransferInput.remark data) (now env)
    (CreateStockTransferInput.items data).

Definition draftStockCheck (data : CreateStockCheckInput.t)
    (env : Env) (db : DB) : StockCheck.t :=
  StockCheck.mk (generateCheckNo "CK" (dateStr env) db)
    (CreateStockCheckInput.warehouseId data) (CreateStockCheckInput.checkDate data)
    (CreateStockCheckInput.checker data) "draft"
    (CreateStockCheckInput.remark data) (now env)
    (itemsWithDifference (CreateStockCheckInput.items data)).



(** ** Vocabulary of the further properties *)

(** The row an update is applied to: with its lines removed when the
    update brings lines. *)
Definition stockIn_base (data : PartialStockInInput.t) (d : StockIn.t) : StockIn.t :=
  match PartialStockInInput.items data with
  | Some _ => stockIn_setItems [] d
  | None => d
  end.

Definition stockOut_base (data : PartialStockOutInput.t) (d : StockOut.t) : StockOut.t :=
  match PartialStockOutInput.items data with
  | Some _ => stockOut_setItems [] d
  | None => d
  end.

Definition stockTransfer_base (data : PartialStockTransferInput.t)
    (d : StockTransfer.t) : StockTransfer.t :=
  match PartialStockTransferInput.items data with
  | Some _ => stockTransfer_setItems [] d
  | None => d
  end.

Definition stockCheck_base (data : PartialStockCheckInput.t) (d : StockCheck.t)
    : StockCheck.t :=
  match PartialStockCheckInput.items data with
  | Some _ => stockCheck_setItems [] d
  | None => d
  end.

(** One predicate per document table. *)
Record DocPreds := mkDocPreds {
  onStockIn : StockIn.t -> Prop;
  onStockOut : StockOut.t -> Prop;
  onStockTransfer : StockTransfer.t -> Prop;
  onStockCheck : StockCheck.t -> Prop;
}.

Definition docsSatisfy (P : DocPreds) (db : DB) : Prop :=
  map_Forall (fun _ d => onStockIn P d) (stockIns db) /\
  map_Forall (fun _ d => onStockOut P d) (stockOuts db) /\
  map_Forall (fun _ d => onStockTransfer P d) (stockTransfers db) /\
  map_Forall (fun _ d => onStockCheck P d) (stockChecks db).

(** The predicates hold of every draft a create stores, and are kept by
    the row changes of update and complete. *)
Record DocPredsKept (P : DocPreds) : Prop := mkDocPredsKept {
  keptDraftIn : forall data operator env db,
    onStockIn P (draftStockIn data operator env db);
  keptDraftOut : forall data operator env db,
    onStockOut P (draftStockOut data operator env db);
  keptDraftTransfer : forall data operator env db,
    CreateStockTransferInput.fromWarehouseId data
      <> CreateStockTransferInput.toWarehouseId data ->
    onStockTransfer P (draftStockTransfer data operator env db);
  keptDraftCheck : forall data env db,
    onStockCheck P (draftStockCheck data env db);
  keptPatchIn : forall data d,
    onStockIn P d -> onStockIn P (stockIn_patch data (stockIn_base data d));
  keptPatchOut : forall data d,
    onStockOut P d -> onStockOut P (stockOut_patch data (stockOut_base data d));
  keptPatchTransfer : forall data d db,
    onStockTransfer P d -> validateTransferWarehouses data d db = None ->
    onStockTransfer P (stockTransfer_patch data (stockTransfer_base data d));
  keptPatchCheck : forall data d,
    onStockCheck P d -> onStockCheck P (stockCheck_patch data (stockCheck_base data d));
  keptDoneIn : forall d,
    onStockIn P d -> onStockIn P (stockIn_setStatus "completed" d);
  keptDoneOut : forall d,
    onStockOut P d -> onStockOut P (stockOut_setStatus "completed" d);
  keptDoneTransfer : forall d,
    onStockTransfer P d -> onStockTransfer P (stockTransfer_setStatus "completed" d);
  keptDoneCheck : forall d,
    onStockCheck P d -> onStockCheck P (stockCheck_setStatus "completed" d);
}.

(** The status is one the services write. *)
Definition written (status : string) : Prop :=
  status = "draft" \/ status = "completed".

Definition statusesWritten : DocPreds :=
  mkDocPreds (fun d => written (StockIn.status d))
             (fun d => written (StockOut.status d))
             (fun d => written (StockTransfer.status d))
             (fun d => written (StockCheck.status d)).

(** Every transfer joins two different warehouses. *)
Definition transfersJoinTwo : DocPreds :=
  mkDocPreds (fun _ => True) (fun _ => True)
             (fun d => StockTransfer.fromWarehouseId d <> StockTransfer.toWarehouseId d)
             (fun _ => True).

(** Every stock-check line carries its difference. *)
Definition differencesStored : DocPreds :=
  mkDocPreds (fun _ => True) (fun _ => True) (fun _ => True)
             (fun d => Forall (fun item => StockCheckItem.difference item
                                           = StockCheckItem.actualQuantity item
                                             - StockCheckItem.bookQuantity item)
                              (StockCheck.items d)).

(** Every document of [db] is still in [db'], under the same id, with the
    number, operator and creation time it had. *)
Definition persists (db db' : DB) : Prop :=
  (forall id d, stockIns db !! id = Some d ->
     exists d', stockIns db' !! id = Some d' /\
                StockIn.inNo d' = StockIn.inNo d /\
                StockIn.operator d' = StockIn.operator d /\
                StockIn.createdAt d' = StockIn.createdAt d) /\
  (forall id d, stockOuts db !! id = Some d ->
     exists d', stockOuts db' !! id = Some d' /\
                StockOut.outNo d' = StockOut.outNo d /\
                StockOut.operator d' = StockOut.operator d /\
                StockOut.createdAt d' = StockOut.createdAt d) /\
  (forall id d, stockTransfers db !! id = Some d ->
     exists d', stockTransfers db' !! id = Some d' /\
                StockTransfer.transferNo d' = StockTransfer.transferNo d /\
                StockTransfer.operator d' = StockTransfer.operator d /\
                StockTransfer.createdAt d' = StockTransfer.createdAt d) /\
  (forall id d, stockChecks db !! id = Some d ->
     exists d', stockChecks db' !! id = Some d' /\
                StockCheck.checkNo d' = StockCheck.checkNo d /\
                StockCheck.createdAt d' = StockCheck.createdAt d).

(** No balance has a negative available quantity. *)
Definition neverNegative (db : DB) : Prop :=
  map_Forall (fun _ row => 0 <= Inventory.availableQuantity row) (inventory db).


(** The two errors of the guarded decrease. *)
Definition stockShort (e : Error) : Prop :=
  e = InventoryMissing \/ e = InventoryInsufficient.

(** ** Example data *)


Definition shopExample : DB :=
  mkDB
    {[ "W1" := Warehouse.mk "Main"; "W2" := Warehouse.mk "Annex" ]}
    {[ "P"; "Q" ]}
    {[ ("W1", "P") := Inventory.mk 10 10 0; ("W1", "Q") := Inventory.mk 5 5 0 ]}
    {[ "in1" := StockIn.mk "IN20240521001" "W1" "purchase" None None 0 "amy"
                  "draft" None 1 [StockInItem.mk "P" 10 None None None];
       "in2" := StockIn.mk "IN20240521002" "W1" "purchase" None None 0 "amy"
                  "completed" None 2 [StockInItem.mk "P" 4 None None None] ]}
    {[ "out1" := StockOut.mk "OUT20240521001" "W1" "sales" None None 0 "amy"
                   "draft" None 3 [StockOutItem.mk "Q" 6 None None None] ]}
    {[ "tr1" := StockTransfer.mk "TR20240521001" "W1" "W2" 0 "amy"
                  "draft" None 4 [StockTransferItem.mk "P" 3 None None None None] ]}
    {[ "ck1" := StockCheck.mk "CK20240521001" "W1" 0 "bob"
                  "draft" None 5
                  [StockCheckItem.mk "P" 20 17 (-3) None None;
                   StockCheckItem.mk "Q" 20 25 5 None None] ]}.

(** A shop with stock and no documents yet, and a session of calls. *)
Definition freshShop : DB :=
  mkDB
    {[ "W1" := Warehouse.mk "Main"; "W2" := Warehouse.mk "Annex" ]}
    {[ "P"; "Q" ]}
    {[ ("W1", "P") := Inventory.mk 10 10 0; ("W1", "Q") := Inventory.mk 5 5 0 ]}
    ∅ ∅ ∅ ∅.

Definition shopSession : list Op :=
  [ CreateStockTransfer
      (CreateStockTransferInput.mk "W1" "W2" 0
         [StockTransferItem.mk "P" 3 None None None None] None)
      "amy" (mkEnv "t1" 1 "20240521");
    UpdateStockTransfer "t1"
      (PartialStockTransferInput.mk None None None
         (Some [StockTransferItem.mk "P" 4 None None None None;
                StockTransferItem.mk "Q" 1 None None None None]) (Some "more"));
    CreateStockCheck
      (CreateStockCheckInput.mk "W1" 0 "bob"
         [StockCheckItemInput.mk "P" 20 17 None None] None)
      (mkEnv "c1" 2 "20240521");
    UpdateStockCheck "c1"
      (PartialStockCheckInput.mk None None None
         (Some [StockCheckItemInput.mk "Q" 5 7 None None]) None);
    CompleteStockTransfer "t1";
    CompleteStockCheck "c1";
    UpdateStockTransfer "t1"
      (PartialStockTransferInput.mk (Some "W2") None None None None);
    CreateStockIn
      (CreateStockInInput.mk "W2" "purchase" None None 0
         [StockInItem.mk "Q" 2 None None None] None)
      "amy" (mkEnv "i1" 3 "20240521");
    CompleteStockIn "i1";
    CreateStockOut
      (CreateStockOutInput.mk "W1" "sales" None None 0
         [StockOutItem.mk "P" 2 None None None;
          StockOutItem.mk "P" 3 None None None] None)
      "amy" (mkEnv "o1" 4 "20240521");
    CompleteStockOut "o1" ].

Definition checksExample : DB :=
  mkDB {[ "W1" := Warehouse.mk "Main" ]} ∅ ∅ ∅ ∅ ∅
    {[ "a" := StockCheck.mk "CK20240521001" "W1" 0 "bob" "completed" None 1 [];
       "b" := StockCheck.mk "CK20240521002" "W1" 0 "bob" "draft" None 3 [];
       "c" := StockCheck.mk "CK20240521003" "W1" 0 "bob" "draft" None 2 [] ]}.

Definition shopEnv : Env := mkEnv "in3" 6 "20240521".

Definition shopStockIn : CreateStockInInput.t :=
  CreateStockInInput.mk "W1" "purchase" None None 0
    [StockInItem.mk "P" 10 None None None] None.

(** * Properties *)

Ltac tx_unfold := unfold bind, ret, throw in *.

(** ** Generic facts about transaction bodies *)


Section TxFacts.
Context {A : Type}.
Implicit Types (body : A -> Tx unit) (items : list A) (P : DB -> Prop).

Lemma forEach_cons body item rest tx :
  forEach body (item :: rest) tx =
    match body item tx with
    | Ok (_, tx') => forEach body rest tx'
    | Err e => Err e
    end.
Proof. reflexivity. Qed.

Lemma forEach_app body l1 l2 tx :
  forEach body (l1 ++ l2) tx =
    match forEach body l1 tx with
    | Ok (_, tx') => forEach body l2 tx'
    | Err e => Err e
    end.
Proof.
  revert tx. induction l1 as [|x l1 IH]; intros tx; [reflexivity|].
  rewrite <- app_comm_cons, !forEach_cons.
  destruct (body x tx) as [[[] tx']|e]; [apply IH | reflexivity].
Qed.

(** A property kept by every successful iteration is kept by the loop. *)
Lemma forEach_preserves P body items :
  (forall item tx u tx', In item items -> P tx -> body item tx = Ok (u, tx') -> P tx') ->
  forall tx u tx', P tx -> forEach body items tx = Ok (u, tx') -> P tx'.
Proof.
  induction items as [|x l IH]; intros Hbody tx u tx' HP Hrun.
  - cbn in Hrun. tx_unfold. congruence.
  - rewrite forEach_cons in Hrun.
    destruct (body x tx) as [[u1 tx1]|e] eqn:Hx; [|discriminate].
    eapply IH; [| |exact Hrun].
    + intros item t v t' Hin. apply Hbody. now right.
    + eapply Hbody; [now left|exact HP|exact Hx].
Qed.

(** A loop whose iterations never throw does not throw. *)
Lemma forEach_total body items :
  (forall item tx, In item items -> exists tx', body item tx = Ok (tt, tx')) ->
  forall tx, exists tx', forEach body items tx = Ok (tt, tx').
Proof.
  induction items as [|x l IH]; intros Hbody tx.
  - exists tx. reflexivity.
  - rewrite forEach_cons.
    destruct (Hbody x tx (or_introl eq_refl)) as [tx1 ->].
    apply IH. intros item t Hin. apply Hbody. now right.
Qed.
End TxFacts.

Lemma transaction_rollback {A} (body : Tx A) db e db' :
  transaction body db = (Err e, db') -> db' = db.
Proof.
  unfold transaction. destruct (body db) as [[a d]|e']; congruence.
Qed.

Lemma transaction_err {A} (body : Tx A) db e :
  body db = Err e -> transaction body db = (Err e, db).
Proof. unfold transaction. now intros ->. Qed.

Lemma transaction_ok {A} (body : Tx A) db a db' :
  body db = Ok (a, db') -> transaction body db = (Ok a, db').
Proof. unfold transaction. now intros ->. Qed.

(** ** The ledger operations *)

Module LedgerProps.

Lemma increase_run w p q tx :
  increaseInventoryInTransaction w p q tx =
    Ok (tt, with_inventory
              (<[(w, p) := increased q (inventory tx !! (w, p))]> (inventory tx)) tx).
Proof.
  unfold increaseInventoryInTransaction, increased.
  destruct (inventory tx !! (w, p)); reflexivity.
Qed.

Lemma decrease_ok w p q tx tx' :
  decreaseInventoryInTransaction w p q tx = Ok (tt, tx') ->
  exists existing,
    inventory tx !! (w, p) = Some existing /\
    q <= Inventory.availableQuantity existing /\
    tx' = with_inventory (<[(w, p) := increased (- q) (Some existing)]> (inventory tx)) tx.
Proof.
  unfold decreaseInventoryInTransaction.
  destruct (inventory tx !! (w, p)) as [existing|]; [|discriminate].
  destruct (Z.ltb_spec (Inventory.availableQuantity existing) q); [discriminate|].
  intros [= <-]. exists existing.
  split; [reflexivity|]. split; [lia|].
  unfold increased. do 3 f_equal; f_equal; lia.
Qed.



Lemma consistent_increased q row :
  from_option Inventory.consistent True row ->
  Inventory.consistent (increased q row).
Proof.
  unfold Inventory.consistent. destruct row as [r|]; cbn; lia.
Qed.

Lemma ledgerConsistent_insert k row db :
  ledgerConsistent db -> Inventory.consistent row ->
  ledgerConsistent (with_inventory (<[k := row]> (inventory db)) db).
Proof.
  unfold ledgerConsistent. cbn. intros Hdb Hrow.
  now apply map_Forall_insert_2.
Qed.

Lemma ledgerConsistent_row db k :
  ledgerConsistent db -> from_option Inventory.consistent True (inventory db !! k).
Proof.
  intros Hdb. destruct (inventory db !! k) as [r|] eqn:Hk; [|exact I].
  exact (Hdb k r Hk).
Qed.

Lemma increase_consistent w p q tx u tx' :
  ledgerConsistent tx ->
  increaseInventoryInTransaction w p q tx = Ok (u, tx') ->
  ledgerConsistent tx'.
Proof.
  intros Hdb. rewrite increase_run. intros [= <- <-].
  apply ledgerConsistent_insert; [exact Hdb|].
  apply consistent_increased, ledgerConsistent_row, Hdb.
Qed.

Lemma decrease_consistent w p q tx u tx' :
  ledgerConsistent tx ->
  decreaseInventoryInTransaction w p q tx = Ok (u, tx') ->
  ledgerConsistent tx'.
Proof.
  intros Hdb Hrun. destruct u.
  apply decrease_ok in Hrun as (existing & Hrow & _ & ->).
  apply ledgerConsistent_insert; [exact Hdb|].
  apply consistent_increased. cbn.
  pose proof (ledgerConsistent_row tx (w, p) Hdb) as H.
  now rewrite Hrow in H.
Qed.

Lemma updateQuantity_plain w p q db :
  updateQuantity w p q None None db =
    (Ok (increased q (inventory db !! (w, p))),
     with_inventory (<[(w, p) := increased q (inventory db !! (w, p))]> (inventory db)) db).
Proof.
  unfold updateQuantity, transaction, increased.
  destruct (inventory db !! (w, p)) as [existing|]; cbn.
  - do 3 f_equal; f_equal; lia.
  - reflexivity.
Qed.


End LedgerProps.

(** ** Completion keeps the ledger consistent *)

Module CompletionLedger.
Import LedgerProps.

Lemma transaction_preserves {A} (P : DB -> Prop) (body : Tx A) db :
  P db -> (forall a db', body db = Ok (a, db') -> P db') ->
  P (transaction body db).2.
Proof.
  intros HP Hbody. unfold transaction.
  destruct (body db) as [[a db']|e] eqn:Hrun; cbn; eauto.
Qed.

Lemma stockIn_update_inventory id f tx d tx' :
  stockIn_update id f tx = Ok (d, tx') -> inventory tx' = inventory tx.
Proof.
  unfold stockIn_update. destruct (stockIns tx !! id); [|discriminate].
  now intros [= _ <-].
Qed.

Lemma stockOut_update_inventory id f tx d tx' :
  stockOut_update id f tx = Ok (d, tx') -> inventory tx' = inventory tx.
Proof.
  unfold stockOut_update. destruct (stockOuts tx !! id); [|discriminate].
  now intros [= _ <-].
Qed.

Lemma stockTransfer_update_inventory id f tx d tx' :
  stockTransfer_update id f tx = Ok (d, tx') -> inventory tx' = inventory tx.
Proof.
  unfold stockTransfer_update. destruct (stockTransfers tx !! id); [|discriminate].
  now intros [= _ <-].
Qed.

Lemma stockCheck_update_inventory id f tx d tx' :
  stockCheck_update id f tx = Ok (d, tx') -> inventory tx' = inventory tx.
Proof.
  unfold stockCheck_update. destruct (stockChecks tx !! id); [|discriminate].
  now intros [= _ <-].
Qed.

Lemma ledgerConsistent_ext tx tx' :
  inventory tx' = inventory tx -> ledgerConsistent tx -> ledgerConsistent tx'.
Proof. unfold ledgerConsistent. now intros ->. Qed.

Lemma applyDifference_consistent w item tx u tx' :
  ledgerConsistent tx -> applyDifference w item tx = Ok (u, tx') ->
  ledgerConsistent tx'.
Proof.
  intros Hdb. unfold applyDifference.
  destruct (0 <? StockCheckItem.difference item).
  - now apply increase_consistent.
  - destruct (StockCheckItem.difference item <? 0).
    + now apply decrease_consistent.
    + now intros [= _ <-].
Qed.

Lemma transferLine_consistent from to p q tx u tx' :
  ledgerConsistent tx ->
  (decreaseInventoryInTransaction from p q ;;;
   increaseInventoryInTransaction to p q) tx = Ok (u, tx') ->
  ledgerConsistent tx'.
Proof.
  intros Hdb. unfold bind.
  destruct (decreaseInventoryInTransaction from p q tx) as [[u1 tx1]|e] eqn:Hd;
    [|discriminate].
  intros Hi. eapply increase_consistent; [|exact Hi].
  eapply decrease_consistent; eauto.
Qed.

Lemma completeStockIn_consistent id db :
  ledgerConsistent db -> ledgerConsistent (completeStockIn id db).2.
Proof.
  intros Hdb. unfold completeStockIn.
  destruct (stockIns db !! id) as [d|]; [|exact Hdb].
  repeat (case String.eqb; [exact Hdb|]).
  apply transaction_preserves; [exact Hdb|]. intros a db'. unfold bind.
  destruct (stockIn_update _ _ db) as [[d1 tx1]|e] eqn:Hu; [|discriminate].
  apply forEach_preserves.
  - intros item tx u tx' _. apply increase_consistent.
  - eapply ledgerConsistent_ext; [eapply stockIn_update_inventory, Hu|exact Hdb].
Qed.

Lemma completeStockOut_consistent id db :
  ledgerConsistent db -> ledgerConsistent (completeStockOut id db).2.
Proof.
  intros Hdb. unfold completeStockOut.
  destruct (stockOuts db !! id) as [d|]; [|exact Hdb].
  repeat (case String.eqb; [exact Hdb|]).
  apply transaction_preserves; [exact Hdb|]. intros a db'. unfold bind.
  destruct (stockOut_update _ _ db) as [[d1 tx1]|e] eqn:Hu; [|discriminate].
  apply forEach_preserves.
  - intros item tx u tx' _. apply decrease_consistent.
  - eapply ledgerConsistent_ext; [eapply stockOut_update_inventory, Hu|exact Hdb].
Qed.

Lemma completeStockTransfer_consistent id db :
  ledgerConsistent db -> ledgerConsistent (completeStockTransfer id db).2.
Proof.
  intros Hdb. unfold completeStockTransfer.
  destruct (stockTransfers db !! id) as [d|]; [|exact Hdb].
  repeat (case String.eqb; [exact Hdb|]).
  apply transaction_preserves; [exact Hdb|]. intros a db'. unfold bind at 1.
  destruct (stockTransfer_update _ _ db) as [[d1 tx1]|e] eqn:Hu; [|discriminate].
  apply forEach_preserves.
  - intros item tx u tx' _. apply transferLine_consistent.
  - eapply ledgerConsistent_ext; [eapply stockTransfer_update_inventory, Hu|exact Hdb].
Qed.

Lemma completeStockCheck_consistent id db :
  ledgerConsistent db -> ledgerConsistent (completeStockCheck id db).2.
Proof.
  intros Hdb. unfold completeStockCheck.
  destruct (stockChecks db !! id) as [d|]; [|exact Hdb].
  repeat (case String.eqb; [exact Hdb|]).
  apply transaction_preserves; [exact Hdb|]. intros a db'. unfold bind.
  destruct (stockCheck_update _ _ db) as [[d1 tx1]|e] eqn:Hu; [|discriminate].
  apply forEach_preserves.
  - intros item tx u tx' _. apply applyDifference_consistent.
  - eapply ledgerConsistent_ext; [eapply stockCheck_update_inventory, Hu|exact Hdb].
Qed.




End CompletionLedger.






(** A negative increase of 8 on a row with 5 available leaves [-3], where
    the decrease of 8 is refused. *)
Example negative_increase_bypasses_stock_check :
  let tx := mkDB ∅ ∅ {[ ("W", "P") := Inventory.mk 5 5 0 ]} ∅ ∅ ∅ ∅ in
  decreaseInventoryInTransaction "W" "P" 8 tx = Err InventoryInsufficient /\
  exists tx', increaseInventoryInTransaction "W" "P" (-8) tx = Ok (tt, tx') /\
              inventory tx' !! ("W", "P") = Some (Inventory.mk (-3) (-3) 0).
Proof.
  split; [vm_compute; reflexivity|].
  eexists. split; [vm_compute; reflexivity|vm_compute; reflexivity].
Qed.

(** ** Bodies that write the balance table only *)

Module InventoryOnly.

Lemma increase w p q : inventoryOnly (increaseInventoryInTransaction w p q).
Proof.
  intros tx u tx'. rewrite LedgerProps.increase_run. now intros [= _ <-].
Qed.

Lemma decrease w p q : inventoryOnly (decreaseInventoryInTransaction w p q).
Proof.
  intros tx [] tx' H.
  apply LedgerProps.decrease_ok in H as (existing & _ & _ & ->). reflexivity.
Qed.

Lemma seq (m k : Tx unit) :
  inventoryOnly m -> inventoryOnly k -> inventoryOnly (m ;;; k).
Proof.
  intros Hm Hk tx u tx'. unfold bind.
  destruct (m tx) as [[u1 tx1]|e] eqn:E1; [|discriminate].
  intros E2. rewrite (Hk _ _ _ E2), (Hm _ _ _ E1). reflexivity.
Qed.

Lemma skip : inventoryOnly (ret tt).
Proof. intros tx u tx'. unfold ret. intros [= _ <-]. now destruct tx. Qed.

Lemma difference w item : inventoryOnly (applyDifference w item).
Proof.
  unfold applyDifference.
  destruct (0 <? _); [apply increase|].
  destruct (_ <? 0); [apply decrease|apply skip].
Qed.

Lemma loop {A} (body : A -> Tx unit) items :
  (forall item, inventoryOnly (body item)) -> inventoryOnly (forEach body items).
Proof.
  intros Hbody. induction items as [|x l IH]; [apply skip|].
  change (forEach body (x :: l)) with (body x ;;; forEach body l).
  apply seq; [apply Hbody|exact IH].
Qed.

End InventoryOnly.

(** ** The completion operations, case by case *)

Module Completion.

Lemma terminal_eqb s :
  terminal s <-> String.eqb s "completed" = true \/ String.eqb s "cancelled" = true.
Proof. unfold terminal. now rewrite !String.eqb_eq. Qed.

Lemma not_terminal_eqb s :
  ~ terminal s ->
  String.eqb s "completed" = false /\ String.eqb s "cancelled" = false.
Proof.
  rewrite terminal_eqb. intros H.
  split; apply not_true_is_false; tauto.
Qed.

Lemma draft_not_terminal : ~ terminal "draft".
Proof. intros [H|H]; discriminate H. Qed.

Lemma settle_err r db e db' : settle r db = (Err e, db') -> db' = db.
Proof. destruct r as [[[] tx']|e']; cbn; congruence. Qed.

Lemma settle_ok r db db' :
  settle r db = (Ok tt, db') -> r = Ok (tt, db').
Proof. destruct r as [[[] tx']|e']; cbn; congruence. Qed.

(** *** Stock-in *)

Lemma stockIn_missing id db :
  stockIns db !! id = None ->
  completeStockIn id db = (Err (DocumentNotFound KStockIn), db).
Proof. unfold completeStockIn. now intros ->. Qed.

Lemma stockIn_completed id db d :
  stockIns db !! id = Some d -> StockIn.status d = "completed" ->
  completeStockIn id db = (Err (AlreadyCompleted KStockIn), db).
Proof. unfold completeStockIn. now intros -> ->. Qed.

Lemma stockIn_cancelled id db d :
  stockIns db !! id = Some d -> StockIn.status d = "cancelled" ->
  completeStockIn id db = (Err (AlreadyCancelled KStockIn), db).
Proof. unfold completeStockIn. now intros -> ->. Qed.

Lemma stockIn_open id db d :
  stockIns db !! id = Some d -> ~ terminal (StockIn.status d) ->
  completeStockIn id db = settle (stockInEffect d (stockInMarked id d db)) db.
Proof.
  intros Hd Hs. apply not_terminal_eqb in Hs as [H1 H2].
  unfold completeStockIn. rewrite Hd, H1, H2.
  unfold transaction, bind, stockIn_update, stockInEffect, settle. rewrite Hd.
  fold (stockInMarked id d db).
  now destruct (forEach _ _ _) as [[[] tx']|e].
Qed.

(** *** Stock-out *)

Lemma stockOut_missing id db :
  stockOuts db !! id = None ->
  completeStockOut id db = (Err (DocumentNotFound KStockOut), db).
Proof. unfold completeStockOut. now intros ->. Qed.

Lemma stockOut_completed id db d :
  stockOuts db !! id = Some d -> StockOut.status d = "completed" ->
  completeStockOut id db = (Err (AlreadyCompleted KStockOut), db).
Proof. unfold completeStockOut. now intros -> ->. Qed.

Lemma stockOut_cancelled id db d :
  stockOuts db !! id = Some d -> StockOut.status d = "cancelled" ->
  completeStockOut id db = (Err (AlreadyCancelled KStockOut), db).
Proof. unfold completeStockOut. now intros -> ->. Qed.

Lemma stockOut_open id db d :
  stockOuts db !! id = Some d -> ~ terminal (StockOut.status d) ->
  completeStockOut id db = settle (stockOutEffect d (stockOutMarked id d db)) db.
Proof.
  intros Hd Hs. apply not_terminal_eqb in Hs as [H1 H2].
  unfold completeStockOut. rewrite Hd, H1, H2.
  unfold transaction, bind, stockOut_update, stockOutEffect, settle. rewrite Hd.
  fold (stockOutMarked id d db).
  now destruct (forEach _ _ _) as [[[] tx']|e].
Qed.

(** *** Transfer *)

Lemma stockTransfer_missing id db :
  stockTransfers db !! id = None ->
  completeStockTransfer id db = (Err (DocumentNotFound KStockTransfer), db).
Proof. unfold completeStockTransfer. now intros ->. Qed.

Lemma stockTransfer_completed id db d :
  stockTransfers db !! id = Some d -> StockTransfer.status d = "completed" ->
  completeStockTransfer id db = (Err (AlreadyCompleted KStockTransfer), db).
Proof. unfold completeStockTransfer. now intros -> ->. Qed.

Lemma stockTransfer_cancelled id db d :
  stockTransfers db !! id = Some d -> StockTransfer.status d = "cancelled" ->
  completeStockTransfer id db = (Err (AlreadyCancelled KStockTransfer), db).
Proof. unfold completeStockTransfer. now intros -> ->. Qed.

Lemma stockTransfer_open id db d :
  stockTransfers db !! id = Some d -> ~ terminal (StockTransfer.status d) ->
  completeStockTransfer id db =
    settle (stockTransferEffect d (stockTransferMarked id d db)) db.
Proof.
  intros Hd Hs. apply not_terminal_eqb in Hs as [H1 H2].
  unfold completeStockTransfer. rewrite Hd, H1, H2.
  unfold transaction, stockTransferEffect, settle.
  unfold bind at 1. unfold stockTransfer_update. rewrite Hd.
  fold (stockTransferMarked id d db).
  now destruct (forEach _ _ _) as [[[] tx']|e].
Qed.

(** *** Stock-check *)

Lemma stockCheck_missing id db :
  stockChecks db !! id = None ->
  completeStockCheck id db = (Err (DocumentNotFound KStockCheck), db).
Proof. unfold completeStockCheck. now intros ->. Qed.

Lemma stockCheck_completed id db d :
  stockChecks db !! id = Some d -> StockCheck.status d = "completed" ->
  completeStockCheck id db = (Err (AlreadyCompleted KStockCheck), db).
Proof. unfold completeStockCheck. now intros -> ->. Qed.

Lemma stockCheck_cancelled id db d :
  stockChecks db !! id = Some d -> StockCheck.status d = "cancelled" ->
  completeStockCheck id db = (Err (AlreadyCancelled KStockCheck), db).
Proof. unfold completeStockCheck. now intros -> ->. Qed.

Lemma stockCheck_open id db d :
  stockChecks db !! id = Some d -> ~ terminal (StockCheck.status d) ->
  completeStockCheck id db = settle (stockCheckEffect d (stockCheckMarked id d db)) db.
Proof.
  intros Hd Hs. apply not_terminal_eqb in Hs as [H1 H2].
  unfold completeStockCheck. rewrite Hd, H1, H2.
  unfold transaction, bind, stockCheck_update, stockCheckEffect, settle. rewrite Hd.
  fold (stockCheckMarked id d db).
  now destruct (forEach _ _ _) as [[[] tx']|e].
Qed.

(** *** The loops write the balance table only *)

Lemma stockInEffect_inventoryOnly d : inventoryOnly (stockInEffect d).
Proof. apply InventoryOnly.loop. intros. apply InventoryOnly.increase. Qed.

Lemma stockOutEffect_inventoryOnly d : inventoryOnly (stockOutEffect d).
Proof. apply InventoryOnly.loop. intros. apply InventoryOnly.decrease. Qed.

Lemma stockTransferEffect_inventoryOnly d : inventoryOnly (stockTransferEffect d).
Proof.
  apply InventoryOnly.loop. intros.
  apply InventoryOnly.seq; [apply InventoryOnly.decrease|apply InventoryOnly.increase].
Qed.

Lemma stockCheckEffect_inventoryOnly d : inventoryOnly (stockCheckEffect d).
Proof. apply InventoryOnly.loop. intros. apply InventoryOnly.difference. Qed.

(** The stock-in loop cannot throw. *)
Lemma stockInEffect_total d tx : exists tx', stockInEffect d tx = Ok (tt, tx').
Proof.
  apply forEach_total. intros item t _. eexists. apply LedgerProps.increase_run.
Qed.

End Completion.

(** ** What the loops do to a balance *)

Module Loops.
Import LedgerProps.

Lemma increased_columns q row :
  increased q row =
    Inventory.mk (from_option Inventory.quantity 0 row + q)
                 (from_option Inventory.availableQuantity 0 row + q)
                 (from_option Inventory.reservedQuantity 0 row).
Proof. destruct row as [r|]; reflexivity. Qed.

Lemma row_ext q a r q' a' r' :
  q = q' -> a = a' -> r = r' ->
  Some (Inventory.mk q a r) = Some (Inventory.mk q' a' r').
Proof. now intros -> -> ->. Qed.

Section IncreaseLoop.
Context {I : Type} (productId : I -> string) (quantity : I -> Z) (w : string).

Let body (item : I) : Tx unit :=
  increaseInventoryInTransaction w (productId item) (quantity item).

Lemma lineTotal_unmentioned p items :
  mentions productId p items = false -> lineTotal productId quantity p items = 0.
Proof.
  induction items as [|x l IH]; cbn; [reflexivity|].
  destruct (String.eqb (productId x) p); cbn; [discriminate|].
  intros H. now rewrite IH.
Qed.


(** After the loop, a balance of warehouse [w] whose product is on some
    line holds the old columns plus the lines' total; every other
    balance is as before. *)
Lemma increase_loop items : forall tx,
  exists tx',
    forEach body items tx = Ok (tt, tx') /\
    tx' = with_inventory (inventory tx') tx /\
    forall w' p',
      inventory tx' !! (w', p') =
        if decide (w' = w /\ mentions productId p' items = true)
        then Some (increased (lineTotal productId quantity p' items)
                             (inventory tx !! (w', p')))
        else inventory tx !! (w', p').
Proof.
  induction items as [|x l IH]; intros tx.
  - exists tx. split; [reflexivity|]. split; [now destruct tx|].
    intros w' p'. cbn. case decide; [intros [_ H]; discriminate H|reflexivity].
  - rewrite forEach_cons. unfold body at 1. rewrite increase_run.
    set (tx1 := with_inventory _ tx).
    destruct (IH tx1) as (tx' & Hrun & Hframe & Hrows).
    exists tx'. split; [exact Hrun|]. split; [rewrite Hframe; reflexivity|].
    intros w' p'. rewrite Hrows. unfold tx1. cbn [inventory with_inventory mentions existsb lineTotal].
    fold (mentions productId p' l).
    destruct (decide ((w, productId x) = (w', p'))) as [[= <- <-]|Hne].
    + rewrite lookup_insert_eq, String.eqb_refl. cbn [orb].
      destruct (mentions productId (productId x) l) eqn:Hm.
      * rewrite !decide_True by tauto.
        rewrite !increased_columns. cbn. apply row_ext; lia.
      * rewrite decide_False by (intros [_ H]; discriminate H).
        rewrite decide_True by tauto.
        rewrite (lineTotal_unmentioned _ _ Hm).
        rewrite !increased_columns. cbn. apply row_ext; lia.
    + rewrite lookup_insert_ne by exact Hne.
      destruct (String.eqb_spec (productId x) p') as [Hp|Hp].
      * assert (w' <> w) by (intros ->; apply Hne; now rewrite Hp).
        rewrite !decide_False by tauto. reflexivity.
      * cbn [orb]. rewrite Z.add_0_l. reflexivity.
Qed.
End IncreaseLoop.

End Loops.

(** ** Successful completions, inverted *)

Module Completed.
Import Completion.

Lemma terminal_dec s : {terminal s} + {~ terminal s}.
Proof.
  unfold terminal.
  destruct (String.eqb_spec s "completed"); [now left; left|].
  destruct (String.eqb_spec s "cancelled"); [now left; right|].
  right. tauto.
Qed.

Lemma stockIn_inv id db db1 :
  completeStockIn id db = (Ok tt, db1) ->
  exists d, stockIns db !! id = Some d /\ ~ terminal (StockIn.status d) /\
            stockInEffect d (stockInMarked id d db) = Ok (tt, db1) /\
            db1 = with_inventory (inventory db1) (stockInMarked id d db).
Proof.
  intros H. destruct (stockIns db !! id) as [d|] eqn:Hd.
  - destruct (terminal_dec (StockIn.status d)) as [[Hs|Hs]|Hs].
    + rewrite (stockIn_completed _ _ _ Hd Hs) in H. discriminate H.
    + rewrite (stockIn_cancelled _ _ _ Hd Hs) in H. discriminate H.
    + rewrite (stockIn_open _ _ _ Hd Hs) in H. apply settle_ok in H.
      exists d. repeat split; try assumption.
      eapply stockInEffect_inventoryOnly, H.
  - rewrite (stockIn_missing _ _ Hd) in H. discriminate H.
Qed.

Lemma stockOut_inv id db db1 :
  completeStockOut id db = (Ok tt, db1) ->
  exists d, stockOuts db !! id = Some d /\ ~ terminal (StockOut.status d) /\
            stockOutEffect d (stockOutMarked id d db) = Ok (tt, db1) /\
            db1 = with_inventory (inventory db1) (stockOutMarked id d db).
Proof.
  intros H. destruct (stockOuts db !! id) as [d|] eqn:Hd.
  - destruct (terminal_dec (StockOut.status d)) as [[Hs|Hs]|Hs].
    + rewrite (stockOut_completed _ _ _ Hd Hs) in H. discriminate H.
    + rewrite (stockOut_cancelled _ _ _ Hd Hs) in H. discriminate H.
    + rewrite (stockOut_open _ _ _ Hd Hs) in H. apply settle_ok in H.
      exists d. repeat split; try assumption.
      eapply stockOutEffect_inventoryOnly, H.
  - rewrite (stockOut_missing _ _ Hd) in H. discriminate H.
Qed.

Lemma stockTransfer_inv id db db1 :
  completeStockTransfer id db = (Ok tt, db1) ->
  exists d, stockTransfers db !! id = Some d /\ ~ terminal (StockTransfer.status d) /\
            stockTransferEffect d (stockTransferMarked id d db) = Ok (tt, db1) /\
            db1 = with_inventory (inventory db1) (stockTransferMarked id d db).
Proof.
  intros H. destruct (stockTransfers db !! id) as [d|] eqn:Hd.
  - destruct (terminal_dec (StockTransfer.status d)) as [[Hs|Hs]|Hs].
    + rewrite (stockTransfer_completed _ _ _ Hd Hs) in H. discriminate H.
    + rewrite (stockTransfer_cancelled _ _ _ Hd Hs) in H. discriminate H.
    + rewrite (stockTransfer_open _ _ _ Hd Hs) in H. apply settle_ok in H.
      exists d. repeat split; try assumption.
      eapply stockTransferEffect_inventoryOnly, H.
  - rewrite (stockTransfer_missing _ _ Hd) in H. discriminate H.
Qed.

Lemma stockCheck_inv id db db1 :
  completeStockCheck id db = (Ok tt, db1) ->
  exists d, stockChecks db !! id = Some d /\ ~ terminal (StockCheck.status d) /\
            stockCheckEffect d (stockCheckMarked id d db) = Ok (tt, db1) /\
            db1 = with_inventory (inventory db1) (stockCheckMarked id d db).
Proof.
  intros H. destruct (stockChecks db !! id) as [d|] eqn:Hd.
  - destruct (terminal_dec (StockCheck.status d)) as [[Hs|Hs]|Hs].
    + rewrite (stockCheck_completed _ _ _ Hd Hs) in H. discriminate H.
    + rewrite (stockCheck_cancelled _ _ _ Hd Hs) in H. discriminate H.
    + rewrite (stockCheck_open _ _ _ Hd Hs) in H. apply settle_ok in H.
      exists d. repeat split; try assumption.
      eapply stockCheckEffect_inventoryOnly, H.
  - rewrite (stockCheck_missing _ _ Hd) in H. discriminate H.
Qed.

(** A failed completion leaves the database as it was. *)
Lemma stockIn_err id db e db1 : completeStockIn id db = (Err e, db1) -> db1 = db.
Proof.
  unfold completeStockIn. destruct (stockIns db !! id); [|congruence].
  repeat (case String.eqb; [congruence|]). apply transaction_rollback.
Qed.

Lemma stockOut_err id db e db1 : completeStockOut id db = (Err e, db1) -> db1 = db.
Proof.
  unfold completeStockOut. destruct (stockOuts db !! id); [|congruence].
  repeat (case String.eqb; [congruence|]). apply transaction_rollback.
Qed.

Lemma stockTransfer_err id db e db1 :
  completeStockTransfer id db = (Err e, db1) -> db1 = db.
Proof.
  unfold completeStockTransfer. destruct (stockTransfers db !! id); [|congruence].
  repeat (case String.eqb; [congruence|]). apply transaction_rollback.
Qed.

Lemma stockCheck_err id db e db1 : completeStockCheck id db = (Err e, db1) -> db1 = db.
Proof.
  unfold completeStockCheck. destruct (stockChecks db !! id); [|congruence].
  repeat (case String.eqb; [congruence|]). apply transaction_rollback.
Qed.

(** Completing again what was just completed is refused. *)
Lemma stockOut_again id db db1 :
  completeStockOut id db = (Ok tt, db1) ->
  completeStockOut id db1 = (Err (AlreadyCompleted KStockOut), db1).
Proof.
  intros H. apply stockOut_inv in H as (d & _ & _ & _ & Hdb1).
  apply stockOut_completed with (d := stockOut_setStatus "completed" d);
    [|reflexivity].
  rewrite Hdb1. cbn. apply lookup_insert_eq.
Qed.

Lemma stockTransfer_again id db db1 :
  completeStockTransfer id db = (Ok tt, db1) ->
  completeStockTransfer id db1 = (Err (AlreadyCompleted KStockTransfer), db1).
Proof.
  intros H. apply stockTransfer_inv in H as (d & _ & _ & _ & Hdb1).
  apply stockTransfer_completed with (d := stockTransfer_setStatus "completed" d);
    [|reflexivity].
  rewrite Hdb1. cbn. apply lookup_insert_eq.
Qed.

Lemma stockCheck_again id db db1 :
  completeStockCheck id db = (Ok tt, db1) ->
  completeStockCheck id db1 = (Err (AlreadyCompleted KStockCheck), db1).
Proof.
  intros H. apply stockCheck_inv in H as (d & _ & _ & _ & Hdb1).
  apply stockCheck_completed with (d := stockCheck_setStatus "completed" d);
    [|reflexivity].
  rewrite Hdb1. cbn. apply lookup_insert_eq.
Qed.

(** What a stock-in completion of a non-terminal document leaves. *)
Lemma stockIn_run id db d :
  stockIns db !! id = Some d -> ~ terminal (StockIn.status d) ->
  exists db1,
    completeStockIn id db = (Ok tt, db1) /\
    db1 = with_inventory (inventory db1) (stockInMarked id d db) /\
    forall w p,
      inventory db1 !! (w, p) =
        if decide (w = StockIn.warehouseId d
                   /\ mentions StockInItem.productId p (StockIn.items d) = true)
        then Some (increased
                     (lineTotal StockInItem.productId StockInItem.quantity p
                                (StockIn.items d))
                     (inventory db !! (w, p)))
        else inventory db !! (w, p).
Proof.
  intros Hd Hs.
  destruct (Loops.increase_loop StockInItem.productId StockInItem.quantity
              (StockIn.warehouseId d) (StockIn.items d) (stockInMarked id d db))
    as (db1 & Hrun & Hframe & Hrows).
  exists db1. rewrite (stockIn_open _ _ _ Hd Hs).
  unfold stockInEffect. rewrite Hrun. cbn [settle].
  split; [reflexivity|]. split; [exact Hframe|exact Hrows].
Qed.

End Completed.

(** C4.  For a stock-in document id: a missing id is refused with
    DocumentNotFound, a cancelled document with AlreadyCancelled and a
    completed one with AlreadyCompleted, each leaving the database as it
    was; a draft document is completed by the first call, which marks it
    completed, keeps its lines and adds each product's line total to the
    balance of its warehouse, and the second call is refused with
    AlreadyCompleted and leaves the database of the first call as it is.
    For the other three documents, a call that follows a successful
    completion of the same id is refused in the same way. *)
Theorem complete_applies_effect_once (id : string) (db : DB) :
  (stockIns db !! id = None ->
   completeStockIn id db = (Err (DocumentNotFound KStockIn), db)) /\
  (forall d, stockIns db !! id = Some d -> StockIn.status d = "cancelled" ->
             completeStockIn id db = (Err (AlreadyCancelled KStockIn), db)) /\
  (forall d, stockIns db !! id = Some d -> StockIn.status d = "completed" ->
             completeStockIn id db = (Err (AlreadyCompleted KStockIn), db)) /\
  (forall d, stockIns db !! id = Some d -> StockIn.status d = "draft" ->
     exists db1,
       completeStockIn id db = (Ok tt, db1) /\
       stockIns db1 !! id = Some (stockIn_setStatus "completed" d) /\
       (forall w p,
           inventory db1 !! (w, p) =
             if decide (w = StockIn.warehouseId d
                        /\ mentions StockInItem.productId p (StockIn.items d) = true)
             then Some (increased
                          (lineTotal StockInItem.productId StockInItem.quantity p
                                     (StockIn.items d))
                          (inventory db !! (w, p)))
             else inventory db !! (w, p)) /\
       completeStockIn id db1 = (Err (AlreadyCompleted KStockIn), db1)) /\
  (forall db1, completeStockOut id db = (Ok tt, db1) ->
               completeStockOut id db1 = (Err (AlreadyCompleted KStockOut), db1)) /\
  (forall db1, completeStockTransfer id db = (Ok tt, db1) ->
               completeStockTransfer id db1
               = (Err (AlreadyCompleted KStockTransfer), db1)) /\
  (forall db1, completeStockCheck id db = (Ok tt, db1) ->
               completeStockCheck id db1 = (Err (AlreadyCompleted KStockCheck), db1)).
Proof.
  repeat apply conj.
  - apply Completion.stockIn_missing.
  - intros d. apply Completion.stockIn_cancelled.
  - intros d. apply Completion.stockIn_completed.
  - intros d Hd Hs.
    assert (Hopen : ~ terminal (StockIn.status d))
      by (rewrite Hs; exact Completion.draft_not_terminal).
    destruct (Completed.stockIn_run id db d Hd Hopen) as (db1 & Hrun & Hframe & Hrows).
    assert (Hdoc : stockIns db1 !! id = Some (stockIn_setStatus "completed" d))
      by (rewrite Hframe; cbn; apply lookup_insert_eq).
    exists db1. repeat split; try assumption.
    now apply Completion.stockIn_completed with (d := stockIn_setStatus "completed" d).
  - apply Completed.stockOut_again.
  - apply Completed.stockTransfer_again.
  - apply Completed.stockCheck_again.
Qed.

(** ** The update and create operations, case by case *)

Module Edits.
Import Completion.

(** *** Update *)

Lemma stockIn_update_terminal id data db d :
  stockIns db !! id = Some d -> terminal (StockIn.status d) ->
  exists e, updateStockIn id data db = (Err e, db) /\ isDocumentNotEditable e = true.
Proof.
  unfold updateStockIn. intros -> [->| ->]; eexists; split; reflexivity.
Qed.

Lemma stockOut_update_terminal id data db d :
  stockOuts db !! id = Some d -> terminal (StockOut.status d) ->
  exists e, updateStockOut id data db = (Err e, db) /\ isDocumentNotEditable e = true.
Proof.
  unfold updateStockOut. intros -> [->| ->]; eexists; split; reflexivity.
Qed.

Lemma stockTransfer_update_terminal id data db d :
  stockTransfers db !! id = Some d -> terminal (StockTransfer.status d) ->
  exists e, updateStockTransfer id data db = (Err e, db)
            /\ isDocumentNotEditable e = true.
Proof.
  unfold updateStockTransfer. intros -> [->| ->]; eexists; split; reflexivity.
Qed.

Lemma stockCheck_update_terminal id data db d :
  stockChecks db !! id = Some d -> terminal (StockCheck.status d) ->
  exists e, updateStockCheck id data db = (Err e, db) /\ isDocumentNotEditable e = true.
Proof.
  unfold updateStockCheck. intros -> [->| ->]; eexists; split; reflexivity.
Qed.

(** The row an accepted update writes. *)
Lemma stockIn_update_accepted id data db d :
  stockIns db !! id = Some d -> ~ terminal (StockIn.status d) ->
  validateOptWarehouse (PartialStockInInput.warehouseId data) db = None ->
  validateOptProducts StockInItem.productId (PartialStockInInput.items data) db = None ->
  let d' := stockIn_patch data
              (match PartialStockInInput.items data with
               | Some _ => stockIn_setItems [] d
               | None => d
               end) in
  updateStockIn id data db = (Ok d', with_stockIns (<[id := d']> (stockIns db)) db).
Proof.
  intros Hd Hs Hw Hp. apply not_terminal_eqb in Hs as [H1 H2].
  unfold updateStockIn. rewrite Hd, H1, H2, Hw, Hp.
  unfold transaction, bind, stockInItem_deleteMany, stockIn_update, ret.
  destruct (PartialStockInInput.items data); cbn.
  - rewrite Hd. cbn. rewrite lookup_insert_eq, insert_insert_eq. reflexivity.
  - rewrite Hd. reflexivity.
Qed.

Lemma stockOut_update_accepted id data db d :
  stockOuts db !! id = Some d -> ~ terminal (StockOut.status d) ->
  validateOptWarehouse (PartialStockOutInput.warehouseId data) db = None ->
  validateOptProducts StockOutItem.productId (PartialStockOutInput.items data) db = None ->
  let d' := stockOut_patch data
              (match PartialStockOutInput.items data with
               | Some _ => stockOut_setItems [] d
               | None => d
               end) in
  updateStockOut id data db = (Ok d', with_stockOuts (<[id := d']> (stockOuts db)) db).
Proof.
  intros Hd Hs Hw Hp. apply not_terminal_eqb in Hs as [H1 H2].
  unfold updateStockOut. rewrite Hd, H1, H2, Hw, Hp.
  unfold transaction, bind, stockOutItem_deleteMany, stockOut_update, ret.
  destruct (PartialStockOutInput.items data); cbn.
  - rewrite Hd. cbn. rewrite lookup_insert_eq, insert_insert_eq. reflexivity.
  - rewrite Hd. reflexivity.
Qed.

Lemma stockTransfer_update_accepted id data db d :
  stockTransfers db !! id = Some d -> ~ terminal (StockTransfer.status d) ->
  validateTransferWarehouses data d db = None ->
  validateOptProducts StockTransferItem.productId
    (PartialStockTransferInput.items data) db = None ->
  let d' := stockTransfer_patch data
              (match PartialStockTransferInput.items data with
               | Some _ => stockTransfer_setItems [] d
               | None => d
               end) in
  updateStockTransfer id data db
  = (Ok d', with_stockTransfers (<[id := d']> (stockTransfers db)) db).
Proof.
  intros Hd Hs Hw Hp. apply not_terminal_eqb in Hs as [H1 H2].
  unfold updateStockTransfer. rewrite Hd, H1, H2, Hw, Hp.
  unfold transaction, bind, stockTransferItem_deleteMany, stockTransfer_update, ret.
  destruct (PartialStockTransferInput.items data); cbn.
  - rewrite Hd. cbn. rewrite lookup_insert_eq, insert_insert_eq. reflexivity.
  - rewrite Hd. reflexivity.
Qed.

Lemma stockCheck_update_accepted id data db d :
  stockChecks db !! id = Some d -> ~ terminal (StockCheck.status d) ->
  validateOptWarehouse (PartialStockCheckInput.warehouseId data) db = None ->
  validateOptProducts StockCheckItemInput.productId
    (PartialStockCheckInput.items data) db = None ->
  let d' := stockCheck_patch data
              (match PartialStockCheckInput.items data with
               | Some _ => stockCheck_setItems [] d
               | None => d
               end) in
  updateStockCheck id data db
  = (Ok d', with_stockChecks (<[id := d']> (stockChecks db)) db).
Proof.
  intros Hd Hs Hw Hp. apply not_terminal_eqb in Hs as [H1 H2].
  unfold updateStockCheck. rewrite Hd, H1, H2, Hw, Hp.
  unfold transaction, bind, stockCheckItem_deleteMany, stockCheck_update, ret.
  destruct (PartialStockCheckInput.items data); cbn.
  - rewrite Hd. cbn. rewrite lookup_insert_eq, insert_insert_eq. reflexivity.
  - rewrite Hd. reflexivity.
Qed.

(** *** Create *)

Lemma insertRow_Some {D} (no : D -> string) id d table table' :
  insertRow no id d table = Some table' ->
  table !! id = None /\ table' = <[id := d]> table.
Proof.
  unfold insertRow. destruct (table !! id); [discriminate|].
  case decide; [|discriminate]. now intros _ [= <-].
Qed.

Lemma insertRow_fresh {D} (no : D -> string) id d table :
  table !! id = None ->
  map_Forall (fun _ d' => no d' <> no d) table ->
  insertRow no id d table = Some (<[id := d]> table).
Proof.
  unfold insertRow. intros -> H. now rewrite decide_True.
Qed.

Lemma validateProducts_None {I} (productId : I -> string) items db :
  validateProducts productId items db = None <->
  Forall (fun item => productId item ∈ products db) items.
Proof.
  induction items as [|x l IH]; cbn.
  - split; [constructor|reflexivity].
  - case decide; intros Hx.
    + rewrite IH. split; [now constructor|]. now inversion 1.
    + split; [discriminate|]. now inversion 1.
Qed.


Lemma stockOut_create_accepted data operator env db :
  is_Some (warehouses db !! CreateStockOutInput.warehouseId data) ->
  Forall (fun item => StockOutItem.productId item ∈ products db)
         (CreateStockOutInput.items data) ->
  stockOuts db !! newId env = None ->
  map_Forall (fun _ d' => StockOut.outNo d' <> generateOutNo "OUT" (dateStr env) db)
             (stockOuts db) ->
  createStockOut data operator env db =
    (Ok (newId env, draftStockOut data operator env db),
     with_stockOuts (<[newId env := draftStockOut data operator env db]> (stockOuts db)) db).
Proof.
  intros [wh Hw] Hp Hid Hno. apply validateProducts_None in Hp.
  unfold createStockOut. rewrite Hw, Hp.
  unfold transaction, stockOut_create. fold (draftStockOut data operator env db).
  now rewrite insertRow_fresh.
Qed.

Lemma stockTransfer_create_accepted data operator env db :
  is_Some (warehouses db !! CreateStockTransferInput.fromWarehouseId data) ->
  is_Some (warehouses db !! CreateStockTransferInput.toWarehouseId data) ->
  CreateStockTransferInput.fromWarehouseId data
    <> CreateStockTransferInput.toWarehouseId data ->
  Forall (fun item => StockTransferItem.productId item ∈ products db)
         (CreateStockTransferInput.items data) ->
  stockTransfers db !! newId env = None ->
  map_Forall (fun _ d' => StockTransfer.transferNo d'
                          <> generateTransferNo "TR" (dateStr env) db)
             (stockTransfers db) ->
  createStockTransfer data operator env db =
    (Ok (newId env, draftStockTransfer data operator env db),
     with_stockTransfers
       (<[newId env := draftStockTransfer data operator env db]> (stockTransfers db)) db).
Proof.
  intros [wf Hf] [wt Ht] Hne Hp Hid Hno. apply validateProducts_None in Hp.
  apply String.eqb_neq in Hne.
  unfold createStockTransfer. rewrite Hf, Ht, Hne, Hp.
  unfold transaction, stockTransfer_create.
  fold (draftStockTransfer data operator env db).
  now rewrite insertRow_fresh.
Qed.

Lemma stockCheck_create_accepted data env db :
  is_Some (warehouses db !! CreateStockCheckInput.warehouseId data) ->
  Forall (fun item => StockCheckItemInput.productId item ∈ products db)
         (CreateStockCheckInput.items data) ->
  stockChecks db !! newId env = None ->
  map_Forall (fun _ d' => StockCheck.checkNo d' <> generateCheckNo "CK" (dateStr env) db)
             (stockChecks db) ->
  createStockCheck data env db =
    (Ok (newId env, draftStockCheck data env db),
     with_stockChecks (<[newId env := draftStockCheck data env db]> (stockChecks db)) db).
Proof.
  intros [wh Hw] Hp Hid Hno. apply validateProducts_None in Hp.
  unfold createStockCheck. rewrite Hw, Hp.
  unfold transaction, stockCheck_create. fold (draftStockCheck data env db).
  now rewrite insertRow_fresh.
Qed.

End Edits.

(** ** Terminal documents are out of reach *)

Module Frozen.
Import Completion Completed Edits.

Lemma frozen_refl db : frozen db db.
Proof. repeat split; intros; assumption. Qed.

Lemma frozen_trans db1 db2 db3 : frozen db1 db2 -> frozen db2 db3 -> frozen db1 db3.
Proof.
  intros (A1 & A2 & A3 & A4) (B1 & B2 & B3 & B4).
  repeat split; intros id d Hd Ht; eauto.
Qed.

Lemma openSlot_ne {D} (status : D -> string) (table : gmap string D) id id0 d :
  openSlot status (table !! id) -> table !! id0 = Some d -> terminal (status d) ->
  id0 <> id.
Proof. intros Hopen Hd Ht ->. rewrite Hd in Hopen. now apply Hopen. Qed.

Lemma touchesStockIn_frozen id db db' :
  openSlot StockIn.status (stockIns db !! id) -> touchesStockIn id db db' ->
  frozen db db'.
Proof.
  intros Hopen (H & H2 & H3 & H4). unfold frozen. rewrite H2, H3, H4.
  repeat split; intros id0 d Hd Ht; try assumption.
  rewrite H; [assumption|]. eapply openSlot_ne; eassumption.
Qed.

Lemma touchesStockOut_frozen id db db' :
  openSlot StockOut.status (stockOuts db !! id) -> touchesStockOut id db db' ->
  frozen db db'.
Proof.
  intros Hopen (H & H2 & H3 & H4). unfold frozen. rewrite H2, H3, H4.
  repeat split; intros id0 d Hd Ht; try assumption.
  rewrite H; [assumption|]. eapply openSlot_ne; eassumption.
Qed.

Lemma touchesStockTransfer_frozen id db db' :
  openSlot StockTransfer.status (stockTransfers db !! id) ->
  touchesStockTransfer id db db' -> frozen db db'.
Proof.
  intros Hopen (H & H2 & H3 & H4). unfold frozen. rewrite H2, H3, H4.
  repeat split; intros id0 d Hd Ht; try assumption.
  rewrite H; [assumption|]. eapply openSlot_ne; eassumption.
Qed.

Lemma touchesStockCheck_frozen id db db' :
  openSlot StockCheck.status (stockChecks db !! id) -> touchesStockCheck id db db' ->
  frozen db db'.
Proof.
  intros Hopen (H & H2 & H3 & H4). unfold frozen. rewrite H2, H3, H4.
  repeat split; intros id0 d Hd Ht; try assumption.
  rewrite H; [assumption|]. eapply openSlot_ne; eassumption.
Qed.

(** Writing one row of a table touches that row only. *)
Ltac touch_insert :=
  repeat split; cbn; try reflexivity;
  intros id' Hne; now rewrite lookup_insert_ne.

(** *** Stock-in *)

Lemma stockIn_create_frozen data operator env db :
  frozen db (createStockIn data operator env db).2.
Proof.
  unfold createStockIn.
  destruct (warehouses db !! _); [|apply frozen_refl].
  destruct (validateProducts _ _ _); [apply frozen_refl|].
  unfold transaction, stockIn_create.
  destruct (insertRow _ _ _ _) as [table|] eqn:Hins; [|apply frozen_refl].
  apply insertRow_Some in Hins as [Hid ->]. cbn [snd].
  apply touchesStockIn_frozen with (id := newId env); [now rewrite Hid|touch_insert].
Qed.

Lemma stockIn_update_frozen id data db : frozen db (updateStockIn id data db).2.
Proof.
  destruct (stockIns db !! id) as [d|] eqn:Hd;
    [|unfold updateStockIn; rewrite Hd; apply frozen_refl].
  destruct (terminal_dec (StockIn.status d)) as [Ht|Ht].
  - destruct (stockIn_update_terminal id data db d Hd Ht) as (e & -> & _).
    apply frozen_refl.
  - destruct (validateOptWarehouse (PartialStockInInput.warehouseId data) db) eqn:Hw;
      [|destruct (validateOptProducts StockInItem.productId
                    (PartialStockInInput.items data) db) eqn:Hp].
    + unfold updateStockIn. rewrite Hd, Hw.
      repeat (case String.eqb; [apply frozen_refl|]). apply frozen_refl.
    + unfold updateStockIn. rewrite Hd, Hw, Hp.
      repeat (case String.eqb; [apply frozen_refl|]). apply frozen_refl.
    + rewrite (stockIn_update_accepted id data db d Hd Ht Hw Hp). cbn [snd].
      apply touchesStockIn_frozen with (id := id); [now rewrite Hd|touch_insert].
Qed.

Lemma stockIn_complete_frozen id db : frozen db (completeStockIn id db).2.
Proof.
  destruct (completeStockIn id db) as [[[]|e] db'] eqn:H; cbn [snd].
  - apply stockIn_inv in H as (d & Hd & Ht & _ & ->).
    apply touchesStockIn_frozen with (id := id); [now rewrite Hd|touch_insert].
  - apply stockIn_err in H as ->. apply frozen_refl.
Qed.

(** *** Stock-out *)

Lemma stockOut_create_frozen data operator env db :
  frozen db (createStockOut data operator env db).2.
Proof.
  unfold createStockOut.
  destruct (warehouses db !! _); [|apply frozen_refl].
  destruct (validateProducts _ _ _); [apply frozen_refl|].
  unfold transaction, stockOut_create.
  destruct (insertRow _ _ _ _) as [table|] eqn:Hins; [|apply frozen_refl].
  apply insertRow_Some in Hins as [Hid ->]. cbn [snd].
  apply touchesStockOut_frozen with (id := newId env); [now rewrite Hid|touch_insert].
Qed.

Lemma stockOut_update_frozen id data db : frozen db (updateStockOut id data db).2.
Proof.
  destruct (stockOuts db !! id) as [d|] eqn:Hd;
    [|unfold updateStockOut; rewrite Hd; apply frozen_refl].
  destruct (terminal_dec (StockOut.status d)) as [Ht|Ht].
  - destruct (stockOut_update_terminal id data db d Hd Ht) as (e & -> & _).
    apply frozen_refl.
  - destruct (validateOptWarehouse (PartialStockOutInput.warehouseId data) db) eqn:Hw;
      [|destruct (validateOptProducts StockOutItem.productId
                    (PartialStockOutInput.items data) db) eqn:Hp].
    + unfold updateStockOut. rewrite Hd, Hw.
      repeat (case String.eqb; [apply frozen_refl|]). apply frozen_refl.
    + unfold updateStockOut. rewrite Hd, Hw, Hp.
      repeat (case String.eqb; [apply frozen_refl|]). apply frozen_refl.
    + rewrite (stockOut_update_accepted id data db d Hd Ht Hw Hp). cbn [snd].
      apply touchesStockOut_frozen with (id := id); [now rewrite Hd|touch_insert].
Qed.

Lemma stockOut_complete_frozen id db : frozen db (completeStockOut id db).2.
Proof.
  destruct (completeStockOut id db) as [[[]|e] db'] eqn:H; cbn [snd].
  - apply stockOut_inv in H as (d & Hd & Ht & _ & ->).
    apply touchesStockOut_frozen with (id := id); [now rewrite Hd|touch_insert].
  - apply stockOut_err in H as ->. apply frozen_refl.
Qed.

(** *** Transfer *)

Lemma stockTransfer_create_frozen data operator env db :
  frozen db (createStockTransfer data operator env db).2.
Proof.
  unfold createStockTransfer.
  destruct (warehouses db !! _); [|apply frozen_refl].
  destruct (warehouses db !! _); [|apply frozen_refl].
  case String.eqb; [apply frozen_refl|].
  destruct (validateProducts _ _ _); [apply frozen_refl|].
  unfold transaction, stockTransfer_create.
  destruct (insertRow _ _ _ _) as [table|] eqn:Hins; [|apply frozen_refl].
  apply insertRow_Some in Hins as [Hid ->]. cbn [snd].
  apply touchesStockTransfer_frozen with (id := newId env);
    [now rewrite Hid|touch_insert].
Qed.

Lemma stockTransfer_update_frozen id data db :
  frozen db (updateStockTransfer id data db).2.
Proof.
  destruct (stockTransfers db !! id) as [d|] eqn:Hd;
    [|unfold updateStockTransfer; rewrite Hd; apply frozen_refl].
  destruct (terminal_dec (StockTransfer.status d)) as [Ht|Ht].
  - destruct (stockTransfer_update_terminal id data db d Hd Ht) as (e & -> & _).
    apply frozen_refl.
  - destruct (validateTransferWarehouses data d db) eqn:Hw;
      [|destruct (validateOptProducts StockTransferItem.productId
                    (PartialStockTransferInput.items data) db) eqn:Hp].
    + unfold updateStockTransfer. rewrite Hd, Hw.
      repeat (case String.eqb; [apply frozen_refl|]). apply frozen_refl.
    + unfold updateStockTransfer. rewrite Hd, Hw, Hp.
      repeat (case String.eqb; [apply frozen_refl|]). apply frozen_refl.
    + rewrite (stockTransfer_update_accepted id data db d Hd Ht Hw Hp). cbn [snd].
      apply touchesStockTransfer_frozen with (id := id);
        [now rewrite Hd|touch_insert].
Qed.

Lemma stockTransfer_complete_frozen id db :
  frozen db (completeStockTransfer id db).2.
Proof.
  destruct (completeStockTransfer id db) as [[[]|e] db'] eqn:H; cbn [snd].
  - apply stockTransfer_inv in H as (d & Hd & Ht & _ & ->).
    apply touchesStockTransfer_frozen with (id := id);
      [now rewrite Hd|touch_insert].
  - apply stockTransfer_err in H as ->. apply frozen_refl.
Qed.

(** *** Stock-check *)

Lemma stockCheck_create_frozen data env db :
  frozen db (createStockCheck data env db).2.
Proof.
  unfold createStockCheck.
  destruct (warehouses db !! _); [|apply frozen_refl].
  destruct (validateProducts _ _ _); [apply frozen_refl|].
  unfold transaction, stockCheck_create.
  destruct (insertRow _ _ _ _) as [table|] eqn:Hins; [|apply frozen_refl].
  apply insertRow_Some in Hins as [Hid ->]. cbn [snd].
  apply touchesStockCheck_frozen with (id := newId env); [now rewrite Hid|touch_insert].
Qed.

Lemma stockCheck_update_frozen id data db : frozen db (updateStockCheck id data db).2.
Proof.
  destruct (stockChecks db !! id) as [d|] eqn:Hd;
    [|unfold updateStockCheck; rewrite Hd; apply frozen_refl].
  destruct (terminal_dec (StockCheck.status d)) as [Ht|Ht].
  - destruct (stockCheck_update_terminal id data db d Hd Ht) as (e & -> & _).
    apply frozen_refl.
  - destruct (validateOptWarehouse (PartialStockCheckInput.warehouseId data) db) eqn:Hw;
      [|destruct (validateOptProducts StockCheckItemInput.productId
                    (PartialStockCheckInput.items data) db) eqn:Hp].
    + unfold updateStockCheck. rewrite Hd, Hw.
      repeat (case String.eqb; [apply frozen_refl|]). apply frozen_refl.
    + unfold updateStockCheck. rewrite Hd, Hw, Hp.
      repeat (case String.eqb; [apply frozen_refl|]). apply frozen_refl.
    + rewrite (stockCheck_update_accepted id data db d Hd Ht Hw Hp). cbn [snd].
      apply touchesStockCheck_frozen with (id := id); [now rewrite Hd|touch_insert].
Qed.

Lemma stockCheck_complete_frozen id db : frozen db (completeStockCheck id db).2.
Proof.
  destruct (completeStockCheck id db) as [[[]|e] db'] eqn:H; cbn [snd].
  - apply stockCheck_inv in H as (d & Hd & Ht & _ & ->).
    apply touchesStockCheck_frozen with (id := id); [now rewrite Hd|touch_insert].
  - apply stockCheck_err in H as ->. apply frozen_refl.
Qed.

(** *** Any call, any sequence of calls *)

Lemma outcome_snd {A} (r : result A * DB) : (outcome r).2 = r.2.
Proof. now destruct r as [[a|e] db]. Qed.

Lemma run_frozen op db : frozen db (run op db).2.
Proof.
  destruct op; cbn [run]; rewrite outcome_snd;
    auto using stockIn_create_frozen, stockIn_update_frozen, stockIn_complete_frozen,
      stockOut_create_frozen, stockOut_update_frozen, stockOut_complete_frozen,
      stockTransfer_create_frozen, stockTransfer_update_frozen,
      stockTransfer_complete_frozen, stockCheck_create_frozen,
      stockCheck_update_frozen, stockCheck_complete_frozen.
Qed.

Lemma runAll_frozen ops : forall db, frozen db (runAll ops db).
Proof.
  induction ops as [|op rest IH]; intros db; [apply frozen_refl|].
  cbn [runAll]. eapply frozen_trans; [apply run_frozen|apply IH].
Qed.

End Frozen.

(** C7.  Completed and cancelled are terminal.  Whatever sequence of
    create, update and complete calls is made on the four document kinds,
    every document that is completed or cancelled at the start is found at
    the end with the same status, the same other columns and the same
    lines.  On such a document, update is refused with DocumentNotEditable
    and complete with AlreadyCompleted or AlreadyCancelled, each leaving the
    database as it was. *)
Theorem terminal_documents_never_change (ops : list Op) (db : DB) :
  frozen db (runAll ops db) /\
  (forall id d, stockIns db !! id = Some d -> terminal (StockIn.status d) ->
     (forall data, exists e, updateStockIn id data db = (Err e, db)
                             /\ isDocumentNotEditable e = true) /\
     (exists e, completeStockIn id db = (Err e, db)
                /\ (e = AlreadyCompleted KStockIn \/ e = AlreadyCancelled KStockIn))) /\
  (forall id d, stockOuts db !! id = Some d -> terminal (StockOut.status d) ->
     (forall data, exists e, updateStockOut id data db = (Err e, db)
                             /\ isDocumentNotEditable e = true) /\
     (exists e, completeStockOut id db = (Err e, db)
                /\ (e = AlreadyCompleted KStockOut \/ e = AlreadyCancelled KStockOut))) /\
  (forall id d, stockTransfers db !! id = Some d -> terminal (StockTransfer.status d) ->
     (forall data, exists e, updateStockTransfer id data db = (Err e, db)
                             /\ isDocumentNotEditable e = true) /\
     (exists e, completeStockTransfer id db = (Err e, db)
                /\ (e = AlreadyCompleted KStockTransfer
                    \/ e = AlreadyCancelled KStockTransfer))) /\
  (forall id d, stockChecks db !! id = Some d -> terminal (StockCheck.status d) ->
     (forall data, exists e, updateStockCheck id data db = (Err e, db)
                             /\ isDocumentNotEditable e = true) /\
     (exists e, completeStockCheck id db = (Err e, db)
                /\ (e = AlreadyCompleted KStockCheck \/ e = AlreadyCancelled KStockCheck))).
Proof.
  split; [apply Frozen.runAll_frozen|].
  repeat apply conj; intros id d Hd Ht; (split; [intros data|]).
  - eapply Edits.stockIn_update_terminal; eassumption.
  - destruct Ht as [Ht|Ht]; eexists.
    + split; [eapply Completion.stockIn_completed; eassumption|now left].
    + split; [eapply Completion.stockIn_cancelled; eassumption|now right].
  - eapply Edits.stockOut_update_terminal; eassumption.
  - destruct Ht as [Ht|Ht]; eexists.
    + split; [eapply Completion.stockOut_completed; eassumption|now left].
    + split; [eapply Completion.stockOut_cancelled; eassumption|now right].
  - eapply Edits.stockTransfer_update_terminal; eassumption.
  - destruct Ht as [Ht|Ht]; eexists.
    + split; [eapply Completion.stockTransfer_completed; eassumption|now left].
    + split; [eapply Completion.stockTransfer_cancelled; eassumption|now right].
  - eapply Edits.stockCheck_update_terminal; eassumption.
  - destruct Ht as [Ht|Ht]; eexists.
    + split; [eapply Completion.stockCheck_completed; eassumption|now left].
    + split; [eapply Completion.stockCheck_cancelled; eassumption|now right].
Qed.

Lemma terminal_documents_never_change_witness :
  stockIns
    (runAll [UpdateStockIn "in2"
               (PartialStockInInput.mk None None None None None (Some []) (Some "x"));
             CompleteStockIn "in2";
             CompleteStockIn "in1";
             CreateStockIn shopStockIn "amy" shopEnv]
            shopExample) !! "in2"
  = Some (StockIn.mk "IN20240521002" "W1" "purchase" None None 0 "amy"
            "completed" None 2 [StockInItem.mk "P" 4 None None None]).
Proof.
  destruct (terminal_documents_never_change
              [UpdateStockIn "in2"
                 (PartialStockInInput.mk None None None None None (Some []) (Some "x"));
               CompleteStockIn "in2";
               CompleteStockIn "in1";
               CreateStockIn shopStockIn "amy" shopEnv]
              shopExample) as [(H & _) _].
  apply H; [vm_compute; reflexivity|left; reflexivity].
Defined.

Lemma complete_applies_effect_once_witness :
  exists db1,
    completeStockIn "in1" shopExample = (Ok tt, db1) /\
    inventory db1 !! ("W1", "P") = Some (Inventory.mk 20 20 0) /\
    completeStockIn "in1" db1 = (Err (AlreadyCompleted KStockIn), db1).
Proof.
  destruct (complete_applies_effect_once "in1" shopExample) as (_ & _ & _ & H & _).
  destruct (H (StockIn.mk "IN20240521001" "W1" "purchase" None None 0 "amy"
                 "draft" None 1 [StockInItem.mk "P" 10 None None None]))
    as (db1 & H1 & _ & H2 & H3); [vm_compute; reflexivity|reflexivity|].
  exists db1. split; [exact H1|]. split; [|exact H3].
  rewrite H2. vm_compute. reflexivity.
Defined.

(** ** Stock-in round trip *)

Module RoundTrip.




End RoundTrip.



(** ** The decrease loop *)

Module Shortage.
Import LedgerProps.



Section DecreaseLoop.
Context {I : Type} (productId : I -> string) (quantity : I -> Z) (w : string).

Let body (item : I) : Tx unit :=
  decreaseInventoryInTransaction w (productId item) (quantity item).

End DecreaseLoop.

End Shortage.



(** The non-negativity of the lines matters to the service: a line of
    [-10] followed by a line of [6] for the same product passes on a
    balance of 5. *)
Example negative_line_lifts_shortage :
  let db := mkDB ∅ ∅ {[ ("W", "P") := Inventory.mk 5 5 0 ]} ∅
              {[ "o" := StockOut.mk "OUT1" "W" "sales" None None 0 "amy" "draft" None 0
                          [StockOutItem.mk "P" (-10) None None None;
                           StockOutItem.mk "P" 6 None None None] ]} ∅ ∅ in
  exists db1, completeStockOut "o" db = (Ok tt, db1) /\
              inventory db1 !! ("W", "P") = Some (Inventory.mk 9 9 0).
Proof.
  eexists. split; vm_compute; reflexivity.
Qed.

(** ** Transfer of one line *)

Module Transfer.
Import LedgerProps.


End Transfer.



(** ** Stock-check reconciliation *)

Module Reconcile.
Import LedgerProps.









Lemma stored_difference items :
  Forall (fun item => StockCheckItem.difference item
                      = StockCheckItem.actualQuantity item
                        - StockCheckItem.bookQuantity item)
         (itemsWithDifference items).
Proof.
  unfold itemsWithDifference. apply Forall_map, Forall_forall. intros; reflexivity.
Qed.



End Reconcile.



(** ** Document numbering *)

Module Numbering.

Lemma append_assoc (a b c : string) : (a +:+ b) +:+ c = a +:+ (b +:+ c).
Proof. induction a as [|x a IH]; [reflexivity|]. exact (f_equal (String x) IH). Qed.

Lemma startsWith_append (p s : string) : startsWith p (p +:+ s) = true.
Proof.
  unfold startsWith. induction p as [|x p IH]; [now destruct s|].
  change (String.prefix (String x p) (String x (p +:+ s)) = true).
  cbn [String.prefix]. destruct (ascii_dec x x); [exact IH|congruence].
Qed.

Lemma length_append (a b : string) :
  String.length (a +:+ b) = (String.length a + String.length b)%nat.
Proof. induction a as [|x a IH]; [reflexivity|]. exact (f_equal S IH). Qed.

Lemma length_repeatChar c n : String.length (repeatChar c n) = n.
Proof. induction n as [|n IH]; [reflexivity|]. exact (f_equal S IH). Qed.

Lemma length_padStart n c s :
  String.length (padStart n c s) = Nat.max n (String.length s).
Proof. unfold padStart. rewrite length_append, length_repeatChar. lia. Qed.

(** Leading zeros do not change the number a numeral reads as. *)
Lemma seqOfString_zeros n s :
  seqOfString (repeatChar "0" n +:+ s) = seqOfString s.
Proof.
  unfold seqOfString. induction n as [|n IH]; [reflexivity|].
  change (repeatChar "0" (S n) +:+ s) with (String "0" (repeatChar "0" n +:+ s)).
  cbn [NilEmpty.uint_of_string]. rewrite <- IH.
  destruct (NilEmpty.uint_of_string (repeatChar "0" n +:+ s)) as [d|]; reflexivity.
Qed.

Lemma seqOfString_String_of_nat m : seqOfString (String_of_nat m) = Some m.
Proof.
  unfold seqOfString, String_of_nat. rewrite NilEmpty.usu. cbn.
  now rewrite DecimalNat.Unsigned.of_to.
Qed.

Lemma seqOfString_padStart n m :
  seqOfString (padStart n "0" (String_of_nat m)) = Some m.
Proof. unfold padStart. now rewrite seqOfString_zeros, seqOfString_String_of_nat. Qed.

Section Count.
Context {D : Type} (no : D -> string).

Lemma count_insert p (table : gmap string D) id doc :
  table !! id = None -> startsWith p (no doc) = true ->
  countStartsWith no p (<[id := doc]> table) = S (countStartsWith no p table).
Proof.
  intros Hid Hp. unfold countStartsWith.
  rewrite map_filter_insert_True by (cbn; now rewrite Hp).
  apply map_size_insert_None. apply map_lookup_filter_None. now left.
Qed.

Lemma generateNo_eq (table : gmap string D) prefix dateStr :
  generateNo no table prefix dateStr =
    prefix +:+ dateStr +:+
    padStart 3 "0" (String_of_nat (countStartsWith no (prefix +:+ dateStr) table + 1)).
Proof. reflexivity. Qed.

Lemma generateNo_startsWith (table : gmap string D) prefix dateStr :
  startsWith (prefix +:+ dateStr) (generateNo no table prefix dateStr) = true.
Proof. rewrite generateNo_eq, <- append_assoc. apply startsWith_append. Qed.

Lemma generateNo_after_insert (table : gmap string D) prefix dateStr id doc :
  table !! id = None -> startsWith (prefix +:+ dateStr) (no doc) = true ->
  generateNo no (<[id := doc]> table) prefix dateStr =
    prefix +:+ dateStr +:+
    padStart 3 "0" (String_of_nat (countStartsWith no (prefix +:+ dateStr) table + 2)).
Proof.
  intros Hid Hp. rewrite generateNo_eq, (count_insert _ _ _ _ Hid Hp).
  now replace (S (countStartsWith no (prefix +:+ dateStr) table) + 1)%nat
    with (countStartsWith no (prefix +:+ dateStr) table + 2)%nat by lia.
Qed.
End Count.

Lemma numbers_differ prefix dateStr n m :
  n <> m ->
  prefix +:+ dateStr +:+ padStart 3 "0" (String_of_nat n)
  <> prefix +:+ dateStr +:+ padStart 3 "0" (String_of_nat m).
Proof.
  intros Hne Heq. do 2 apply String.app_inj in Heq.
  apply (f_equal seqOfString) in Heq. rewrite !seqOfString_padStart in Heq.
  congruence.
Qed.

Lemma stockIn_create_inv data operator env db id doc db1 :
  createStockIn data operator env db = (Ok (id, doc), db1) ->
  id = newId env /\ doc = draftStockIn data operator env db /\
  stockIns db !! id = None /\
  db1 = with_stockIns (<[id := doc]> (stockIns db)) db.
Proof.
  unfold createStockIn.
  destruct (warehouses db !! _); [|discriminate].
  destruct (validateProducts _ _ _); [discriminate|].
  unfold transaction, stockIn_create. fold (draftStockIn data operator env db).
  destruct (insertRow _ _ _ _) as [table|] eqn:Hins; [|discriminate].
  apply Edits.insertRow_Some in Hins as [Hid ->]. now intros [= <- <- <-].
Qed.

End Numbering.

(** C8.  With [n] documents of the table whose number starts with
    [prefix ++ dateStr], each generator returns [prefix], [dateStr] and the
    decimal numeral of [n + 1] left-padded with zeros to at least three
    characters (exactly three below 1000), a suffix that reads back as
    [n + 1]; once a document bearing a number with that prefix has been
    inserted under a new id, the generator returns the numeral of [n + 2].
    Hence two stock-in creations that succeed one after the other on the
    same day get the suffixes [n + 1] and [n + 2], and distinct numbers. *)
Theorem generated_numbers_are_sequential (prefix today : string) (db : DB) :
  (let n := countStartsWith StockIn.inNo (prefix +:+ today) (stockIns db) in
   generateInNo prefix today db
   = prefix +:+ today +:+ padStart 3 "0" (String_of_nat (n + 1))) /\
  (let n := countStartsWith StockOut.outNo (prefix +:+ today) (stockOuts db) in
   generateOutNo prefix today db
   = prefix +:+ today +:+ padStart 3 "0" (String_of_nat (n + 1))) /\
  (let n := countStartsWith StockCheck.checkNo (prefix +:+ today) (stockChecks db) in
   generateCheckNo prefix today db
   = prefix +:+ today +:+ padStart 3 "0" (String_of_nat (n + 1))) /\
  (let n := countStartsWith StockTransfer.transferNo (prefix +:+ today)
              (stockTransfers db) in
   generateTransferNo prefix today db
   = prefix +:+ today +:+ padStart 3 "0" (String_of_nat (n + 1))) /\
  (forall m : nat,
      seqOfString (padStart 3 "0" (String_of_nat m)) = Some m /\
      (3 <= String.length (padStart 3 "0" (String_of_nat m)))%nat /\
      (String.length (String_of_nat m) <= 3 ->
       String.length (padStart 3 "0" (String_of_nat m)) = 3)%nat) /\
  (forall (D : Type) (no : D -> string) (table : gmap string D) id doc,
      table !! id = None ->
      startsWith (prefix +:+ today) (no doc) = true ->
      generateNo no (<[id := doc]> table) prefix today
      = prefix +:+ today +:+
        padStart 3 "0"
          (String_of_nat (countStartsWith no (prefix +:+ today) table + 2))) /\
  (forall data1 operator1 env1 id1 doc1 db1 data2 operator2 env2 id2 doc2 db2,
      createStockIn data1 operator1 env1 db = (Ok (id1, doc1), db1) ->
      createStockIn data2 operator2 env2 db1 = (Ok (id2, doc2), db2) ->
      dateStr env1 = today -> dateStr env2 = today ->
      let n := countStartsWith StockIn.inNo ("IN" +:+ today) (stockIns db) in
      StockIn.inNo doc1 = "IN" +:+ today +:+ padStart 3 "0" (String_of_nat (n + 1)) /\
      StockIn.inNo doc2 = "IN" +:+ today +:+ padStart 3 "0" (String_of_nat (n + 2)) /\
      (n + 1 < n + 2)%nat /\
      StockIn.inNo doc1 <> StockIn.inNo doc2).
Proof.
  repeat apply conj; try reflexivity.
  - intros m. split; [apply Numbering.seqOfString_padStart|].
    rewrite Numbering.length_padStart. split; lia.
  - intros D no table id doc. apply Numbering.generateNo_after_insert.
  - intros data1 operator1 env1 id1 doc1 db1 data2 operator2 env2 id2 doc2 db2
      H1 H2 He1 He2 n. subst today.
    apply Numbering.stockIn_create_inv in H1 as (-> & Hdoc1 & Hfresh & ->).
    apply Numbering.stockIn_create_inv in H2 as (_ & Hdoc2 & _ & _).
    assert (Hno1 : StockIn.inNo doc1
                   = "IN" +:+ dateStr env1 +:+ padStart 3 "0" (String_of_nat (n + 1)))
      by (rewrite Hdoc1; reflexivity).
    assert (Hno2 : StockIn.inNo doc2
                   = "IN" +:+ dateStr env1 +:+ padStart 3 "0" (String_of_nat (n + 2))).
    { rewrite Hdoc2. cbn [draftStockIn StockIn.inNo]. rewrite He2.
      unfold generateInNo. cbn [stockIns with_stockIns].
      apply Numbering.generateNo_after_insert; [exact Hfresh|].
      rewrite Hno1, <- Numbering.append_assoc. apply Numbering.startsWith_append. }
    split; [exact Hno1|]. split; [exact Hno2|]. split; [lia|].
    rewrite Hno1, Hno2. apply Numbering.numbers_differ. lia.
Qed.

Lemma generated_numbers_are_sequential_witness :
  exists doc1 db1 doc2 db2,
    createStockIn shopStockIn "amy" shopEnv shopExample = (Ok ("in3", doc1), db1) /\
    createStockIn shopStockIn "amy" (mkEnv "in4" 7 "20240521") db1
    = (Ok ("in4", doc2), db2) /\
    StockIn.inNo doc1 = "IN20240521003" /\ StockIn.inNo doc2 = "IN20240521004" /\
    StockIn.inNo doc1 <> StockIn.inNo doc2.
Proof.
  destruct (generated_numbers_are_sequential "IN" "20240521" shopExample)
    as (_ & _ & _ & _ & _ & _ & H).
  pose (r1 := createStockIn shopStockIn "amy" shopEnv shopExample).
  pose (r2 := createStockIn shopStockIn "amy" (mkEnv "in4" 7 "20240521") r1.2).
  assert (H1 : createStockIn shopStockIn "amy" shopEnv shopExample
               = (Ok ("in3", draftStockIn shopStockIn "amy" shopEnv shopExample), r1.2))
    by (vm_compute; reflexivity).
  assert (H2 : createStockIn shopStockIn "amy" (mkEnv "in4" 7 "20240521") r1.2
               = (Ok ("in4", draftStockIn shopStockIn "amy"
                               (mkEnv "in4" 7 "20240521") r1.2), r2.2))
    by (vm_compute; reflexivity).
  destruct (H _ _ _ _ _ _ _ _ _ _ _ _ H1 H2 eq_refl eq_refl) as (Hn1 & Hn2 & _ & Hne).
  eexists _, _, _, _. split; [exact H1|]. split; [exact H2|].
  split; [refine (eq_trans Hn1 _); vm_compute; reflexivity|].
  split; [refine (eq_trans Hn2 _); vm_compute; reflexivity|exact Hne].
Defined.

(** ** The stock-check list *)

Module Listing.

(** Rows loaded without their lines are summarised with zero counts. *)
Lemma summarize_without_items db kv summary :
  summarize (loadRow (mkInclude true false) db kv) = Ok summary ->
  StockCheckSummary.id summary = kv.1 /\
  StockCheckSummary.totalItems summary = 0%nat /\
  StockCheckSummary.differenceItems summary = 0%nat.
Proof.
  unfold summarize, loadRow. cbn.
  destruct (warehouses db !! StockCheck.warehouseId kv.2); [|discriminate].
  intros [= <-]. now cbn.
Qed.

Lemma summarize_total db kv :
  is_Some (warehouses db !! StockCheck.warehouseId kv.2) ->
  exists summary, summarize (loadRow (mkInclude true false) db kv) = Ok summary.
Proof.
  intros [wh Hwh]. unfold summarize, loadRow. cbn. rewrite Hwh. now eexists.
Qed.

Lemma mapResult_Forall2 {A B} (f : A -> result B) l ys :
  mapResult f l = Ok ys -> Forall2 (fun x y => f x = Ok y) l ys.
Proof.
  revert ys. induction l as [|x l IH]; intros ys; cbn.
  - intros [= <-]. constructor.
  - destruct (f x) as [y|e] eqn:Hx; [|discriminate].
    destruct (mapResult f l) as [ys'|e]; [|discriminate].
    intros [= <-]. constructor; [exact Hx|now apply IH].
Qed.

Lemma mapResult_total {A B} (f : A -> result B) l :
  Forall (fun x => exists y, f x = Ok y) l -> exists ys, mapResult f l = Ok ys.
Proof.
  induction 1 as [|x l [y Hy] _ [ys Hys]]; cbn; [now eexists|].
  rewrite Hy, Hys. now eexists.
Qed.

(** The page is made of rows of the table. *)
Lemma page_rows skip take db kv :
  kv ∈ firstn take (skipn skip (merge_sort createdAtDesc (map_to_list (stockChecks db)))) ->
  stockChecks db !! kv.1 = Some kv.2.
Proof.
  intros H. apply subseteq_take, subseteq_drop in H.
  rewrite merge_sort_Permutation in H. now apply elem_of_map_to_list' in H.
Qed.

End Listing.

(** C10.  Whatever the page and the stored documents, every record that
    [getStockChecks] returns has [totalItems = 0] and [differenceItems = 0]:
    the rows it summarises are loaded with the warehouse relation only, so
    their lines are undefined.  When every stored check refers to an
    existing warehouse the call does return, with one record per row of the
    requested page, in the page's order. *)
Theorem list_reports_zero_items (page pageSize : option nat) (db : DB) :
  (forall result,
      getStockChecks page pageSize db = Ok result ->
      Forall (fun record => StockCheckSummary.totalItems record = 0%nat
                            /\ StockCheckSummary.differenceItems record = 0%nat)
             (StockCheckPage.records result)) /\
  (map_Forall (fun _ d => is_Some (warehouses db !! StockCheck.warehouseId d))
              (stockChecks db) ->
   exists result,
     getStockChecks page pageSize db = Ok result /\
     map StockCheckSummary.id (StockCheckPage.records result)
     = map fst (firstn (default 10%nat pageSize)
                  (skipn ((default 1%nat page - 1) * default 10%nat pageSize)
                     (merge_sort createdAtDesc (map_to_list (stockChecks db)))))).
Proof.
  unfold getStockChecks, stockCheck_findMany.
  set (rows := firstn _ (skipn _ _)).
  assert (Hinv : forall ys,
             mapResult summarize (map (loadRow (mkInclude true false) db) rows) = Ok ys ->
             Forall2 (fun kv y => StockCheckSummary.id y = kv.1
                                  /\ StockCheckSummary.totalItems y = 0%nat
                                  /\ StockCheckSummary.differenceItems y = 0%nat)
                     rows ys).
  { intros ys H. apply Listing.mapResult_Forall2 in H.
    apply Forall2_fmap_l in H. eapply Forall2_impl; [exact H|].
    intros kv y. apply Listing.summarize_without_items. }
  split.
  - intros result.
    destruct (mapResult summarize _) as [ys|e] eqn:Hys; [|discriminate].
    intros [= <-]. cbn. specialize (Hinv ys eq_refl). clear Hys. clearbody rows.
    induction Hinv as [|kv y l l' (_ & H1 & H2) _ IH]; constructor; auto.
  - intros Hfk.
    destruct (Listing.mapResult_total summarize
                (map (loadRow (mkInclude true false) db) rows)) as [ys Hys].
    { apply Forall_map, Forall_forall. intros kv Hin.
      apply Listing.summarize_total.
      unfold rows in Hin. apply Listing.page_rows in Hin. exact (Hfk _ _ Hin). }
    rewrite Hys. eexists. split; [reflexivity|]. cbn.
    specialize (Hinv ys Hys). clear Hys. clearbody rows.
    induction Hinv as [|kv y l l' (H0 & _) _ IH]; cbn; [reflexivity|].
    now rewrite H0, IH.
Qed.

Lemma list_reports_zero_items_witness :
  exists result,
    getStockChecks None None shopExample = Ok result /\
    map StockCheckSummary.id (StockCheckPage.records result) = ["ck1"] /\
    map StockCheckSummary.totalItems (StockCheckPage.records result) = [0%nat] /\
    (exists lines, getStockCheckItems "ck1" shopExample = Ok lines
                   /\ length lines = 2%nat).
Proof.
  destruct (list_reports_zero_items None None shopExample) as [_ H].
  destruct H as (result & Hrun & Hids).
  - compute_done.
  - exists result. split; [exact Hrun|].
    assert (Hres : Ok result = getStockChecks None None shopExample) by (now symmetry).
    split; [refine (eq_trans Hids _); vm_compute; reflexivity|].
    split; [|eexists; split; vm_compute; reflexivity].
    assert (Hr : result = match getStockChecks None None shopExample with
                          | Ok r => r
                          | Err _ => result
                          end) by (now rewrite <- Hres).
    rewrite Hr. vm_compute. reflexivity.
Defined.

(** * Further properties *)

(** ** What each call leaves, by its outcome *)

Module Effects.
Import Completion Completed Edits.

(** *** Create *)

Lemma stockIn_create data operator env db :
  match createStockIn data operator env db with
  | (Ok (id, doc), db') =>
      id = newId env /\ doc = draftStockIn data operator env db /\
      stockIns db !! id = None /\
      db' = with_stockIns (<[id := doc]> (stockIns db)) db
  | (Err _, db') => db' = db
  end.
Proof.
  unfold createStockIn.
  destruct (warehouses db !! _); [|reflexivity].
  destruct (validateProducts _ _ _); [reflexivity|].
  unfold transaction, stockIn_create. fold (draftStockIn data operator env db).
  destruct (insertRow _ _ _ _) as [table|] eqn:Hins; [|reflexivity].
  apply insertRow_Some in Hins as [Hid ->]. repeat split. exact Hid.
Qed.

Lemma stockOut_create data operator env db :
  match createStockOut data operator env db with
  | (Ok (id, doc), db') =>
      id = newId env /\ doc = draftStockOut data operator env db /\
      stockOuts db !! id = None /\
      db' = with_stockOuts (<[id := doc]> (stockOuts db)) db
  | (Err _, db') => db' = db
  end.
Proof.
  unfold createStockOut.
  destruct (warehouses db !! _); [|reflexivity].
  destruct (validateProducts _ _ _); [reflexivity|].
  unfold transaction, stockOut_create. fold (draftStockOut data operator env db).
  destruct (insertRow _ _ _ _) as [table|] eqn:Hins; [|reflexivity].
  apply insertRow_Some in Hins as [Hid ->]. repeat split. exact Hid.
Qed.

Lemma stockTransfer_create data operator env db :
  match createStockTransfer data operator env db with
  | (Ok (id, doc), db') =>
      id = newId env /\ doc = draftStockTransfer data operator env db /\
      CreateStockTransferInput.fromWarehouseId data
        <> CreateStockTransferInput.toWarehouseId data /\
      stockTransfers db !! id = None /\
      db' = with_stockTransfers (<[id := doc]> (stockTransfers db)) db
  | (Err _, db') => db' = db
  end.
Proof.
  unfold createStockTransfer.
  destruct (warehouses db !! _); [|reflexivity].
  destruct (warehouses db !! _); [|reflexivity].
  destruct (String.eqb_spec (CreateStockTransferInput.fromWarehouseId data)
              (CreateStockTransferInput.toWarehouseId data)) as [|Hne]; [reflexivity|].
  destruct (validateProducts _ _ _); [reflexivity|].
  unfold transaction, stockTransfer_create.
  fold (draftStockTransfer data operator env db).
  destruct (insertRow _ _ _ _) as [table|] eqn:Hins; [|reflexivity].
  apply insertRow_Some in Hins as [Hid ->]. repeat split; assumption.
Qed.

Lemma stockCheck_create data env db :
  match createStockCheck data env db with
  | (Ok (id, doc), db') =>
      id = newId env /\ doc = draftStockCheck data env db /\
      stockChecks db !! id = None /\
      db' = with_stockChecks (<[id := doc]> (stockChecks db)) db
  | (Err _, db') => db' = db
  end.
Proof.
  unfold createStockCheck.
  destruct (warehouses db !! _); [|reflexivity].
  destruct (validateProducts _ _ _); [reflexivity|].
  unfold transaction, stockCheck_create. fold (draftStockCheck data env db).
  destruct (insertRow _ _ _ _) as [table|] eqn:Hins; [|reflexivity].
  apply insertRow_Some in Hins as [Hid ->]. repeat split. exact Hid.
Qed.

(** *** Update *)

Lemma stockIn_update id data db :
  match updateStockIn id data db with
  | (Ok doc, db') =>
      exists d, stockIns db !! id = Some d /\ ~ terminal (StockIn.status d) /\
                doc = stockIn_patch data (stockIn_base data d) /\
                db' = with_stockIns (<[id := doc]> (stockIns db)) db
  | (Err _, db') => db' = db
  end.
Proof.
  destruct (stockIns db !! id) as [d|] eqn:Hd;
    [|unfold updateStockIn; now rewrite Hd].
  destruct (terminal_dec (StockIn.status d)) as [Ht|Ht].
  { now destruct (stockIn_update_terminal id data db d Hd Ht) as (e & -> & _). }
  destruct (validateOptWarehouse (PartialStockInInput.warehouseId data) db) eqn:Hw;
    [|destruct (validateOptProducts StockInItem.productId
                  (PartialStockInInput.items data) db) eqn:Hp].
  - apply not_terminal_eqb in Ht as [H1 H2].
    unfold updateStockIn. now rewrite Hd, H1, H2, Hw.
  - apply not_terminal_eqb in Ht as [H1 H2].
    unfold updateStockIn. now rewrite Hd, H1, H2, Hw, Hp.
  - rewrite (stockIn_update_accepted id data db d Hd Ht Hw Hp).
    exists d. repeat split; assumption.
Qed.

Lemma stockOut_update id data db :
  match updateStockOut id data db with
  | (Ok doc, db') =>
      exists d, stockOuts db !! id = Some d /\ ~ terminal (StockOut.status d) /\
                doc = stockOut_patch data (stockOut_base data d) /\
                db' = with_stockOuts (<[id := doc]> (stockOuts db)) db
  | (Err _, db') => db' = db
  end.
Proof.
  destruct (stockOuts db !! id) as [d|] eqn:Hd;
    [|unfold updateStockOut; now rewrite Hd].
  destruct (terminal_dec (StockOut.status d)) as [Ht|Ht].
  { now destruct (stockOut_update_terminal id data db d Hd Ht) as (e & -> & _). }
  destruct (validateOptWarehouse (PartialStockOutInput.warehouseId data) db) eqn:Hw;
    [|destruct (validateOptProducts StockOutItem.productId
                  (PartialStockOutInput.items data) db) eqn:Hp].
  - apply not_terminal_eqb in Ht as [H1 H2].
    unfold updateStockOut. now rewrite Hd, H1, H2, Hw.
  - apply not_terminal_eqb in Ht as [H1 H2].
    unfold updateStockOut. now rewrite Hd, H1, H2, Hw, Hp.
  - rewrite (stockOut_update_accepted id data db d Hd Ht Hw Hp).
    exists d. repeat split; assumption.
Qed.

Lemma stockTransfer_update id data db :
  match updateStockTransfer id data db with
  | (Ok doc, db') =>
      exists d, stockTransfers db !! id = Some d /\
                ~ terminal (StockTransfer.status d) /\
                validateTransferWarehouses data d db = None /\
                doc = stockTransfer_patch data (stockTransfer_base data d) /\
                db' = with_stockTransfers (<[id := doc]> (stockTransfers db)) db
  | (Err _, db') => db' = db
  end.
Proof.
  destruct (stockTransfers db !! id) as [d|] eqn:Hd;
    [|unfold updateStockTransfer; now rewrite Hd].
  destruct (terminal_dec (StockTransfer.status d)) as [Ht|Ht].
  { now destruct (stockTransfer_update_terminal id data db d Hd Ht) as (e & -> & _). }
  destruct (validateTransferWarehouses data d db) eqn:Hw;
    [|destruct (validateOptProducts StockTransferItem.productId
                  (PartialStockTransferInput.items data) db) eqn:Hp].
  - apply not_terminal_eqb in Ht as [H1 H2].
    unfold updateStockTransfer. now rewrite Hd, H1, H2, Hw.
  - apply not_terminal_eqb in Ht as [H1 H2].
    unfold updateStockTransfer. now rewrite Hd, H1, H2, Hw, Hp.
  - rewrite (stockTransfer_update_accepted id data db d Hd Ht Hw Hp).
    exists d. repeat split; assumption.
Qed.

Lemma stockCheck_update id data db :
  match updateStockCheck id data db with
  | (Ok doc, db') =>
      exists d, stockChecks db !! id = Some d /\ ~ terminal (StockCheck.status d) /\
                doc = stockCheck_patch data (stockCheck_base data d) /\
                db' = with_stockChecks (<[id := doc]> (stockChecks db)) db
  | (Err _, db') => db' = db
  end.
Proof.
  destruct (stockChecks db !! id) as [d|] eqn:Hd;
    [|unfold updateStockCheck; now rewrite Hd].
  destruct (terminal_dec (StockCheck.status d)) as [Ht|Ht].
  { now destruct (stockCheck_update_terminal id data db d Hd Ht) as (e & -> & _). }
  destruct (validateOptWarehouse (PartialStockCheckInput.warehouseId data) db) eqn:Hw;
    [|destruct (validateOptProducts StockCheckItemInput.productId
                  (PartialStockCheckInput.items data) db) eqn:Hp].
  - apply not_terminal_eqb in Ht as [H1 H2].
    unfold updateStockCheck. now rewrite Hd, H1, H2, Hw.
  - apply not_terminal_eqb in Ht as [H1 H2].
    unfold updateStockCheck. now rewrite Hd, H1, H2, Hw, Hp.
  - rewrite (stockCheck_update_accepted id data db d Hd Ht Hw Hp).
    exists d. repeat split; assumption.
Qed.

(** *** Complete *)

Lemma stockIn_complete id db :
  match completeStockIn id db with
  | (Ok _, db') =>
      exists d, stockIns db !! id = Some d /\ ~ terminal (StockIn.status d) /\
                stockInEffect d (stockInMarked id d db) = Ok (tt, db') /\
                db' = with_inventory (inventory db') (stockInMarked id d db)
  | (Err _, db') => db' = db
  end.
Proof.
  destruct (completeStockIn id db) as [[[]|e] db'] eqn:H.
  - now apply stockIn_inv.
  - now apply stockIn_err in H.
Qed.

Lemma stockOut_complete id db :
  match completeStockOut id db with
  | (Ok _, db') =>
      exists d, stockOuts db !! id = Some d /\ ~ terminal (StockOut.status d) /\
                stockOutEffect d (stockOutMarked id d db) = Ok (tt, db') /\
                db' = with_inventory (inventory db') (stockOutMarked id d db)
  | (Err _, db') => db' = db
  end.
Proof.
  destruct (completeStockOut id db) as [[[]|e] db'] eqn:H.
  - now apply stockOut_inv.
  - now apply stockOut_err in H.
Qed.

Lemma stockTransfer_complete id db :
  match completeStockTransfer id db with
  | (Ok _, db') =>
      exists d, stockTransfers db !! id = Some d /\
                ~ terminal (StockTransfer.status d) /\
                stockTransferEffect d (stockTransferMarked id d db) = Ok (tt, db') /\
                db' = with_inventory (inventory db') (stockTransferMarked id d db)
  | (Err _, db') => db' = db
  end.
Proof.
  destruct (completeStockTransfer id db) as [[[]|e] db'] eqn:H.
  - now apply stockTransfer_inv.
  - now apply stockTransfer_err in H.
Qed.

Lemma stockCheck_complete id db :
  match completeStockCheck id db with
  | (Ok _, db') =>
      exists d, stockChecks db !! id = Some d /\ ~ terminal (StockCheck.status d) /\
                stockCheckEffect d (stockCheckMarked id d db) = Ok (tt, db') /\
                db' = with_inventory (inventory db') (stockCheckMarked id d db)
  | (Err _, db') => db' = db
  end.
Proof.
  destruct (completeStockCheck id db) as [[[]|e] db'] eqn:H.
  - now apply stockCheck_inv.
  - now apply stockCheck_err in H.
Qed.

End Effects.

(** ** Failure is clean *)

(** X1.  A create, update or complete call that raises an error, on any of
    the four documents, leaves the database exactly as it found it. *)
Theorem failed_call_changes_nothing (op : Op) (db : DB) (e : Error) (db' : DB) :
  run op db = (Some e, db') -> db' = db.
Proof.
  destruct op; cbn [run].
  - pose proof (Effects.stockIn_create data operator env db) as H.
    destruct (createStockIn data operator env db) as [[[id doc]|e'] d]; cbn; congruence.
  - pose proof (Effects.stockIn_update id data db) as H.
    destruct (updateStockIn id data db) as [[doc|e'] d]; cbn; congruence.
  - pose proof (Effects.stockIn_complete id db) as H.
    destruct (completeStockIn id db) as [[u|e'] d]; cbn; congruence.
  - pose proof (Effects.stockOut_create data operator env db) as H.
    destruct (createStockOut data operator env db) as [[[id doc]|e'] d]; cbn; congruence.
  - pose proof (Effects.stockOut_update id data db) as H.
    destruct (updateStockOut id data db) as [[doc|e'] d]; cbn; congruence.
  - pose proof (Effects.stockOut_complete id db) as H.
    destruct (completeStockOut id db) as [[u|e'] d]; cbn; congruence.
  - pose proof (Effects.stockTransfer_create data operator env db) as H.
    destruct (createStockTransfer data operator env db) as [[[id doc]|e'] d];
      cbn; congruence.
  - pose proof (Effects.stockTransfer_update id data db) as H.
    destruct (updateStockTransfer id data db) as [[doc|e'] d]; cbn; congruence.
  - pose proof (Effects.stockTransfer_complete id db) as H.
    destruct (completeStockTransfer id db) as [[u|e'] d]; cbn; congruence.
  - pose proof (Effects.stockCheck_create data env db) as H.
    destruct (createStockCheck data env db) as [[[id doc]|e'] d]; cbn; congruence.
  - pose proof (Effects.stockCheck_update id data db) as H.
    destruct (updateStockCheck id data db) as [[doc|e'] d]; cbn; congruence.
  - pose proof (Effects.stockCheck_complete id db) as H.
    destruct (completeStockCheck id db) as [[u|e'] d]; cbn; congruence.
Qed.

Lemma failed_call_changes_nothing_witness :
  (run (CompleteStockOut "out1") shopExample).2 = shopExample.
Proof.
  apply (failed_call_changes_nothing (CompleteStockOut "out1") shopExample
           InventoryInsufficient).
  vm_compute. reflexivity.
Defined.

(** ** Properties of the stored documents that every call keeps *)

Module Kept.

Section Family.
Context (P : DocPreds) (HP : DocPredsKept P).

Lemma run_keeps op db : docsSatisfy P db -> docsSatisfy P (run op db).2.
Proof.
  intros (HIn & HOut & HTr & HCk). destruct op; cbn [run]; rewrite Frozen.outcome_snd.
  - pose proof (Effects.stockIn_create data operator env db) as H.
    destruct (createStockIn data operator env db) as [[[id doc]|e'] d]; cbn [snd].
    + destruct H as (-> & -> & _ & ->). repeat split; cbn; try assumption.
      apply map_Forall_insert_2; [apply (keptDraftIn P HP)|exact HIn].
    + subst d. now repeat split.
  - pose proof (Effects.stockIn_update id data db) as H.
    destruct (updateStockIn id data db) as [[doc|e'] d]; cbn [snd].
    + destruct H as (d0 & Hd & _ & -> & ->). repeat split; cbn; try assumption.
      apply map_Forall_insert_2; [|exact HIn].
      apply (keptPatchIn P HP). exact (HIn _ _ Hd).
    + subst d. now repeat split.
  - pose proof (Effects.stockIn_complete id db) as H.
    destruct (completeStockIn id db) as [[u|e'] d]; cbn [snd].
    + destruct H as (d0 & Hd & _ & _ & ->). repeat split; cbn; try assumption.
      apply map_Forall_insert_2; [|exact HIn].
      apply (keptDoneIn P HP). exact (HIn _ _ Hd).
    + subst d. now repeat split.
  - pose proof (Effects.stockOut_create data operator env db) as H.
    destruct (createStockOut data operator env db) as [[[id doc]|e'] d]; cbn [snd].
    + destruct H as (-> & -> & _ & ->). repeat split; cbn; try assumption.
      apply map_Forall_insert_2; [apply (keptDraftOut P HP)|exact HOut].
    + subst d. now repeat split.
  - pose proof (Effects.stockOut_update id data db) as H.
    destruct (updateStockOut id data db) as [[doc|e'] d]; cbn [snd].
    + destruct H as (d0 & Hd & _ & -> & ->). repeat split; cbn; try assumption.
      apply map_Forall_insert_2; [|exact HOut].
      apply (keptPatchOut P HP). exact (HOut _ _ Hd).
    + subst d. now repeat split.
  - pose proof (Effects.stockOut_complete id db) as H.
    destruct (completeStockOut id db) as [[u|e'] d]; cbn [snd].
    + destruct H as (d0 & Hd & _ & _ & ->). repeat split; cbn; try assumption.
      apply map_Forall_insert_2; [|exact HOut].
      apply (keptDoneOut P HP). exact (HOut _ _ Hd).
    + subst d. now repeat split.
  - pose proof (Effects.stockTransfer_create data operator env db) as H.
    destruct (createStockTransfer data operator env db) as [[[id doc]|e'] d];
      cbn [snd].
    + destruct H as (-> & -> & Hne & _ & ->). repeat split; cbn; try assumption.
      apply map_Forall_insert_2; [now apply (keptDraftTransfer P HP)|exact HTr].
    + subst d. now repeat split.
  - pose proof (Effects.stockTransfer_update id data db) as H.
    destruct (updateStockTransfer id data db) as [[doc|e'] d]; cbn [snd].
    + destruct H as (d0 & Hd & _ & Hv & -> & ->). repeat split; cbn; try assumption.
      apply map_Forall_insert_2; [|exact HTr].
      eapply (keptPatchTransfer P HP); [exact (HTr _ _ Hd)|exact Hv].
    + subst d. now repeat split.
  - pose proof (Effects.stockTransfer_complete id db) as H.
    destruct (completeStockTransfer id db) as [[u|e'] d]; cbn [snd].
    + destruct H as (d0 & Hd & _ & _ & ->). repeat split; cbn; try assumption.
      apply map_Forall_insert_2; [|exact HTr].
      apply (keptDoneTransfer P HP). exact (HTr _ _ Hd).
    + subst d. now repeat split.
  - pose proof (Effects.stockCheck_create data env db) as H.
    destruct (createStockCheck data env db) as [[[id doc]|e'] d]; cbn [snd].
    + destruct H as (-> & -> & _ & ->). repeat split; cbn; try assumption.
      apply map_Forall_insert_2; [apply (keptDraftCheck P HP)|exact HCk].
    + subst d. now repeat split.
  - pose proof (Effects.stockCheck_update id data db) as H.
    destruct (updateStockCheck id data db) as [[doc|e'] d]; cbn [snd].
    + destruct H as (d0 & Hd & _ & -> & ->). repeat split; cbn; try assumption.
      apply map_Forall_insert_2; [|exact HCk].
      apply (keptPatchCheck P HP). exact (HCk _ _ Hd).
    + subst d. now repeat split.
  - pose proof (Effects.stockCheck_complete id db) as H.
    destruct (completeStockCheck id db) as [[u|e'] d]; cbn [snd].
    + destruct H as (d0 & Hd & _ & _ & ->). repeat split; cbn; try assumption.
      apply map_Forall_insert_2; [|exact HCk].
      apply (keptDoneCheck P HP). exact (HCk _ _ Hd).
    + subst d. now repeat split.
Qed.

Lemma runAll_keeps ops : forall db, docsSatisfy P db -> docsSatisfy P (runAll ops db).
Proof.
  induction ops as [|op rest IH]; intros db H; [exact H|].
  cbn [runAll]. apply IH, run_keeps, H.
Qed.
End Family.

End Kept.

Module KeptInstances.

Lemma statusesWritten_kept : DocPredsKept statusesWritten.
Proof.
  split; cbn; intros; try (now left); try (now right).
  - unfold stockIn_base. now destruct (PartialStockInInput.items data).
  - unfold stockOut_base. now destruct (PartialStockOutInput.items data).
  - unfold stockTransfer_base. now destruct (PartialStockTransferInput.items data).
  - unfold stockCheck_base. now destruct (PartialStockCheckInput.items data).
Qed.

Lemma validated_transfer_joins_two data d db :
  StockTransfer.fromWarehouseId d <> StockTransfer.toWarehouseId d ->
  validateTransferWarehouses data d db = None ->
  default (StockTransfer.fromWarehouseId d)
          (truthy (PartialStockTransferInput.fromWarehouseId data))
  <> default (StockTransfer.toWarehouseId d)
             (truthy (PartialStockTransferInput.toWarehouseId data)).
Proof.
  intros Hd. unfold validateTransferWarehouses.
  destruct (truthy (PartialStockTransferInput.fromWarehouseId data)) as [f|];
    destruct (truthy (PartialStockTransferInput.toWarehouseId data)) as [t|]; cbn;
    repeat (match goal with
            | |- context [warehouses db !! ?w] => destruct (warehouses db !! w)
            end; cbn);
    try discriminate;
    repeat match goal with
           | |- context [String.eqb ?a ?b] => destruct (String.eqb_spec a b)
           end; try discriminate; auto.
Qed.

Lemma transfersJoinTwo_kept : DocPredsKept transfersJoinTwo.
Proof.
  split; cbn; intros; try exact I; try assumption.
  unfold stockTransfer_base.
  destruct (PartialStockTransferInput.items data); cbn;
    eapply validated_transfer_joins_two; eassumption.
Qed.

Lemma differencesStored_kept : DocPredsKept differencesStored.
Proof.
  split; cbn; intros; try exact I; try assumption.
  - apply Reconcile.stored_difference.
  - unfold stockCheck_base.
    destruct (PartialStockCheckInput.items data); cbn.
    + apply Reconcile.stored_difference.
    + assumption.
Qed.

Lemma freshShop_satisfies P : docsSatisfy P freshShop.
Proof. repeat split; apply map_Forall_empty. Qed.

End KeptInstances.

(** X2.  If every stored document has status draft or completed, then so
    has every stored document after any sequence of create, update and
    complete calls: no call writes another status, cancelled included. *)
Theorem no_call_writes_another_status (ops : list Op) (db : DB) :
  docsSatisfy statusesWritten db -> docsSatisfy statusesWritten (runAll ops db).
Proof. apply Kept.runAll_keeps, KeptInstances.statusesWritten_kept. Qed.

Lemma no_call_writes_another_status_witness :
  docsSatisfy statusesWritten (runAll shopSession freshShop) /\
  (StockTransfer.status <$> stockTransfers (runAll shopSession freshShop) !! "t1")
  = Some "completed".
Proof.
  split; [|vm_compute; reflexivity].
  apply (no_call_writes_another_status shopSession freshShop).
  apply KeptInstances.freshShop_satisfies.
Defined.

(** X3.  If every stored transfer joins two different warehouses, then so
    does every stored transfer after any sequence of calls: creation
    refuses equal warehouses and update checks the pair it will leave. *)
Theorem transfers_always_join_two_warehouses (ops : list Op) (db : DB) :
  docsSatisfy transfersJoinTwo db -> docsSatisfy transfersJoinTwo (runAll ops db).
Proof. apply Kept.runAll_keeps, KeptInstances.transfersJoinTwo_kept. Qed.

Lemma transfers_always_join_two_warehouses_witness :
  docsSatisfy transfersJoinTwo (runAll shopSession freshShop) /\
  ((fun d => (StockTransfer.fromWarehouseId d, StockTransfer.toWarehouseId d))
     <$> stockTransfers (runAll shopSession freshShop) !! "t1")
  = Some ("W1", "W2").
Proof.
  split; [|vm_compute; reflexivity].
  apply (transfers_always_join_two_warehouses shopSession freshShop).
  apply KeptInstances.freshShop_satisfies.
Defined.

(** X4.  If every stored stock-check line has
    [difference = actualQuantity - bookQuantity], then so has every stored
    line after any sequence of calls: the difference is never taken from
    the caller and never edited apart from its line. *)
Theorem stored_differences_stay_derived (ops : list Op) (db : DB) :
  docsSatisfy differencesStored db -> docsSatisfy differencesStored (runAll ops db).
Proof. apply Kept.runAll_keeps, KeptInstances.differencesStored_kept. Qed.

Lemma stored_differences_stay_derived_witness :
  docsSatisfy differencesStored (runAll shopSession freshShop) /\
  (StockCheck.items <$> stockChecks (runAll shopSession freshShop) !! "c1")
  = Some [StockCheckItem.mk "Q" 5 7 2 None None].
Proof.
  split; [|vm_compute; reflexivity].
  apply (stored_differences_stay_derived shopSession freshShop).
  apply KeptInstances.freshShop_satisfies.
Defined.

(** ** Documents stay, with the columns that identify them *)

Module Persist.

Lemma persists_refl db : persists db db.
Proof. repeat split; intros id d Hd; exists d; auto. Qed.

Lemma persists_trans db1 db2 db3 : persists db1 db2 -> persists db2 db3 -> persists db1 db3.
Proof.
  intros (A1 & A2 & A3 & A4) (B1 & B2 & B3 & B4). repeat split; intros id d Hd.
  - destruct (A1 _ _ Hd) as (d' & Hd' & E1 & E2 & E3).
    destruct (B1 _ _ Hd') as (d'' & Hd'' & F1 & F2 & F3).
    exists d''. repeat split; congruence.
  - destruct (A2 _ _ Hd) as (d' & Hd' & E1 & E2 & E3).
    destruct (B2 _ _ Hd') as (d'' & Hd'' & F1 & F2 & F3).
    exists d''. repeat split; congruence.
  - destruct (A3 _ _ Hd) as (d' & Hd' & E1 & E2 & E3).
    destruct (B3 _ _ Hd') as (d'' & Hd'' & F1 & F2 & F3).
    exists d''. repeat split; congruence.
  - destruct (A4 _ _ Hd) as (d' & Hd' & E1 & E2).
    destruct (B4 _ _ Hd') as (d'' & Hd'' & F1 & F2).
    exists d''. repeat split; congruence.
Qed.

(** Writing row [id] with a document that agrees with the one it replaces,
    if any, on the identifying columns. *)
Lemma write_stockIn id doc inv db :
  from_option (fun d => StockIn.inNo doc = StockIn.inNo d
                        /\ StockIn.operator doc = StockIn.operator d
                        /\ StockIn.createdAt doc = StockIn.createdAt d)
              True (stockIns db !! id) ->
  persists db (with_inventory inv (with_stockIns (<[id := doc]> (stockIns db)) db)).
Proof.
  intros H. repeat split; cbn; intros id' d Hd; try (exists d; now auto).
  destruct (decide (id' = id)) as [->|Hne].
  - rewrite Hd in H. cbn in H. exists doc. rewrite lookup_insert_eq. tauto.
  - exists d. rewrite lookup_insert_ne by congruence. auto.
Qed.

Lemma write_stockOut id doc inv db :
  from_option (fun d => StockOut.outNo doc = StockOut.outNo d
                        /\ StockOut.operator doc = StockOut.operator d
                        /\ StockOut.createdAt doc = StockOut.createdAt d)
              True (stockOuts db !! id) ->
  persists db (with_inventory inv (with_stockOuts (<[id := doc]> (stockOuts db)) db)).
Proof.
  intros H. repeat split; cbn; intros id' d Hd; try (exists d; now auto).
  destruct (decide (id' = id)) as [->|Hne].
  - rewrite Hd in H. cbn in H. exists doc. rewrite lookup_insert_eq. tauto.
  - exists d. rewrite lookup_insert_ne by congruence. auto.
Qed.

Lemma write_stockTransfer id doc inv db :
  from_option (fun d => StockTransfer.transferNo doc = StockTransfer.transferNo d
                        /\ StockTransfer.operator doc = StockTransfer.operator d
                        /\ StockTransfer.createdAt doc = StockTransfer.createdAt d)
              True (stockTransfers db !! id) ->
  persists db (with_inventory inv
                 (with_stockTransfers (<[id := doc]> (stockTransfers db)) db)).
Proof.
  intros H. repeat split; cbn; intros id' d Hd; try (exists d; now auto).
  destruct (decide (id' = id)) as [->|Hne].
  - rewrite Hd in H. cbn in H. exists doc. rewrite lookup_insert_eq. tauto.
  - exists d. rewrite lookup_insert_ne by congruence. auto.
Qed.

Lemma write_stockCheck id doc inv db :
  from_option (fun d => StockCheck.checkNo doc = StockCheck.checkNo d
                        /\ StockCheck.createdAt doc = StockCheck.createdAt d)
              True (stockChecks db !! id) ->
  persists db (with_inventory inv
                 (with_stockChecks (<[id := doc]> (stockChecks db)) db)).
Proof.
  intros H. repeat split; cbn; intros id' d Hd; try (exists d; now auto).
  destruct (decide (id' = id)) as [->|Hne].
  - rewrite Hd in H. cbn in H. exists doc. rewrite lookup_insert_eq. tauto.
  - exists d. rewrite lookup_insert_ne by congruence. auto.
Qed.

Lemma same_inventory db : with_inventory (inventory db) db = db.
Proof. now destruct db. Qed.

Lemma run_persists op db : persists db (run op db).2.
Proof.
  destruct op; cbn [run]; rewrite Frozen.outcome_snd.
  - pose proof (Effects.stockIn_create data operator env db) as H.
    destruct (createStockIn data operator env db) as [[[id doc]|e'] d]; cbn [snd].
    + destruct H as (-> & -> & Hid & ->).
      rewrite <- (same_inventory (with_stockIns _ db)).
      apply write_stockIn. now rewrite Hid.
    + subst d. apply persists_refl.
  - pose proof (Effects.stockIn_update id data db) as H.
    destruct (updateStockIn id data db) as [[doc|e'] d]; cbn [snd].
    + destruct H as (d0 & Hd & _ & -> & ->).
      rewrite <- (same_inventory (with_stockIns _ db)).
      apply write_stockIn. rewrite Hd. unfold stockIn_base.
      now destruct (PartialStockInInput.items data).
    + subst d. apply persists_refl.
  - pose proof (Effects.stockIn_complete id db) as H.
    destruct (completeStockIn id db) as [[u|e'] d]; cbn [snd].
    + destruct H as (d0 & Hd & _ & _ & ->).
      apply write_stockIn. now rewrite Hd.
    + subst d. apply persists_refl.
  - pose proof (Effects.stockOut_create data operator env db) as H.
    destruct (createStockOut data operator env db) as [[[id doc]|e'] d]; cbn [snd].
    + destruct H as (-> & -> & Hid & ->).
      rewrite <- (same_inventory (with_stockOuts _ db)).
      apply write_stockOut. now rewrite Hid.
    + subst d. apply persists_refl.
  - pose proof (Effects.stockOut_update id data db) as H.
    destruct (updateStockOut id data db) as [[doc|e'] d]; cbn [snd].
    + destruct H as (d0 & Hd & _ & -> & ->).
      rewrite <- (same_inventory (with_stockOuts _ db)).
      apply write_stockOut. rewrite Hd. unfold stockOut_base.
      now destruct (PartialStockOutInput.items data).
    + subst d. apply persists_refl.
  - pose proof (Effects.stockOut_complete id db) as H.
    destruct (completeStockOut id db) as [[u|e'] d]; cbn [snd].
    + destruct H as (d0 & Hd & _ & _ & ->).
      apply write_stockOut. now rewrite Hd.
    + subst d. apply persists_refl.
  - pose proof (Effects.stockTransfer_create data operator env db) as H.
    destruct (createStockTransfer data operator env db) as [[[id doc]|e'] d];
      cbn [snd].
    + destruct H as (-> & -> & _ & Hid & ->).
      rewrite <- (same_inventory (with_stockTransfers _ db)).
      apply write_stockTransfer. now rewrite Hid.
    + subst d. apply persists_refl.
  - pose proof (Effects.stockTransfer_update id data db) as H.
    destruct (updateStockTransfer id data db) as [[doc|e'] d]; cbn [snd].
    + destruct H as (d0 & Hd & _ & _ & -> & ->).
      rewrite <- (same_inventory (with_stockTransfers _ db)).
      apply write_stockTransfer. rewrite Hd. unfold stockTransfer_base.
      now destruct (PartialStockTransferInput.items data).
    + subst d. apply persists_refl.
  - pose proof (Effects.stockTransfer_complete id db) as H.
    destruct (completeStockTransfer id db) as [[u|e'] d]; cbn [snd].
    + destruct H as (d0 & Hd & _ & _ & ->).
      apply write_stockTransfer. now rewrite Hd.
    + subst d. apply persists_refl.
  - pose proof (Effects.stockCheck_create data env db) as H.
    destruct (createStockCheck data env db) as [[[id doc]|e'] d]; cbn [snd].
    + destruct H as (-> & -> & Hid & ->).
      rewrite <- (same_inventory (with_stockChecks _ db)).
      apply write_stockCheck. now rewrite Hid.
    + subst d. apply persists_refl.
  - pose proof (Effects.stockCheck_update id data db) as H.
    destruct (updateStockCheck id data db) as [[doc|e'] d]; cbn [snd].
    + destruct H as (d0 & Hd & _ & -> & ->).
      rewrite <- (same_inventory (with_stockChecks _ db)).
      apply write_stockCheck. rewrite Hd. unfold stockCheck_base.
      now destruct (PartialStockCheckInput.items data).
    + subst d. apply persists_refl.
  - pose proof (Effects.stockCheck_complete id db) as H.
    destruct (completeStockCheck id db) as [[u|e'] d]; cbn [snd].
    + destruct H as (d0 & Hd & _ & _ & ->).
      apply write_stockCheck. now rewrite Hd.
    + subst d. apply persists_refl.
Qed.

End Persist.

(** X5.  No sequence of create, update and complete calls removes a
    document or renumbers it: every document stored at the start is stored
    at the end under the same id, with the number, the operator and the
    creation time it had (a stock-check has no operator column). *)
Theorem documents_are_never_removed_or_renumbered (ops : list Op) (db : DB) :
  persists db (runAll ops db).
Proof.
  revert db. induction ops as [|op rest IH]; intros db; [apply Persist.persists_refl|].
  cbn [runAll]. eapply Persist.persists_trans; [apply Persist.run_persists|apply IH].
Qed.

Lemma documents_are_never_removed_or_renumbered_witness :
  exists d', stockIns (runAll [UpdateStockIn "in1"
                                 (PartialStockInInput.mk (Some "W2") None None None None
                                    (Some []) None);
                               CompleteStockIn "in1"] shopExample) !! "in1" = Some d'
             /\ StockIn.inNo d' = "IN20240521001" /\ StockIn.warehouseId d' = "W2".
Proof.
  destruct (documents_are_never_removed_or_renumbered
              [UpdateStockIn "in1"
                 (PartialStockInInput.mk (Some "W2") None None None None (Some []) None);
               CompleteStockIn "in1"] shopExample) as (H & _).
  destruct (H "in1" (StockIn.mk "IN20240521001" "W1" "purchase" None None 0 "amy"
                       "draft" None 1 [StockInItem.mk "P" 10 None None None]))
    as (d' & Hd' & Hno & _); [vm_compute; reflexivity|].
  exists d'. split; [exact Hd'|]. split; [exact Hno|].
  assert (Some (StockIn.warehouseId d') = Some "W2") as [= ->]; [|reflexivity].
  change (Some (StockIn.warehouseId d')) with (StockIn.warehouseId <$> Some d').
  rewrite <- Hd'. vm_compute. reflexivity.
Defined.

(** ** The ledger over whole sessions *)

Module Session.

Lemma run_consistent op db : ledgerConsistent db -> ledgerConsistent (run op db).2.
Proof.
  intros Hdb. destruct op; cbn [run]; rewrite Frozen.outcome_snd.
  - pose proof (Effects.stockIn_create data operator env db) as H.
    destruct (createStockIn data operator env db) as [[[id doc]|e'] d]; cbn [snd].
    + destruct H as (_ & _ & _ & ->). exact Hdb.
    + now subst d.
  - pose proof (Effects.stockIn_update id data db) as H.
    destruct (updateStockIn id data db) as [[doc|e'] d]; cbn [snd].
    + destruct H as (d0 & _ & _ & _ & ->). exact Hdb.
    + now subst d.
  - now apply CompletionLedger.completeStockIn_consistent.
  - pose proof (Effects.stockOut_create data operator env db) as H.
    destruct (createStockOut data operator env db) as [[[id doc]|e'] d]; cbn [snd].
    + destruct H as (_ & _ & _ & ->). exact Hdb.
    + now subst d.
  - pose proof (Effects.stockOut_update id data db) as H.
    destruct (updateStockOut id data db) as [[doc|e'] d]; cbn [snd].
    + destruct H as (d0 & _ & _ & _ & ->). exact Hdb.
    + now subst d.
  - now apply CompletionLedger.completeStockOut_consistent.
  - pose proof (Effects.stockTransfer_create data operator env db) as H.
    destruct (createStockTransfer data operator env db) as [[[id doc]|e'] d];
      cbn [snd].
    + destruct H as (_ & _ & _ & _ & ->). exact Hdb.
    + now subst d.
  - pose proof (Effects.stockTransfer_update id data db) as H.
    destruct (updateStockTransfer id data db) as [[doc|e'] d]; cbn [snd].
    + destruct H as (d0 & _ & _ & _ & _ & ->). exact Hdb.
    + now subst d.
  - now apply CompletionLedger.completeStockTransfer_consistent.
  - pose proof (Effects.stockCheck_create data env db) as H.
    destruct (createStockCheck data env db) as [[[id doc]|e'] d]; cbn [snd].
    + destruct H as (_ & _ & _ & ->). exact Hdb.
    + now subst d.
  - pose proof (Effects.stockCheck_update id data db) as H.
    destruct (updateStockCheck id data db) as [[doc|e'] d]; cbn [snd].
    + destruct H as (d0 & _ & _ & _ & ->). exact Hdb.
    + now subst d.
  - now apply CompletionLedger.completeStockCheck_consistent.
Qed.

(** Create and update leave the balance table alone. *)
Lemma edits_keep_inventory op db :
  match op with
  | CompleteStockIn _ | CompleteStockOut _
  | CompleteStockTransfer _ | CompleteStockCheck _ => True
  | _ => inventory (run op db).2 = inventory db
  end.
Proof.
  destruct op; cbn [run]; try exact I; rewrite Frozen.outcome_snd.
  - pose proof (Effects.stockIn_create data operator env db) as H.
    destruct (createStockIn data operator env db) as [[[id doc]|e'] d]; cbn [snd].
    + now destruct H as (_ & _ & _ & ->).
    + now subst d.
  - pose proof (Effects.stockIn_update id data db) as H.
    destruct (updateStockIn id data db) as [[doc|e'] d]; cbn [snd].
    + now destruct H as (d0 & _ & _ & _ & ->).
    + now subst d.
  - pose proof (Effects.stockOut_create data operator env db) as H.
    destruct (createStockOut data operator env db) as [[[id doc]|e'] d]; cbn [snd].
    + now destruct H as (_ & _ & _ & ->).
    + now subst d.
  - pose proof (Effects.stockOut_update id data db) as H.
    destruct (updateStockOut id data db) as [[doc|e'] d]; cbn [snd].
    + now destruct H as (d0 & _ & _ & _ & ->).
    + now subst d.
  - pose proof (Effects.stockTransfer_create data operator env db) as H.
    destruct (createStockTransfer data operator env db) as [[[id doc]|e'] d];
      cbn [snd].
    + now destruct H as (_ & _ & _ & _ & ->).
    + now subst d.
  - pose proof (Effects.stockTransfer_update id data db) as H.
    destruct (updateStockTransfer id data db) as [[doc|e'] d]; cbn [snd].
    + now destruct H as (d0 & _ & _ & _ & _ & ->).
    + now subst d.
  - pose proof (Effects.stockCheck_create data env db) as H.
    destruct (createStockCheck data env db) as [[[id doc]|e'] d]; cbn [snd].
    + now destruct H as (_ & _ & _ & ->).
    + now subst d.
  - pose proof (Effects.stockCheck_update id data db) as H.
    destruct (updateStockCheck id data db) as [[doc|e'] d]; cbn [snd].
    + now destruct H as (d0 & _ & _ & _ & ->).
    + now subst d.
Qed.

End Session.

(** X6.  Over any sequence of create, update and complete calls the ledger
    stays consistent: if every balance row satisfies
    [quantity = availableQuantity + reservedQuantity] at the start, every
    row does at the end; and a create or an update, accepted or refused,
    leaves the balance table as it was. *)
Theorem ledger_stays_consistent_over_sessions (ops : list Op) (db : DB) :
  (ledgerConsistent db -> ledgerConsistent (runAll ops db)) /\
  (forall op,
      match op with
      | CompleteStockIn _ | CompleteStockOut _
      | CompleteStockTransfer _ | CompleteStockCheck _ => True
      | _ => inventory (run op db).2 = inventory db
      end).
Proof.
  split; [|intros op; apply Session.edits_keep_inventory].
  revert db. induction ops as [|op rest IH]; intros db H; [exact H|].
  cbn [runAll]. apply IH, Session.run_consistent, H.
Qed.

Lemma ledger_stays_consistent_over_sessions_witness :
  ledgerConsistent (runAll shopSession freshShop) /\
  inventory (runAll shopSession freshShop) !! ("W1", "P") = Some (Inventory.mk 1 1 0).
Proof.
  split; [|vm_compute; reflexivity].
  apply (ledger_stays_consistent_over_sessions shopSession freshShop).
  unfold ledgerConsistent, freshShop. cbn.
  apply map_Forall_insert_2; [reflexivity|].
  apply map_Forall_singleton. reflexivity.
Defined.

(** ** Available stock stays non-negative *)

Module NonNegative.
Import LedgerProps.

Lemma insert_row k row db :
  neverNegative db -> 0 <= Inventory.availableQuantity row ->
  neverNegative (with_inventory (<[k := row]> (inventory db)) db).
Proof. unfold neverNegative. cbn. intros Hdb Hrow. now apply map_Forall_insert_2. Qed.

Lemma decrease_nonneg w p q tx u tx' :
  neverNegative tx -> decreaseInventoryInTransaction w p q tx = Ok (u, tx') ->
  neverNegative tx'.
Proof.
  intros Hdb Hrun. destruct u.
  apply decrease_ok in Hrun as (existing & Hrow & Hq & ->).
  apply insert_row; [exact Hdb|]. cbn. lia.
Qed.

Lemma increase_nonneg w p q tx u tx' :
  0 <= q -> neverNegative tx -> increaseInventoryInTransaction w p q tx = Ok (u, tx') ->
  neverNegative tx'.
Proof.
  intros Hq Hdb. rewrite increase_run. intros [= <- <-].
  apply insert_row; [exact Hdb|].
  destruct (inventory tx !! (w, p)) as [existing|] eqn:Hrow; cbn; [|exact Hq].
  pose proof (Hdb _ _ Hrow). cbn in *. lia.
Qed.

Lemma difference_nonneg w item tx u tx' :
  neverNegative tx -> applyDifference w item tx = Ok (u, tx') -> neverNegative tx'.
Proof.
  intros Hdb. unfold applyDifference.
  destruct (Z.ltb_spec 0 (StockCheckItem.difference item)).
  - apply increase_nonneg; [lia|exact Hdb].
  - destruct (StockCheckItem.difference item <? 0).
    + now apply decrease_nonneg.
    + now intros [= _ <-].
Qed.

Lemma transferLine from to p q tx u tx' :
  0 <= q -> neverNegative tx ->
  (decreaseInventoryInTransaction from p q ;;;
   increaseInventoryInTransaction to p q) tx = Ok (u, tx') ->
  neverNegative tx'.
Proof.
  intros Hq Hdb. unfold bind.
  destruct (decreaseInventoryInTransaction from p q tx) as [[u1 tx1]|e] eqn:Hd;
    [|discriminate].
  apply increase_nonneg; [exact Hq|]. eapply decrease_nonneg; eassumption.
Qed.

End NonNegative.

(** X7.  If no balance has a negative available quantity, none has after a
    completion: always for a stock-out and for a stock-check, and for a
    stock-in or a transfer whose line quantities are non-negative. *)
Theorem available_stock_never_goes_negative (id : string) (db : DB) :
  neverNegative db ->
  neverNegative (completeStockOut id db).2 /\
  neverNegative (completeStockCheck id db).2 /\
  (forall d, stockIns db !! id = Some d ->
             Forall (fun item => 0 <= StockInItem.quantity item) (StockIn.items d) ->
             neverNegative (completeStockIn id db).2) /\
  (forall d, stockTransfers db !! id = Some d ->
             Forall (fun item => 0 <= StockTransferItem.quantity item)
                    (StockTransfer.items d) ->
             neverNegative (completeStockTransfer id db).2).
Proof.
  intros Hdb. repeat apply conj.
  - pose proof (Effects.stockOut_complete id db) as H.
    destruct (completeStockOut id db) as [[u|e] db']; cbn [snd]; [|now subst].
    destruct H as (d & _ & _ & Hrun & _).
    revert Hrun. apply forEach_preserves; [|exact Hdb].
    intros item tx u' tx' _. apply NonNegative.decrease_nonneg.
  - pose proof (Effects.stockCheck_complete id db) as H.
    destruct (completeStockCheck id db) as [[u|e] db']; cbn [snd]; [|now subst].
    destruct H as (d & _ & _ & Hrun & _).
    revert Hrun. apply forEach_preserves; [|exact Hdb].
    intros item tx u' tx' _. apply NonNegative.difference_nonneg.
  - intros d Hd Hpos. pose proof (Effects.stockIn_complete id db) as H.
    destruct (completeStockIn id db) as [[u|e] db']; cbn [snd]; [|now subst].
    destruct H as (d' & Hd' & _ & Hrun & _).
    assert (d' = d) as -> by congruence.
    revert Hrun. apply forEach_preserves; [|exact Hdb].
    intros item tx u' tx' Hin. apply NonNegative.increase_nonneg.
    rewrite Forall_forall in Hpos. apply Hpos. now apply list_elem_of_In.
  - intros d Hd Hpos. pose proof (Effects.stockTransfer_complete id db) as H.
    destruct (completeStockTransfer id db) as [[u|e] db']; cbn [snd]; [|now subst].
    destruct H as (d' & Hd' & _ & Hrun & _).
    assert (d' = d) as -> by congruence.
    revert Hrun. apply forEach_preserves; [|exact Hdb].
    intros item tx u' tx' Hin. apply NonNegative.transferLine.
    rewrite Forall_forall in Hpos. apply Hpos. now apply list_elem_of_In.
Qed.

Lemma available_stock_never_goes_negative_witness :
  neverNegative (completeStockTransfer "tr1" shopExample).2 /\
  availableOf (completeStockTransfer "tr1" shopExample).2 "W1" "P" = 7.
Proof.
  split; [|vm_compute; reflexivity].
  destruct (available_stock_never_goes_negative "tr1" shopExample) as (_ & _ & _ & H).
  - unfold neverNegative, shopExample. cbn.
    apply map_Forall_insert_2; [cbn; lia|].
    apply map_Forall_singleton. cbn. lia.
  - apply (H (StockTransfer.mk "TR20240521001" "W1" "W2" 0 "amy"
                "draft" None 4 [StockTransferItem.mk "P" 3 None None None None])).
    + vm_compute. reflexivity.
    + repeat constructor. cbn. lia.
Defined.

(** The sign matters for a stock-in: a line of [-8] on a balance of 5. *)
Example negative_stock_in_line_goes_below_zero :
  let db := mkDB ∅ ∅ {[ ("W", "P") := Inventory.mk 5 5 0 ]}
              {[ "i" := StockIn.mk "IN1" "W" "purchase" None None 0 "amy" "draft" None 0
                          [StockInItem.mk "P" (-8) None None None] ]} ∅ ∅ ∅ in
  availableOf (completeStockIn "i" db).2 "W" "P" = -3.
Proof. vm_compute. reflexivity. Qed.

(** ** What a stock-out needs and what it takes *)

Module Demand.
Import LedgerProps.

Section DecreaseLoop.
Context {I : Type} (productId : I -> string) (quantity : I -> Z) (w : string).

Let body (item : I) : Tx unit :=
  decreaseInventoryInTransaction w (productId item) (quantity item).




End DecreaseLoop.

End Demand.





(** ** What a transfer moves *)

Module Moves.



End Moves.



(** ** Ledger round trips and the stand-alone variants *)

Module RoundTrips.
Import LedgerProps.



End RoundTrips.



(** X12.  With an existing warehouse and product, the stand-alone
    [increaseInventory] and [decreaseInventory] do what their
    in-transaction counterparts do; the stand-alone decrease reports a
    missing row and a short row with the same insufficient-stock error.
    With a missing warehouse both fail with the warehouse error, whatever
    the product, and leave the database alone. *)
Theorem standalone_ledger_calls_agree (w p : string) (q : Z) (db : DB) :
  (warehouses db !! w = None ->
   increaseInventory w p q db = (Err WarehouseNotFound, db) /\
   decreaseInventory w p q db = (Err WarehouseNotFound, db)) /\
  (is_Some (warehouses db !! w) -> p ∉ products db ->
   increaseInventory w p q db = (Err ProductMissing, db) /\
   decreaseInventory w p q db = (Err ProductMissing, db)) /\
  (is_Some (warehouses db !! w) -> p ∈ products db ->
   (forall db', increaseInventory w p q db = (Ok tt, db') <->
                increaseInventoryInTransaction w p q db = Ok (tt, db')) /\
   (forall db', decreaseInventory w p q db = (Ok tt, db') <->
                decreaseInventoryInTransaction w p q db = Ok (tt, db')) /\
   (forall e, decreaseInventoryInTransaction w p q db = Err e ->
              decreaseInventory w p q db = (Err InventoryInsufficient, db))).
Proof.
  split; [|split].
  - intros Hw. unfold increaseInventory, decreaseInventory. now rewrite Hw.
  - intros [wh Hw] Hp. unfold increaseInventory, decreaseInventory. rewrite Hw.
    now rewrite !decide_False by exact Hp.
  - intros [wh Hw] Hp. split; [|split].
    + intros db'. unfold increaseInventory. rewrite Hw, decide_True by exact Hp.
      rewrite LedgerProps.updateQuantity_plain, LedgerProps.increase_run.
      split; congruence.
    + intros db'. unfold decreaseInventory. rewrite Hw, decide_True by exact Hp.
      unfold decreaseInventoryInTransaction.
      destruct (inventory db !! (w, p)) as [row|] eqn:Hrow; [|split; discriminate].
      destruct (Inventory.availableQuantity row <? q); [split; discriminate|].
      rewrite LedgerProps.updateQuantity_plain, Hrow. cbn [increased].
      destruct row as [a b c]. cbn.
      replace (a + - q) with (a - q) by lia. replace (b + - q) with (b - q) by lia.
      split; congruence.
    + intros e. unfold decreaseInventory. rewrite Hw, decide_True by exact Hp.
      unfold decreaseInventoryInTransaction.
      destruct (inventory db !! (w, p)) as [row|]; [|reflexivity].
      destruct (Inventory.availableQuantity row <? q); [reflexivity|discriminate].
Qed.

Lemma standalone_ledger_calls_agree_witness :
  exists db', decreaseInventory "W1" "P" 4 shopExample = (Ok tt, db') /\
              inventory db' !! ("W1", "P") = Some (Inventory.mk 6 6 0).
Proof.
  destruct (standalone_ledger_calls_agree "W1" "P" 4 shopExample) as (_ & _ & H).
  destruct H as (_ & H & _); [vm_compute; eexists; reflexivity|repeat constructor|].
  eexists. split; [apply H; vm_compute; reflexivity|vm_compute; reflexivity].
Defined.

(** ** Reference checks at creation *)

Module References.

Lemma first_missing {I} (productId : I -> string) before line after db :
  Forall (fun item => productId item ∈ products db) before ->
  productId line ∉ products db ->
  validateProducts productId (before ++ line :: after) db
  = Some (ProductNotFound (productId line)).
Proof.
  induction 1 as [|x l Hx _ IH]; intros Hline; cbn.
  - now rewrite decide_False by exact Hline.
  - rewrite decide_True by exact Hx. now apply IH.
Qed.

End References.

(** X13.  Creation checks the warehouse before the lines and the lines in
    order: with an unknown warehouse a stock-in, stock-out or stock-check
    is refused with the warehouse error whatever its lines; with a known
    warehouse it is refused with the product error that names the first
    line whose product is unknown.  Nothing is stored either way. *)
Theorem create_names_first_missing_reference (db : DB) :
  (forall data operator env,
      warehouses db !! CreateStockInInput.warehouseId data = None ->
      createStockIn data operator env db = (Err WarehouseNotFound, db)) /\
  (forall data operator env before line after,
      is_Some (warehouses db !! CreateStockInInput.warehouseId data) ->
      CreateStockInInput.items data = (before ++ line :: after)%list ->
      Forall (fun item => StockInItem.productId item ∈ products db) before ->
      StockInItem.productId line ∉ products db ->
      createStockIn data operator env db
      = (Err (ProductNotFound (StockInItem.productId line)), db)) /\
  (forall data operator env,
      warehouses db !! CreateStockOutInput.warehouseId data = None ->
      createStockOut data operator env db = (Err WarehouseNotFound, db)) /\
  (forall data operator env before line after,
      is_Some (warehouses db !! CreateStockOutInput.warehouseId data) ->
      CreateStockOutInput.items data = (before ++ line :: after)%list ->
      Forall (fun item => StockOutItem.productId item ∈ products db) before ->
      StockOutItem.productId line ∉ products db ->
      createStockOut data operator env db
      = (Err (ProductNotFound (StockOutItem.productId line)), db)) /\
  (forall data env,
      warehouses db !! CreateStockCheckInput.warehouseId data = None ->
      createStockCheck data env db = (Err WarehouseNotFound, db)) /\
  (forall data env before line after,
      is_Some (warehouses db !! CreateStockCheckInput.warehouseId data) ->
      CreateStockCheckInput.items data = (before ++ line :: after)%list ->
      Forall (fun item => StockCheckItemInput.productId item ∈ products db) before ->
      StockCheckItemInput.productId line ∉ products db ->
      createStockCheck data env db
      = (Err (ProductNotFound (StockCheckItemInput.productId line)), db)).
Proof.
  repeat apply conj.
  - intros data operator env Hw. unfold createStockIn. now rewrite Hw.
  - intros data operator env before line after [wh Hw] Hitems Hb Hline.
    unfold createStockIn. rewrite Hw, Hitems.
    now rewrite References.first_missing.
  - intros data operator env Hw. unfold createStockOut. now rewrite Hw.
  - intros data operator env before line after [wh Hw] Hitems Hb Hline.
    unfold createStockOut. rewrite Hw, Hitems.
    now rewrite References.first_missing.
  - intros data env Hw. unfold createStockCheck. now rewrite Hw.
  - intros data env before line after [wh Hw] Hitems Hb Hline.
    unfold createStockCheck. rewrite Hw, Hitems.
    now rewrite References.first_missing.
Qed.

Lemma create_names_first_missing_reference_witness :
  createStockIn
    (CreateStockInInput.mk "W1" "purchase" None None 0
       [StockInItem.mk "P" 1 None None None; StockInItem.mk "R" 2 None None None;
        StockInItem.mk "S" 3 None None None] None)
    "amy" shopEnv shopExample
  = (Err (ProductNotFound "R"), shopExample).
Proof.
  destruct (create_names_first_missing_reference shopExample) as (_ & H & _).
  apply (H _ "amy" shopEnv [StockInItem.mk "P" 1 None None None]
           (StockInItem.mk "R" 2 None None None) [StockInItem.mk "S" 3 None None None]).
  - vm_compute. eexists. reflexivity.
  - reflexivity.
  - repeat constructor.
  - compute_done.
Defined.

(** X14.  A transfer creation checks, in this order: the source warehouse,
    the destination warehouse, that the two differ, then the products of
    the lines.  So equal warehouse ids that are unknown give the source
    error, and equal known ids are refused before any line is looked at. *)
Theorem transfer_creation_check_order (data : CreateStockTransferInput.t)
    (operator : string) (env : Env) (db : DB) :
  let from := CreateStockTransferInput.fromWarehouseId data in
  let to := CreateStockTransferInput.toWarehouseId data in
  (warehouses db !! from = None ->
   createStockTransfer data operator env db = (Err SourceWarehouseNotFound, db)) /\
  (is_Some (warehouses db !! from) -> warehouses db !! to = None ->
   createStockTransfer data operator env db = (Err TargetWarehouseNotFound, db)) /\
  (is_Some (warehouses db !! from) -> from = to ->
   createStockTransfer data operator env db = (Err SameWarehouse, db)) /\
  (forall before line after,
      is_Some (warehouses db !! from) -> is_Some (warehouses db !! to) -> from <> to ->
      CreateStockTransferInput.items data = (before ++ line :: after)%list ->
      Forall (fun item => StockTransferItem.productId item ∈ products db) before ->
      StockTransferItem.productId line ∉ products db ->
      createStockTransfer data operator env db
      = (Err (ProductNotFound (StockTransferItem.productId line)), db)).
Proof.
  intros from to. unfold createStockTransfer. fold from to. repeat apply conj.
  - now intros ->.
  - now intros [wh ->] ->.
  - intros [wh Hf] Heq. rewrite <- Heq, Hf. now rewrite String.eqb_refl.
  - intros before line after [wf ->] [wt ->] Hne Hitems Hb Hline.
    apply String.eqb_neq in Hne. rewrite Hne, Hitems.
    now rewrite References.first_missing.
Qed.

Lemma transfer_creation_check_order_witness :
  createStockTransfer
    (CreateStockTransferInput.mk "W1" "W1" 0
       [StockTransferItem.mk "nowhere" 1 None None None None] None)
    "amy" shopEnv shopExample
  = (Err SameWarehouse, shopExample).
Proof.
  destruct (transfer_creation_check_order
              (CreateStockTransferInput.mk "W1" "W1" 0
                 [StockTransferItem.mk "nowhere" 1 None None None None] None)
              "amy" shopEnv shopExample) as (_ & _ & H & _).
  apply H; [vm_compute; eexists; reflexivity|reflexivity].
Defined.

(** X15.  An accepted update stores, under the same id, a document with
    the status and the number it had, whose lines are the supplied lines
    when lines are supplied (for a stock-check, with their differences
    computed) and the old lines otherwise; an empty-string warehouse id
    counts as not supplied.  No other document and no balance changes. *)
Theorem update_replaces_lines_wholesale (id : string) (db : DB) :
  (forall data doc db',
      updateStockIn id data db = (Ok doc, db') ->
      exists d,
        stockIns db !! id = Some d /\ stockIns db' !! id = Some doc /\
        StockIn.status doc = StockIn.status d /\ StockIn.inNo doc = StockIn.inNo d /\
        StockIn.items doc = default (StockIn.items d) (PartialStockInInput.items data) /\
        StockIn.warehouseId doc
        = default (StockIn.warehouseId d) (truthy (PartialStockInInput.warehouseId data)) /\
        (forall id', id' <> id -> stockIns db' !! id' = stockIns db !! id') /\
        inventory db' = inventory db) /\
  (forall data doc db',
      updateStockOut id data db = (Ok doc, db') ->
      exists d,
        stockOuts db !! id = Some d /\ stockOuts db' !! id = Some doc /\
        StockOut.status doc = StockOut.status d /\ StockOut.outNo doc = StockOut.outNo d /\
        StockOut.items doc = default (StockOut.items d) (PartialStockOutInput.items data) /\
        StockOut.warehouseId doc
        = default (StockOut.warehouseId d)
                  (truthy (PartialStockOutInput.warehouseId data)) /\
        (forall id', id' <> id -> stockOuts db' !! id' = stockOuts db !! id') /\
        inventory db' = inventory db) /\
  (forall data doc db',
      updateStockTransfer id data db = (Ok doc, db') ->
      exists d,
        stockTransfers db !! id = Some d /\ stockTransfers db' !! id = Some doc /\
        StockTransfer.status doc = StockTransfer.status d /\
        StockTransfer.transferNo doc = StockTransfer.transferNo d /\
        StockTransfer.items doc
        = default (StockTransfer.items d) (PartialStockTransferInput.items data) /\
        StockTransfer.fromWarehouseId doc
        = default (StockTransfer.fromWarehouseId d)
                  (truthy (PartialStockTransferInput.fromWarehouseId data)) /\
        (forall id', id' <> id -> stockTransfers db' !! id' = stockTransfers db !! id') /\
        inventory db' = inventory db) /\
  (forall data doc db',
      updateStockCheck id data db = (Ok doc, db') ->
      exists d,
        stockChecks db !! id = Some d /\ stockChecks db' !! id = Some doc /\
        StockCheck.status doc = StockCheck.status d /\
        StockCheck.checkNo doc = StockCheck.checkNo d /\
        StockCheck.items doc
        = from_option itemsWithDifference (StockCheck.items d)
                      (PartialStockCheckInput.items data) /\
        StockCheck.warehouseId doc
        = default (StockCheck.warehouseId d)
                  (truthy (PartialStockCheckInput.warehouseId data)) /\
        (forall id', id' <> id -> stockChecks db' !! id' = stockChecks db !! id') /\
        inventory db' = inventory db).
Proof.
  repeat apply conj; intros data doc db' H.
  - pose proof (Effects.stockIn_update id data db) as E. rewrite H in E.
    destruct E as (d & Hd & _ & -> & ->). exists d. unfold stockIn_base.
    split; [exact Hd|]. split; [cbn; apply lookup_insert_eq|].
    repeat split; cbn; try (now destruct (PartialStockInInput.items data)).
    intros id' Hne. now rewrite lookup_insert_ne.
  - pose proof (Effects.stockOut_update id data db) as E. rewrite H in E.
    destruct E as (d & Hd & _ & -> & ->). exists d. unfold stockOut_base.
    split; [exact Hd|]. split; [cbn; apply lookup_insert_eq|].
    repeat split; cbn; try (now destruct (PartialStockOutInput.items data)).
    intros id' Hne. now rewrite lookup_insert_ne.
  - pose proof (Effects.stockTransfer_update id data db) as E. rewrite H in E.
    destruct E as (d & Hd & _ & _ & -> & ->). exists d. unfold stockTransfer_base.
    split; [exact Hd|]. split; [cbn; apply lookup_insert_eq|].
    repeat split; cbn; try (now destruct (PartialStockTransferInput.items data)).
    intros id' Hne. now rewrite lookup_insert_ne.
  - pose proof (Effects.stockCheck_update id data db) as E. rewrite H in E.
    destruct E as (d & Hd & _ & -> & ->). exists d. unfold stockCheck_base.
    split; [exact Hd|]. split; [cbn; apply lookup_insert_eq|].
    repeat split; cbn; try (now destruct (PartialStockCheckInput.items data)).
    intros id' Hne. now rewrite lookup_insert_ne.
Qed.

Lemma update_replaces_lines_wholesale_witness :
  exists doc db',
    updateStockCheck "ck1"
      (PartialStockCheckInput.mk (Some "") None None
         (Some [StockCheckItemInput.mk "Q" 9 4 None None]) None) shopExample
    = (Ok doc, db') /\
    StockCheck.items doc = [StockCheckItem.mk "Q" 9 4 (-5) None None] /\
    StockCheck.warehouseId doc = "W1" /\ StockCheck.status doc = "draft".
Proof.
  destruct (update_replaces_lines_wholesale "ck1" shopExample) as (_ & _ & _ & H).
  pose (data := PartialStockCheckInput.mk (Some "") None None
                  (Some [StockCheckItemInput.mk "Q" 9 4 None None]) None).
  pose (r := updateStockCheck "ck1" data shopExample).
  assert (Hr : updateStockCheck "ck1" data shopExample
               = (Ok (stockCheck_patch data
                        (stockCheck_setItems []
                           (StockCheck.mk "CK20240521001" "W1" 0 "bob" "draft" None 5
                              [StockCheckItem.mk "P" 20 17 (-3) None None;
                               StockCheckItem.mk "Q" 20 25 5 None None]))), r.2))
    by (vm_compute; reflexivity).
  destruct (H _ _ _ Hr) as (d & Hd & _ & Hs & _ & Hitems & Hw & _).
  assert (d = StockCheck.mk "CK20240521001" "W1" 0 "bob" "draft" None 5
                [StockCheckItem.mk "P" 20 17 (-3) None None;
                 StockCheckItem.mk "Q" 20 25 5 None None]) as ->
    by (vm_compute in Hd; congruence).
  eexists _, _. split; [exact Hr|].
  split; [exact Hitems|]. split; [exact Hw|exact Hs].
Defined.

(** ** Reading a stock-check back *)



(** ** The errors a completion can raise *)

Module Raised.
Import Completion Completed.

Lemma forEach_error {A} (P : Error -> Prop) (body : A -> Tx unit) items :
  (forall item tx e, body item tx = Err e -> P e) ->
  forall tx e, forEach body items tx = Err e -> P e.
Proof.
  intros Hbody. induction items as [|x l IH]; intros tx e; [discriminate|].
  rewrite forEach_cons. destruct (body x tx) as [[u tx1]|e1] eqn:Hx.
  - apply IH.
  - intros [= <-]. eapply Hbody, Hx.
Qed.

Lemma settle_raised r db e db' : settle r db = (Err e, db') -> r = Err e.
Proof. destruct r as [[[] tx']|e']; cbn; congruence. Qed.

Lemma decrease_raises w p q tx e :
  decreaseInventoryInTransaction w p q tx = Err e -> stockShort e.
Proof.
  unfold decreaseInventoryInTransaction, stockShort.
  destruct (inventory tx !! (w, p)) as [row|]; [|intros [= <-]; now left].
  destruct (_ <? _); [intros [= <-]; now right|discriminate].
Qed.

Lemma transferLine_raises from to p q tx e :
  (decreaseInventoryInTransaction from p q ;;;
   increaseInventoryInTransaction to p q) tx = Err e -> stockShort e.
Proof.
  unfold bind.
  destruct (decreaseInventoryInTransaction from p q tx) as [[u tx1]|e1] eqn:Hd.
  - rewrite LedgerProps.increase_run. discriminate.
  - intros [= <-]. eapply decrease_raises, Hd.
Qed.

Lemma difference_raises w item tx e :
  applyDifference w item tx = Err e -> stockShort e.
Proof.
  unfold applyDifference. destruct (0 <? _).
  - rewrite LedgerProps.increase_run. discriminate.
  - destruct (_ <? 0); [apply decrease_raises|discriminate].
Qed.

End Raised.

(** X17.  A stock-in completion can only be refused because the id is
    unknown, or the document is already completed, or cancelled: on any
    other stored document it succeeds.  A stock-out, transfer or
    stock-check completion can be refused for those three reasons or for
    stock (no balance row, or not enough available), and for nothing
    else. *)
Theorem completion_errors_are_known (id : string) (db : DB) :
  (forall e db', completeStockIn id db = (Err e, db') ->
     e = DocumentNotFound KStockIn \/ e = AlreadyCompleted KStockIn
     \/ e = AlreadyCancelled KStockIn) /\
  (forall e db', completeStockOut id db = (Err e, db') ->
     e = DocumentNotFound KStockOut \/ e = AlreadyCompleted KStockOut
     \/ e = AlreadyCancelled KStockOut
     \/ e = InventoryMissing \/ e = InventoryInsufficient) /\
  (forall e db', completeStockTransfer id db = (Err e, db') ->
     e = DocumentNotFound KStockTransfer \/ e = AlreadyCompleted KStockTransfer
     \/ e = AlreadyCancelled KStockTransfer
     \/ e = InventoryMissing \/ e = InventoryInsufficient) /\
  (forall e db', completeStockCheck id db = (Err e, db') ->
     e = DocumentNotFound KStockCheck \/ e = AlreadyCompleted KStockCheck
     \/ e = AlreadyCancelled KStockCheck
     \/ e = InventoryMissing \/ e = InventoryInsufficient).
Proof.
  repeat apply conj; intros e db'.
  - destruct (stockIns db !! id) as [d|] eqn:Hd;
      [|rewrite (Completion.stockIn_missing _ _ Hd); intros [= <- _]; tauto].
    destruct (Completed.terminal_dec (StockIn.status d)) as [[Ht|Ht]|Ht].
    + rewrite (Completion.stockIn_completed _ _ _ Hd Ht). intros [= <- _]. tauto.
    + rewrite (Completion.stockIn_cancelled _ _ _ Hd Ht). intros [= <- _]. tauto.
    + rewrite (Completion.stockIn_open _ _ _ Hd Ht). intros H.
      apply Raised.settle_raised in H.
      destruct (Completion.stockInEffect_total d (stockInMarked id d db)) as [tx' Hok].
      congruence.
  - destruct (stockOuts db !! id) as [d|] eqn:Hd;
      [|rewrite (Completion.stockOut_missing _ _ Hd); intros [= <- _]; tauto].
    destruct (Completed.terminal_dec (StockOut.status d)) as [[Ht|Ht]|Ht].
    + rewrite (Completion.stockOut_completed _ _ _ Hd Ht). intros [= <- _]. tauto.
    + rewrite (Completion.stockOut_cancelled _ _ _ Hd Ht). intros [= <- _]. tauto.
    + rewrite (Completion.stockOut_open _ _ _ Hd Ht). intros H.
      apply Raised.settle_raised in H. do 3 right.
      revert H. apply (Raised.forEach_error stockShort).
      intros item tx e'. apply Raised.decrease_raises.
  - destruct (stockTransfers db !! id) as [d|] eqn:Hd;
      [|rewrite (Completion.stockTransfer_missing _ _ Hd); intros [= <- _]; tauto].
    destruct (Completed.terminal_dec (StockTransfer.status d)) as [[Ht|Ht]|Ht].
    + rewrite (Completion.stockTransfer_completed _ _ _ Hd Ht). intros [= <- _]. tauto.
    + rewrite (Completion.stockTransfer_cancelled _ _ _ Hd Ht). intros [= <- _]. tauto.
    + rewrite (Completion.stockTransfer_open _ _ _ Hd Ht). intros H.
      apply Raised.settle_raised in H. do 3 right.
      revert H. apply (Raised.forEach_error stockShort).
      intros item tx e'. apply Raised.transferLine_raises.
  - destruct (stockChecks db !! id) as [d|] eqn:Hd;
      [|rewrite (Completion.stockCheck_missing _ _ Hd); intros [= <- _]; tauto].
    destruct (Completed.terminal_dec (StockCheck.status d)) as [[Ht|Ht]|Ht].
    + rewrite (Completion.stockCheck_completed _ _ _ Hd Ht). intros [= <- _]. tauto.
    + rewrite (Completion.stockCheck_cancelled _ _ _ Hd Ht). intros [= <- _]. tauto.
    + rewrite (Completion.stockCheck_open _ _ _ Hd Ht). intros H.
      apply Raised.settle_raised in H. do 3 right.
      revert H. apply (Raised.forEach_error stockShort).
      intros item tx e'. apply Raised.difference_raises.
Qed.

Lemma completion_errors_are_known_witness :
  exists e, completeStockOut "out1" shopExample = (Err e, shopExample)
            /\ e = InventoryInsufficient.
Proof.
  destruct (completion_errors_are_known "out1" shopExample) as (_ & H & _).
  pose (e := match (completeStockOut "out1" shopExample).1 with
             | Err e => e
             | Ok _ => RecordNotFound
             end).
  assert (Hrun : completeStockOut "out1" shopExample = (Err e, shopExample))
    by (vm_compute; reflexivity).
  exists e. split; [exact Hrun|].
  destruct (H e shopExample Hrun) as [He|[He|[He|[He|He]]]];
    try exact He; vm_compute in He; discriminate He.
Defined.

(** ** What the number generator looks at *)

Module Counting.

Section Count.
Context {D : Type} (no : D -> string).

Lemma count_insert_other p (table : gmap string D) id doc :
  table !! id = None -> startsWith p (no doc) = false ->
  countStartsWith no p (<[id := doc]> table) = countStartsWith no p table.
Proof.
  intros Hid Hp. unfold countStartsWith.
  rewrite map_filter_insert_False by (cbn; now rewrite Hp).
  now rewrite delete_id by exact Hid.
Qed.

Lemma count_replace p (table : gmap string D) id d doc :
  table !! id = Some d -> no doc = no d ->
  countStartsWith no p (<[id := doc]> table) = countStartsWith no p table.
Proof.
  intros Hid Hno. unfold countStartsWith.
  destruct (startsWith p (no d)) eqn:Hp.
  - rewrite map_filter_insert_True by (cbn; now rewrite Hno, Hp).
    apply map_size_insert_Some. exists d.
    apply map_lookup_filter_Some. split; [exact Hid|]. cbn. now rewrite Hp.
  - rewrite map_filter_insert_False by (cbn; now rewrite Hno, Hp).
    rewrite map_filter_delete, delete_id; [reflexivity|].
    apply map_lookup_filter_None. right. intros d' Hd'. cbn.
    assert (d' = d) as -> by congruence. now rewrite Hp.
Qed.
End Count.

End Counting.

(** X18.  The number a generator returns starts with the prefix and the
    date it was asked for, so the document created with it is counted next
    time.  It depends only on how many stored numbers start that way:
    storing a document whose number starts otherwise (another day, another
    prefix) does not change it, and neither does rewriting a stored
    document that keeps its number, as update and complete do. *)
Theorem generator_counts_matching_numbers_only
    (D : Type) (no : D -> string) (table : gmap string D) (prefix today : string) :
  startsWith (prefix +:+ today) (generateNo no table prefix today) = true /\
  (forall id doc,
      table !! id = None -> startsWith (prefix +:+ today) (no doc) = false ->
      generateNo no (<[id := doc]> table) prefix today
      = generateNo no table prefix today) /\
  (forall id d doc,
      table !! id = Some d -> no doc = no d ->
      generateNo no (<[id := doc]> table) prefix today
      = generateNo no table prefix today).
Proof.
  split; [apply Numbering.generateNo_startsWith|]. split.
  - intros id doc Hid Hp. unfold generateNo.
    now rewrite (Counting.count_insert_other no _ _ _ _ Hid Hp).
  - intros id d doc Hid Hno. unfold generateNo.
    now rewrite (Counting.count_replace no _ _ _ _ _ Hid Hno).
Qed.

Lemma generator_counts_matching_numbers_only_witness :
  generateInNo "IN" "20240522" shopExample = "IN20240522001" /\
  generateInNo "IN" "20240521" (runAll [CompleteStockIn "in1"] shopExample)
  = "IN20240521003".
Proof.
  destruct (generator_counts_matching_numbers_only StockIn.t StockIn.inNo
              (stockIns shopExample) "IN" "20240521") as (_ & _ & H).
  split; [vm_compute; reflexivity|].
  assert (Hdb : stockIns (runAll [CompleteStockIn "in1"] shopExample)
                = <["in1" := stockIn_setStatus "completed"
                               (StockIn.mk "IN20240521001" "W1" "purchase" None None 0
                                  "amy" "draft" None 1
                                  [StockInItem.mk "P" 10 None None None])]>
                    (stockIns shopExample)) by (vm_compute; reflexivity).
  unfold generateInNo. rewrite Hdb.
  rewrite (H "in1" (StockIn.mk "IN20240521001" "W1" "purchase" None None 0
                      "amy" "draft" None 1 [StockInItem.mk "P" 10 None None None]));
    [vm_compute; reflexivity|vm_compute; reflexivity|reflexivity].
Defined.

(** ** The page a stock-check list returns *)

Module Page.

Lemma createdAtDesc_transitive : Transitive createdAtDesc.
Proof. intros a b c. unfold createdAtDesc. lia. Qed.

Lemma createdAtDesc_total : Total createdAtDesc.
Proof. intros a b. unfold createdAtDesc. lia. Qed.

Lemma sorted_rows skip take db :
  StronglySorted createdAtDesc
    (firstn take (skipn skip (merge_sort createdAtDesc (map_to_list (stockChecks db))))).
Proof.
  pose proof (@StronglySorted_merge_sort _ createdAtDesc _
                createdAtDesc_transitive createdAtDesc_total
                (map_to_list (stockChecks db))) as H.
  rewrite <- (take_drop skip (merge_sort _ _)) in H.
  apply StronglySorted_app_1_r in H.
  rewrite <- (take_drop take (drop skip _)) in H.
  now apply StronglySorted_app_1_l in H.
Qed.

(** What a summary copies from its row. *)
Lemma summarize_columns db kv summary :
  summarize (loadRow (mkInclude true false) db kv) = Ok summary ->
  StockCheckSummary.id summary = kv.1 /\
  StockCheckSummary.checkNo summary = StockCheck.checkNo kv.2 /\
  StockCheckSummary.status summary = StockCheck.status kv.2 /\
  StockCheckSummary.statusName summary
  = getStockCheckStatusName (StockCheck.status kv.2) /\
  StockCheckSummary.createTime summary = StockCheck.createdAt kv.2 /\
  (exists wh, warehouses db !! StockCheck.warehouseId kv.2 = Some wh /\
              StockCheckSummary.warehouseName summary = Warehouse.name wh).
Proof.
  unfold summarize, loadRow. cbn.
  destruct (warehouses db !! StockCheck.warehouseId kv.2) as [wh|]; [|discriminate].
  intros [= <-]. cbn. repeat split. now exists wh.
Qed.

Lemma page_of_rows page pageSize db result :
  getStockChecks page pageSize db = Ok result ->
  StockCheckPage.total result = size (stockChecks db) /\
  Forall2 (fun kv y => summarize (loadRow (mkInclude true false) db kv) = Ok y)
    (firstn (default 10%nat pageSize)
       (skipn ((default 1%nat page - 1) * default 10%nat pageSize)
          (merge_sort createdAtDesc (map_to_list (stockChecks db)))))
    (StockCheckPage.records result).
Proof.
  unfold getStockChecks, stockCheck_findMany.
  destruct (mapResult summarize _) as [ys|e] eqn:Hys; [|discriminate].
  intros [= <-]. cbn. split; [reflexivity|].
  apply Listing.mapResult_Forall2 in Hys. now apply Forall2_fmap_l in Hys.
Qed.

Lemma rows_summaries db rows ys :
  Forall2 (fun kv y => summarize (loadRow (mkInclude true false) db kv) = Ok y) rows ys ->
  StronglySorted createdAtDesc rows ->
  Forall (fun kv => stockChecks db !! kv.1 = Some kv.2) rows ->
  StronglySorted (fun a b => b <= a) (map StockCheckSummary.createTime ys) /\
  Forall (fun record =>
            exists d wh,
              stockChecks db !! StockCheckSummary.id record = Some d /\
              StockCheckSummary.checkNo record = StockCheck.checkNo d /\
              StockCheckSummary.status record = StockCheck.status d /\
              warehouses db !! StockCheck.warehouseId d = Some wh /\
              StockCheckSummary.warehouseName record = Warehouse.name wh)
         ys.
Proof.
  intros Hrows. induction Hrows as [|kv y rows ys Hy Hrows IH]; intros Hsorted Hin;
    [split; constructor|].
  apply summarize_columns in Hy as Hcols.
  destruct Hcols as (Hid & Hno & Hst & _ & Htime & wh & Hwh & Hname).
  inversion_clear Hsorted as [|? ? Hs1 Hs2]. inversion_clear Hin as [|? ? Hi1 Hi2].
  destruct (IH Hs1 Hi2) as (IH1 & IH2). split.
  - cbn. constructor; [exact IH1|].
    rewrite Forall_forall. intros t Ht.
    apply list_elem_of_fmap in Ht as (y' & -> & Hy').
    destruct (proj1 (list_elem_of_lookup _ _) Hy') as [i Hi].
    destruct (Forall2_lookup_r _ _ _ _ _ Hrows Hi) as (kv' & Hkv' & Hsum).
    apply summarize_columns in Hsum as (_ & _ & _ & _ & Htime' & _).
    rewrite Htime, Htime'.
    rewrite Forall_forall in Hs2. apply (Hs2 kv').
    eapply list_elem_of_lookup_2, Hkv'.
  - constructor; [|exact IH2].
    exists kv.2, wh. rewrite Hid. repeat split; assumption.
Qed.

End Page.

(** X19.  A page that [getStockChecks] returns has at most [pageSize]
    records (10 when none is given), newest first by creation time; its
    [total] is the number of stored stock-checks whatever the page; and
    each record shows the number, the status and the warehouse name of a
    stored stock-check with that id. *)
Theorem stockCheck_page_is_bounded_and_ordered
    (page pageSize : option nat) (db : DB) (result : StockCheckPage.t) :
  getStockChecks page pageSize db = Ok result ->
  (length (StockCheckPage.records result) <= default 10 pageSize)%nat /\
  StockCheckPage.total result = size (stockChecks db) /\
  StronglySorted (fun a b => b <= a)
    (map StockCheckSummary.createTime (StockCheckPage.records result)) /\
  Forall (fun record =>
            exists d wh,
              stockChecks db !! StockCheckSummary.id record = Some d /\
              StockCheckSummary.checkNo record = StockCheck.checkNo d /\
              StockCheckSummary.status record = StockCheck.status d /\
              warehouses db !! StockCheck.warehouseId d = Some wh /\
              StockCheckSummary.warehouseName record = Warehouse.name wh)
         (StockCheckPage.records result).
Proof.
  intros H. apply Page.page_of_rows in H as (Htotal & Hrows).
  split; [rewrite <- (Forall2_length _ _ _ Hrows), length_take; lia|].
  split; [exact Htotal|].
  eapply Page.rows_summaries; [exact Hrows|apply Page.sorted_rows|].
  apply Forall_forall. intros kv Hkv. eapply Listing.page_rows, Hkv.
Qed.

Lemma stockCheck_page_is_bounded_and_ordered_witness :
  exists result,
    getStockChecks (Some 1%nat) (Some 2%nat) checksExample = Ok result /\
    map StockCheckSummary.id (StockCheckPage.records result) = ["b"; "c"] /\
    StockCheckPage.total result = 3%nat /\
    StronglySorted (fun a b => b <= a)
      (map StockCheckSummary.createTime (StockCheckPage.records result)).
Proof.
  pose (result := match getStockChecks (Some 1%nat) (Some 2%nat) checksExample with
                  | Ok r => r
                  | Err _ => StockCheckPage.mk [] 0 0 0
                  end).
  assert (Hrun : getStockChecks (Some 1%nat) (Some 2%nat) checksExample = Ok result)
    by (vm_compute; reflexivity).
  destruct (stockCheck_page_is_bounded_and_ordered _ _ _ _ Hrun)
    as (_ & Htotal & Hsorted & _).
  exists result. split; [exact Hrun|]. split; [vm_compute; reflexivity|].
  split; [refine (eq_trans Htotal _); vm_compute; reflexivity|exact Hsorted].
Defined.

(** ** The product catalogue *)

Module Catalog.

(** [codeExists] answers whether some row other than the excluded one
    carries the code. *)
Lemma codeExists_true (code : string) (excludeId : option string)
    (table : gmap string Product.t) :
  codeExists code excludeId table = true <->
  exists id row,
    table !! id = Some row /\ Product.code row = code /\
    (forall x, truthy excludeId = Some x -> id <> x).
Proof.
  unfold codeExists. rewrite bool_decide_eq_true. split.
  - intros H.
    assert (Hne : size (filter
              (fun kv : string * Product.t =>
                 Is_true (String.eqb (Product.code kv.2) code &&
                          match truthy excludeId with
                          | Some x => negb (String.eqb kv.1 x)
                          | None => true
                          end)) table) <> 0%nat) by lia.
    apply map_size_ne_0_lookup_1 in Hne as [id [row Hrow]].
    apply map_lookup_filter_Some in Hrow as [Hrow HP]. cbn in HP.
    apply andb_prop_elim in HP as [Hcode Hid].
    exists id, row. split; [exact Hrow|]. split.
    + apply String.eqb_eq, Is_true_eq_true, Hcode.
    + intros x Hx. rewrite Hx in Hid. intros ->.
      rewrite String.eqb_refl in Hid. exact Hid.
  - intros (id & row & Hrow & Hcode & Hid).
    enough (size (filter
              (fun kv : string * Product.t =>
                 Is_true (String.eqb (Product.code kv.2) code &&
                          match truthy excludeId with
                          | Some x => negb (String.eqb kv.1 x)
                          | None => true
                          end)) table) <> 0%nat) by lia.
    apply (map_size_ne_0_lookup_2 _ id). exists row.
    apply map_lookup_filter_Some. split; [exact Hrow|]. cbn.
    apply andb_prop_intro. split.
    + apply Is_true_eq_left, String.eqb_eq, Hcode.
    + destruct (truthy excludeId) as [x|] eqn:Hx; [|exact I].
      apply negb_prop_intro. intros Heq.
      apply Is_true_eq_true, String.eqb_eq in Heq.
      exact (Hid x eq_refl Heq).
Qed.

Lemma codeExists_false (code : string) (excludeId : option string)
    (table : gmap string Product.t) :
  codeExists code excludeId table = false ->
  forall id row,
    table !! id = Some row -> Product.code row = code ->
    exists x, truthy excludeId = Some x /\ id = x.
Proof.
  intros H id row Hrow Hcode.
  destruct (truthy excludeId) as [x|] eqn:Hx.
  - exists x. split; [reflexivity|].
    destruct (decide (id = x)) as [->|Hne]; [reflexivity|].
    assert (Ht : codeExists code excludeId table = true).
    { apply codeExists_true. exists id, row.
      split; [exact Hrow|]. split; [exact Hcode|].
      intros y Hy. rewrite Hx in Hy. injection Hy as <-. exact Hne. }
    congruence.
  - assert (Ht : codeExists code excludeId table = true).
    { apply codeExists_true. exists id, row.
      split; [exact Hrow|]. split; [exact Hcode|].
      intros y Hy. rewrite Hx in Hy. discriminate. }
    congruence.
Qed.

(** Writing a row whose code no other row carries keeps codes unique. *)
Lemma uniqueCodes_insert (id : string) (row : Product.t)
    (table : gmap string Product.t) :
  uniqueCodes table ->
  (forall id' row', table !! id' = Some row' ->
     Product.code row' = Product.code row -> id' = id) ->
  uniqueCodes (<[id := row]> table).
Proof.
  intros Hu Hfree id1 id2 row1 row2 H1 H2 Hc.
  destruct (decide (id1 = id)) as [->|Hn1];
    destruct (decide (id2 = id)) as [->|Hn2]; [reflexivity| | |].
  - rewrite lookup_insert_eq in H1. injection H1 as <-.
    rewrite lookup_insert_ne in H2 by congruence.
    symmetry. apply (Hfree _ _ H2). congruence.
  - rewrite lookup_insert_eq in H2. injection H2 as <-.
    rewrite lookup_insert_ne in H1 by congruence.
    apply (Hfree _ _ H1). congruence.
  - rewrite lookup_insert_ne in H1 by congruence.
    rewrite lookup_insert_ne in H2 by congruence.
    exact (Hu _ _ _ _ H1 H2 Hc).
Qed.

Lemma truthy_some (x : string) : x <> "" -> truthy (Some x) = Some x.
Proof. destruct x; [congruence|reflexivity]. Qed.

Lemma truthy_inv (s : option string) (x : string) :
  truthy s = Some x -> s = Some x /\ x <> "".
Proof.
  destruct s as [[|c s]|]; cbn; [discriminate| |discriminate].
  intros [= <-]. split; [reflexivity|discriminate].
Qed.

End Catalog.

(** X20.  [createProduct] refuses a code exactly when some stored product
    already carries it; a refused call leaves the table as it was; an
    accepted one adds the given row under the new id and changes no other
    row; and product codes that were pairwise different stay so. *)
Theorem createProduct_keeps_codes_unique
    (data : Product.t) (newId : string) (table : gmap string Product.t) :
  uniqueCodes table ->
  ((createProduct data newId table).1 = inl ProductCodeExists <->
   exists id row, table !! id = Some row /\ Product.code row = Product.code data) /\
  (forall e, (createProduct data newId table).1 = inl e ->
             (createProduct data newId table).2 = table) /\
  (forall row, (createProduct data newId table).1 = inr row ->
             row = data /\ table !! newId = None /\
             (createProduct data newId table).2 = <[newId := data]> table) /\
  uniqueCodes (createProduct data newId table).2.
Proof.
  intros Hu. unfold createProduct.
  destruct (codeExists (Product.code data) None table) eqn:Hexists.
  - apply Catalog.codeExists_true in Hexists as (id & row & Hrow & Hcode & _).
    cbn. split; [split; [intros _; exists id, row; auto|reflexivity]|].
    split; [reflexivity|]. split; [discriminate|exact Hu].
  - pose proof (Catalog.codeExists_false _ _ _ Hexists) as Hfree.
    assert (Hnone : forall id row, table !! id = Some row ->
                                   Product.code row <> Product.code data).
    { intros id row Hrow Hcode.
      destruct (Hfree id row Hrow Hcode) as (x & Hx & _). discriminate. }
    destruct (table !! newId) as [old|] eqn:Hnew; cbn.
    + split; [split; [discriminate|]|].
      { intros (id & row & Hrow & Hcode). destruct (Hnone _ _ Hrow Hcode). }
      split; [reflexivity|]. split; [discriminate|exact Hu].
    + split; [split; [discriminate|]|].
      { intros (id & row & Hrow & Hcode). destruct (Hnone _ _ Hrow Hcode). }
      split; [discriminate|]. split.
      { intros row [= <-]. auto. }
      apply Catalog.uniqueCodes_insert; [exact Hu|].
      intros id' row' Hrow' Hcode'. destruct (Hnone _ _ Hrow' Hcode').
Qed.

Lemma createProduct_keeps_codes_unique_witness :
  let bolt := Product.mk "P-001" "bolt" None "pcs" 12 0 100 10 "active" None in
  let nut := Product.mk "P-002" "nut" None "pcs" 3 0 100 10 "active" None in
  let table : gmap string Product.t := <["p1" := bolt]> ∅ in
  uniqueCodes table /\
  (createProduct bolt "p2" table).1 = inl ProductCodeExists /\
  (createProduct nut "p2" table).1 = inr nut /\
  uniqueCodes (createProduct nut "p2" table).2.
Proof.
  intros bolt nut table.
  assert (Hu : uniqueCodes table).
  { intros id1 id2 row1 row2 H1 H2 _. subst table.
    apply lookup_insert_Some in H1 as [[<- _]|[_ H1]];
      [|rewrite lookup_empty in H1; discriminate].
    apply lookup_insert_Some in H2 as [[<- _]|[_ H2]];
      [|rewrite lookup_empty in H2; discriminate].
    reflexivity. }
  destruct (createProduct_keeps_codes_unique nut "p2" table Hu)
    as (_ & _ & _ & Hkept).
  destruct (createProduct_keeps_codes_unique bolt "p2" table Hu)
    as (Hrefused & _).
  split; [exact Hu|]. split.
  - apply Hrefused. exists "p1", bolt. split; [|reflexivity].
    subst table. apply lookup_insert_eq.
  - split; [vm_compute; reflexivity|exact Hkept].
Defined.

(** X21.  [updateProduct] with no code in the input, or with a non-empty
    plain one, keeps product codes pairwise different: it refuses the
    update exactly when another product carries the new code, leaves the
    table as it was when it refuses or when the product does not exist,
    and otherwise rewrites that one row.  A product with a non-empty id is
    never refused its own code. *)
Theorem updateProduct_keeps_codes_unique
    (id : string) (data : ProductUpdateInput.t) (table : gmap string Product.t) :
  uniqueCodes table ->
  guardedCode (ProductUpdateInput.code data) ->
  uniqueCodes (updateProduct id data table).2 /\
  (forall e, (updateProduct id data table).1 = inl e ->
             (updateProduct id data table).2 = table) /\
  (forall row, (updateProduct id data table).1 = inr row ->
             exists old, table !! id = Some old /\
               row = product_patch data old /\
               (updateProduct id data table).2 = <[id := row]> table) /\
  (forall old, table !! id = Some old -> id <> "" ->
     ((updateProduct id data table).1 = inl ProductCodeExists <->
      exists id' row', table !! id' = Some row' /\ id' <> id /\
        Product.code row' = Product.code (product_patch data old))).
Proof.
  intros Hu Hguard. unfold updateProduct.
  destruct (table !! id) as [old|] eqn:Hold; cbn.
  2:{ split; [exact Hu|]. split; [reflexivity|].
      split; [discriminate|]. intros old [=]. }
  destruct (ProductUpdateInput.code data) as [|c|c] eqn:Hcode;
    cbn in Hguard; [| |destruct Hguard].
  - (* no code in the input *)
    cbn. split.
    { apply Catalog.uniqueCodes_insert; [exact Hu|].
      intros id' row' Hrow' Hc. cbn in Hc. rewrite ?Hcode in Hc. cbn in Hc.
      exact (Hu _ _ _ _ Hrow' Hold Hc). }
    split; [discriminate|]. split.
    { intros row [= <-]. exists old. auto. }
    intros old' [= <-] Hid. split; [discriminate|].
    intros (id' & row' & Hrow' & Hne & Hc). cbn in Hc.
    exfalso. destruct (Hne (Hu _ _ _ _ Hrow' Hold Hc)).
  - (* a non-empty plain code *)
    destruct c as [|a c]; [destruct (Hguard eq_refl)|].
    destruct (codeExists (String a c) (Some id) table) eqn:Hexists; cbn.
    + split; [exact Hu|]. split; [reflexivity|]. split; [discriminate|].
      intros old' [= <-] Hid. split; [intros _|reflexivity].
      apply Catalog.codeExists_true in Hexists as (id' & row' & Hrow' & Hc & Hx).
      exists id', row'. split; [exact Hrow'|]. split.
      * apply Hx, Catalog.truthy_some, Hid.
      * cbn. rewrite ?Hcode. cbn. exact Hc.
    + pose proof (Catalog.codeExists_false _ _ _ Hexists) as Hfree.
      split.
      { apply Catalog.uniqueCodes_insert; [exact Hu|].
        intros id' row' Hrow' Hc. cbn in Hc. rewrite ?Hcode in Hc. cbn in Hc.
        destruct (Hfree _ _ Hrow' Hc) as (x & Hx & ->).
        apply Catalog.truthy_inv in Hx as [[= ->] _]. reflexivity. }
      split; [discriminate|]. split.
      { intros row [= <-]. exists old. auto. }
      intros old' [= <-] Hid. split; [discriminate|].
      intros (id' & row' & Hrow' & Hne & Hc). cbn in Hc.
      exfalso. destruct (Hfree _ _ Hrow' Hc) as (x & Hx & ->).
      apply Catalog.truthy_inv in Hx as [[= ->] _]. destruct (Hne eq_refl).
Qed.

Lemma updateProduct_keeps_codes_unique_witness :
  let bolt := Product.mk "P-001" "bolt" None "pcs" 12 0 100 10 "active" None in
  let nut := Product.mk "P-002" "nut" None "pcs" 3 0 100 10 "active" None in
  let table : gmap string Product.t := <["p1" := bolt]> (<["p2" := nut]> ∅) in
  let recode c :=
    ProductUpdateInput.mk (Value c) (Value "nut M8") Keep Keep Keep Keep Keep
                          Keep Keep Keep in
  uniqueCodes table /\
  (updateProduct "p2" (recode "P-001") table).1 = inl ProductCodeExists /\
  (updateProduct "p2" (recode "P-002") table).1 <> inl ProductCodeExists /\
  uniqueCodes (updateProduct "p2" (recode "P-002") table).2.
Proof.
  intros bolt nut table recode.
  assert (Hu : uniqueCodes table).
  { intros id1 id2 row1 row2 H1 H2 Hc. subst table.
    apply lookup_insert_Some in H1 as [[<- <-]|[_ H1]];
      apply lookup_insert_Some in H2 as [[<- <-]|[_ H2]];
      try reflexivity.
    - apply lookup_insert_Some in H2 as [[<- <-]|[_ H2]];
        [discriminate|rewrite lookup_empty in H2; discriminate].
    - apply lookup_insert_Some in H1 as [[<- <-]|[_ H1]];
        [discriminate|rewrite lookup_empty in H1; discriminate].
    - apply lookup_insert_Some in H1 as [[<- <-]|[_ H1]];
        [|rewrite lookup_empty in H1; discriminate].
      apply lookup_insert_Some in H2 as [[<- <-]|[_ H2]];
        [reflexivity|rewrite lookup_empty in H2; discriminate]. }
  assert (Hnut : table !! "p2" = Some nut) by (vm_compute; reflexivity).
  assert (Hid : "p2" <> "") by discriminate.
  destruct (updateProduct_keeps_codes_unique "p2" (recode "P-001") table Hu)
    as (_ & _ & _ & Hclash); [discriminate|].
  destruct (updateProduct_keeps_codes_unique "p2" (recode "P-002") table Hu)
    as (Hkept & _ & _ & Hown); [discriminate|].
  split; [exact Hu|]. split; [|split; [|exact Hkept]].
  - apply (Hclash nut Hnut Hid). exists "p1", bolt.
    split; [vm_compute; reflexivity|]. split; [discriminate|reflexivity].
  - intros Hrefused. apply (Hown nut Hnut Hid) in Hrefused
      as (id' & row' & Hrow' & Hne & Hc).
    exact (Hne (Hu _ _ _ _ Hrow' Hnut Hc)).
Defined.
